(** * The collaborative-document relay server

    A shallow embedding of the Yjs WebSocket server with two-tier
    persistence (LevelDB first, Firebase Realtime Database as backup):
    the document registry [docs], the metadata table [docMetadata], the
    [FirebaseBackupManager] class, [getOrCreateDocument],
    [setupWSConnection] with its per-connection handlers, and
    [gracefulShutdown].

    JavaScript runs every callback to completion and suspends an [async]
    function only at an [await] on real I/O.  Each function of the source
    that awaits I/O is therefore split at its awaits: the part before the
    await, and a resumption that takes the outcome of the I/O as an
    input.  The suspended activations are kept in the server state, so
    that interleavings of several activations can be replayed. *)

From Stdlib Require Import ZArith List Lia Ascii.
From stdpp Require Import base option list gmap strings.

Local Open Scope Z_scope.

(** ** Data *)

Definition bytes := list Byte.byte.

(** [new Date().toISOString()] renders the clock; the clock reading stands
    for the rendered string. *)
Definition Time := Z.

(** The objects stored in [docMetadata].  The update observer may create
    one from [{}], so every field can be missing. *)
Record Metadata := mkMetadata {
  created : option Time;
  lastModified : option Time;
  version : option Z
}.

(** [metadata.version || 0] *)
Definition version_or0 (m : Metadata) : Z := default 0 (version m).

(** What [docRef.set] writes under [yjs-documents/<docName>].  The content
    is the state of the document; its base64 rendering and the decoding
    in [restoreDocument] are inverse to each other and left out. *)
Record FbRecord := mkFbRecord {
  content : bytes;
  rmetadata : option Metadata;
  timestamp : Time
}.

(** A call of [docRef.set] whose promise is still pending. *)
Record PendingWrite := mkPendingWrite {
  pw_name : string;
  pw_record : FbRecord
}.

(** [class FirebaseBackupManager]: [database] is [None] when the service
    account key is missing (the handle is [null]); otherwise it is the
    content of the remote store, one record per reference.  [backupQueue]
    is a JavaScript [Set], iterated in insertion order. *)
Record Manager := mkManager {
  database : option (gmap string FbRecord);
  backupQueue : list string;
  isBackupRunning : bool
}.

Inductive ReadyState := CONNECTING | OPEN | CLOSING | CLOSED.

#[global] Instance ReadyState_eq_dec : EqDecision ReadyState.
Proof. solve_decision. Defined.

(** The frames the server sends: the message-type varint ([messageSync]
    = 0, [messageAwareness] = 1) followed by what the protocol library
    wrote after it. *)
Inductive Frame :=
| FSyncStep1 (stateVector : bytes)
| FSyncReply (body : bytes)
| FSyncUpdate (update : bytes)
| FAwareness (body : bytes).

Definition messageSync : N := 0%N.
Definition messageAwareness : N := 1%N.
Definition FIREBASE_BACKUP_INTERVAL : Z := 30000.

(** The callbacks given to [setTimeout]. *)
Inductive TimerCallback :=
| CbBackup (docName : string)              (* scheduleFirebaseBackup *)
| CbCleanup (docName : string) (doc : nat) (* close handler, 30 s *)
| CbRemove (docName : string) (doc : nat). (* close handler, 1 min later *)

Record Timer := mkTimer {
  t_handle : nat;
  t_deadline : Time;
  t_callback : TimerCallback
}.

(** The observers of a document's ['update'] event, in the order of their
    registration: the one [persistence.bindState] installs, the one of
    [getOrCreateDocument] that stamps the metadata and schedules the
    backup, and one [messageListener] per connection set up. *)
Inductive UpdateObserver :=
| ObsBindState
| ObsBackup
| ObsMessageListener (conn : nat).

(** The awareness table of a document with the observers of its
    ['update'] event: one [awarenessChangeHandler] per connection set up. *)
Record Awareness := mkAwareness {
  states : gmap N bytes;
  aw_observers : list nat
}.

(** A [Y.Doc] as the server extends it.  [replica] is the state of the
    document, [Y.encodeStateAsUpdate(ydoc)]; [conns] is the [Map] from
    connection to its set of controlled client ids, in insertion order;
    [backupTimer] is the variable of that name in the closure of
    [getOrCreateDocument]. *)
Record YDoc := mkYDoc {
  dname : string;
  replica : bytes;
  conns : list (nat * list N);
  update_observers : list UpdateObserver;
  awareness : option Awareness;
  backupTimer : option nat
}.

(** A WebSocket: its [readyState], and the document its ['message'] and
    ['close'] handlers close over once [setupWSConnection] has installed
    them. *)
Record Socket := mkSocket {
  readyState : ReadyState;
  handlers : option nat
}.

(** Suspended activations. *)
Record QueueTask := mkQueueTask {   (* processBackupQueue at its await *)
  qt_cursor : nat;
  qt_write : PendingWrite
}.

Record AttachTask := mkAttachTask { (* getOrCreateDocument at its await *)
  at_conn : nat;
  at_name : string;
  at_doc : nat
}.

Record ShutdownTask := mkShutdownTask { (* gracefulShutdown at its await *)
  sd_cursor : nat;
  sd_write : PendingWrite
}.

Inductive LogLine :=
| LogInfo (s : string)
| LogWarn (s : string)
| LogError (s : string).

(** The whole server: the heap of [Y.Doc] objects, the module-level maps
    [docs] and [docMetadata], the manager, whether LevelDB is available,
    the timers, the sockets, the suspended activations, and what the
    server has sent and logged so far.  [docs] is a JavaScript [Map]:
    [docs_keys] are the keys of its entries in insertion order, a deleted
    entry leaving a hole ([None]) that a running iterator steps over. *)
Record Server := mkServer {
  heap : gmap nat YDoc;
  next_doc : nat;
  docs : gmap string nat;
  docMetadata : gmap string Metadata;
  firebaseBackup : Manager;
  persistence : bool;
  timers : list Timer;
  next_timer : nat;
  sockets : gmap nat Socket;
  queue_tasks : list QueueTask;
  attach_tasks : list AttachTask;
  shutdown_tasks : list ShutdownTask;
  sent : list (nat * Frame);
  console : list LogLine;
  docs_keys : list (option string)
}.

Definition with_heap (f : gmap nat YDoc -> gmap nat YDoc) (s : Server) : Server :=
  mkServer (f (heap s)) (next_doc s) (docs s) (docMetadata s) (firebaseBackup s)
    (persistence s) (timers s) (next_timer s) (sockets s) (queue_tasks s)
    (attach_tasks s) (shutdown_tasks s) (sent s) (console s) (docs_keys s).

Definition with_next_doc (n : nat) (s : Server) : Server :=
  mkServer (heap s) n (docs s) (docMetadata s) (firebaseBackup s)
    (persistence s) (timers s) (next_timer s) (sockets s) (queue_tasks s)
    (attach_tasks s) (shutdown_tasks s) (sent s) (console s) (docs_keys s).

Definition with_docs (f : gmap string nat -> gmap string nat) (s : Server) : Server :=
  mkServer (heap s) (next_doc s) (f (docs s)) (docMetadata s) (firebaseBackup s)
    (persistence s) (timers s) (next_timer s) (sockets s) (queue_tasks s)
    (attach_tasks s) (shutdown_tasks s) (sent s) (console s) (docs_keys s).

Definition with_docMetadata (f : gmap string Metadata -> gmap string Metadata)
    (s : Server) : Server :=
  mkServer (heap s) (next_doc s) (docs s) (f (docMetadata s)) (firebaseBackup s)
    (persistence s) (timers s) (next_timer s) (sockets s) (queue_tasks s)
    (attach_tasks s) (shutdown_tasks s) (sent s) (console s) (docs_keys s).

Definition with_manager (f : Manager -> Manager) (s : Server) : Server :=
  mkServer (heap s) (next_doc s) (docs s) (docMetadata s) (f (firebaseBackup s))
    (persistence s) (timers s) (next_timer s) (sockets s) (queue_tasks s)
    (attach_tasks s) (shutdown_tasks s) (sent s) (console s) (docs_keys s).

Definition with_timers (f : list Timer -> list Timer) (s : Server) : Server :=
  mkServer (heap s) (next_doc s) (docs s) (docMetadata s) (firebaseBackup s)
    (persistence s) (f (timers s)) (next_timer s) (sockets s) (queue_tasks s)
    (attach_tasks s) (shutdown_tasks s) (sent s) (console s) (docs_keys s).

Definition with_next_timer (n : nat) (s : Server) : Server :=
  mkServer (heap s) (next_doc s) (docs s) (docMetadata s) (firebaseBackup s)
    (persistence s) (timers s) n (sockets s) (queue_tasks s)
    (attach_tasks s) (shutdown_tasks s) (sent s) (console s) (docs_keys s).

Definition with_sockets (f : gmap nat Socket -> gmap nat Socket) (s : Server) : Server :=
  mkServer (heap s) (next_doc s) (docs s) (docMetadata s) (firebaseBackup s)
    (persistence s) (timers s) (next_timer s) (f (sockets s)) (queue_tasks s)
    (attach_tasks s) (shutdown_tasks s) (sent s) (console s) (docs_keys s).

Definition with_queue_tasks (f : list QueueTask -> list QueueTask) (s : Server) : Server :=
  mkServer (heap s) (next_doc s) (docs s) (docMetadata s) (firebaseBackup s)
    (persistence s) (timers s) (next_timer s) (sockets s) (f (queue_tasks s))
    (attach_tasks s) (shutdown_tasks s) (sent s) (console s) (docs_keys s).

Definition with_attach_tasks (f : list AttachTask -> list AttachTask) (s : Server) : Server :=
  mkServer (heap s) (next_doc s) (docs s) (docMetadata s) (firebaseBackup s)
    (persistence s) (timers s) (next_timer s) (sockets s) (queue_tasks s)
    (f (attach_tasks s)) (shutdown_tasks s) (sent s) (console s) (docs_keys s).

Definition with_shutdown_tasks (f : list ShutdownTask -> list ShutdownTask)
    (s : Server) : Server :=
  mkServer (heap s) (next_doc s) (docs s) (docMetadata s) (firebaseBackup s)
    (persistence s) (timers s) (next_timer s) (sockets s) (queue_tasks s)
    (attach_tasks s) (f (shutdown_tasks s)) (sent s) (console s) (docs_keys s).

(** [c.send(frame, cb)] *)
Definition send (c : nat) (f : Frame) (s : Server) : Server :=
  mkServer (heap s) (next_doc s) (docs s) (docMetadata s) (firebaseBackup s)
    (persistence s) (timers s) (next_timer s) (sockets s) (queue_tasks s)
    (attach_tasks s) (shutdown_tasks s) (sent s ++ [(c, f)]) (console s) (docs_keys s).

(** [console.log], [console.warn], [console.error] *)
Definition log (l : LogLine) (s : Server) : Server :=
  mkServer (heap s) (next_doc s) (docs s) (docMetadata s) (firebaseBackup s)
    (persistence s) (timers s) (next_timer s) (sockets s) (queue_tasks s)
    (attach_tasks s) (shutdown_tasks s) (sent s) (console s ++ [l]) (docs_keys s).

Definition with_docs_keys (f : list (option string) -> list (option string))
    (s : Server) : Server :=
  mkServer (heap s) (next_doc s) (docs s) (docMetadata s) (firebaseBackup s)
    (persistence s) (timers s) (next_timer s) (sockets s) (queue_tasks s)
    (attach_tasks s) (shutdown_tasks s) (sent s) (console s) (f (docs_keys s)).

(** [docs.set(docName, ydoc)]: a key that is present keeps its place, a
    new one goes to the end. *)
Definition docs_set (docName : string) (d : nat) (s : Server) : Server :=
  with_docs_keys (fun keys => if bool_decide (is_Some (docs s !! docName))
                              then keys else keys ++ [Some docName])
    (with_docs (insert docName d) s).

(** [docs.delete(docName)] *)
Definition docs_delete (docName : string) (s : Server) : Server :=
  with_docs_keys (fmap (fun key => if bool_decide (key = Some docName) then None else key))
    (with_docs (delete docName) s).

Definition with_database (db : option (gmap string FbRecord)) (m : Manager) : Manager :=
  mkManager db (backupQueue m) (isBackupRunning m).

Definition with_backupQueue (q : list string) (m : Manager) : Manager :=
  mkManager (database m) q (isBackupRunning m).

Definition with_isBackupRunning (b : bool) (m : Manager) : Manager :=
  mkManager (database m) (backupQueue m) b.

(** The server right after start-up. *)
Definition boot (db : option (gmap string FbRecord)) (leveldb : bool) : Server :=
  mkServer ∅ 0%nat ∅ ∅ (mkManager db [] false) leveldb [] 0%nat ∅ [] [] [] [] [] [].

(** ** FirebaseBackupManager *)

(** [backupDocument] up to its [await docRef.set(...)].  Without a
    database handle it returns at once.  Otherwise it takes the metadata
    object of the document (or a default one), stamps it, increments its
    version, stores it back, and starts the remote write. *)
Definition backupDocument_begin (now : Time) (docName : string) (ydoc : YDoc)
    (s : Server) : option PendingWrite * Server :=
  match database (firebaseBackup s) with
  | None => (None, s)
  | Some _ =>
      let metadata :=
        default (mkMetadata (Some now) (Some now) (Some 1)) (docMetadata s !! docName) in
      let metadata :=
        mkMetadata (created metadata) (Some now) (Some (version_or0 metadata + 1)) in
      let s := with_docMetadata (insert docName metadata) s in
      (Some (mkPendingWrite docName (mkFbRecord (replica ydoc) (Some metadata) now)), s)
  end.

(** [docRef.set(value)] on the remote store: the value replaces whatever
    is stored at the reference.  The store is a tree addressed by path,
    and a name that holds a slash names a node below the record of its
    prefix; [database] keeps one record per name, which is what a write
    and a read at the same reference see.  What is said of the records of
    several names at once is said of names of one path segment. *)
Definition docRef_set (w : PendingWrite) (m : Manager) : Manager :=
  with_database (insert (pw_name w) (pw_record w) <$> database m) m.

(** [backupDocument] after the await: the write was acknowledged, or it
    was rejected and the [catch] logs the failure. *)
Definition backupDocument_end (w : PendingWrite) (ok : bool) (s : Server) : Server :=
  if ok
  then log (LogInfo "backed up to Firebase") (with_manager (docRef_set w) s)
  else log (LogError "Failed to backup document to Firebase") s.

(** One call of [backupDocument] run to its end, the outcome of the remote
    write being [ok]. *)
Definition backupDocument (now : Time) (ok : bool) (docName : string) (ydoc : YDoc)
    (s : Server) : Server :=
  match backupDocument_begin now docName ydoc s with
  | (None, s) => s
  | (Some w, s) => backupDocument_end w ok s
  end.

(** [restoreDocument]: [ok] tells whether [docRef.once('value')] answered
    or threw. *)
Definition restoreDocument (ok : bool) (docName : string) (s : Server)
    : option bytes * Server :=
  match database (firebaseBackup s) with
  | None => (None, s)
  | Some db =>
      if ok then
        match db !! docName with
        | Some data =>
            let s := match rmetadata data with
                     | Some m => with_docMetadata (insert docName m) s
                     | None => s
                     end in
            (Some (content data), log (LogInfo "restored from Firebase") s)
        | None => (None, s)
        end
      else (None, log (LogError "Failed to restore document from Firebase") s)
  end.

(** ** The libraries the server calls

    Yjs, y-protocols and lib0 are not part of the repository: the server
    only shuttles their opaque encodings.  Their functions are taken as an
    interface.  A library call that throws may have changed the object it
    was working on; the outcome therefore carries the state it left. *)

Inductive ApplyResult :=
| Applied (replica' : bytes)
| ApplyThrew (replica' : bytes).

(** [syncProtocol.readSyncMessage(decoder, encoder, doc, conn)]: the
    replica after the call, the update the document emitted in its
    ['update'] event when the merge changed it, and what was written to
    the encoder (empty for anything but a state request).  A call that
    throws in the middle of a merge leaves what it had merged, and the
    document emits the update for it before the exception reaches the
    caller. *)
Inductive SyncOutcome :=
| SyncDone (replica' : bytes) (emitted : option bytes) (reply : bytes)
| SyncThrew (replica' : bytes) (emitted : option bytes).

Record AwarenessChange := mkAwarenessChange {
  added : list N;
  updated : list N;
  removed : list N
}.

(** [awarenessProtocol.applyAwarenessUpdate(awareness, update, conn)]: the
    table after the call and the change announced in the ['update'] event,
    if any. *)
Inductive AwarenessOutcome :=
| AwDone (states' : gmap N bytes) (change : option AwarenessChange)
| AwThrew (states' : gmap N bytes).

(** [persistence.getYDoc(docName)]: it throws, or answers [null] or a
    document, given by its encoded state. *)
Inductive TierARead :=
| TierAThrew
| TierADoc (persisted : option bytes).

(** [persistence.bindState(docName, ydoc)], a method call on the
    [LeveldbPersistence] object: it returns, or it throws, as it does when
    the object has no method of that name. *)
Inductive BindOutcome :=
| Bound
| BindThrew.

Class Library := {
  Y_empty : bytes;                                   (* new Y.Doc() *)
  Y_applyUpdate : bytes -> bytes -> ApplyResult;     (* Y.applyUpdate(ydoc, update) *)
  Y_encodeStateVector : bytes -> bytes;              (* syncProtocol.writeSyncStep1 *)
  Awareness_initial : gmap N bytes;                  (* new Awareness(doc).getStates() *)
  readVarUint : bytes -> option (N * bytes);         (* decoding.readVarUint, None: throws *)
  readVarUint8Array : bytes -> option (bytes * bytes);
  readSyncMessage : bytes -> bytes -> SyncOutcome;
  applyAwarenessUpdate : gmap N bytes -> bytes -> AwarenessOutcome;
  encodeAwarenessUpdate : gmap N bytes -> list N -> bytes;
  bindState : BindOutcome                            (* persistence.bindState(docName, ydoc) *)
}.

(** ** Timers *)

Definition setTimeout (cb : TimerCallback) (delay : Z) (now : Time) (s : Server)
    : nat * Server :=
  let h := next_timer s in
  (h, with_next_timer (S h) (with_timers (fun ts => ts ++ [mkTimer h (now + delay) cb]) s)).

(** Clearing a handle that has fired or was cleared does nothing. *)
Definition clearTimeout (h : nat) (s : Server) : Server :=
  with_timers (filter (fun t => t_handle t ≠ h)) s.

(** ** Maps and sets of the source, in insertion order *)

(** [set.add(x)] *)
Definition set_add {A} `{EqDecision A} (x : A) (l : list A) : list A :=
  if decide (x ∈ l) then l else l ++ [x].

(** [set.delete(x)] *)
Definition set_delete {A} `{EqDecision A} (x : A) (l : list A) : list A :=
  filter (fun y => y ≠ x) l.

(** [map.get(k)] *)
Fixpoint map_get {V} (k : nat) (m : list (nat * V)) : option V :=
  match m with
  | [] => None
  | (k', v) :: m => if decide (k' = k) then Some v else map_get k m
  end.

(** [map.set(k, v)]: a present key keeps its place. *)
Fixpoint map_set {V} (k : nat) (v : V) (m : list (nat * V)) : list (nat * V) :=
  match m with
  | [] => [(k, v)]
  | (k', v') :: m => if decide (k' = k) then (k, v) :: m else (k', v') :: map_set k v m
  end.

(** [map.delete(k)] *)
Definition map_delete {V} (k : nat) (m : list (nat * V)) : list (nat * V) :=
  filter (fun kv => kv.1 ≠ k) m.

(** ** Updating one document of the heap *)

Definition with_replica (c : bytes) (d : YDoc) : YDoc :=
  mkYDoc (dname d) c (conns d) (update_observers d) (awareness d) (backupTimer d).

Definition with_conns (f : list (nat * list N) -> list (nat * list N)) (d : YDoc) : YDoc :=
  mkYDoc (dname d) (replica d) (f (conns d)) (update_observers d) (awareness d)
    (backupTimer d).

Definition with_update_observers (f : list UpdateObserver -> list UpdateObserver)
    (d : YDoc) : YDoc :=
  mkYDoc (dname d) (replica d) (conns d) (f (update_observers d)) (awareness d)
    (backupTimer d).

Definition with_awareness (a : option Awareness) (d : YDoc) : YDoc :=
  mkYDoc (dname d) (replica d) (conns d) (update_observers d) a (backupTimer d).

Definition with_backupTimer (t : option nat) (d : YDoc) : YDoc :=
  mkYDoc (dname d) (replica d) (conns d) (update_observers d) (awareness d) t.

Definition with_states (f : gmap N bytes -> gmap N bytes) (d : YDoc) : YDoc :=
  with_awareness ((fun a => mkAwareness (f (states a)) (aw_observers a)) <$> awareness d) d.

Definition with_aw_observers (f : list nat -> list nat) (d : YDoc) : YDoc :=
  with_awareness ((fun a => mkAwareness (states a) (f (aw_observers a))) <$> awareness d) d.

Definition update_doc (d : nat) (f : YDoc -> YDoc) (s : Server) : Server :=
  with_heap (alter f d) s.

Definition is_open (c : nat) (s : Server) : bool :=
  match sockets s !! c with
  | Some sock => bool_decide (readyState sock = OPEN)
  | None => false
  end.

(** [conn.send(frame, cb)]: a socket that is not open hands an error to
    the callback, which logs it. *)
Definition conn_send (c : nat) (f : Frame) (s : Server) : Server :=
  if is_open c s then send c f s else log (LogError "Error sending") s.

(** [doc.conns.forEach((_, c) => { if (c !== conn && c.readyState === c.OPEN)
    c.send(frame) })]: [conn] is what the enclosing function compares
    with, a connection or [null]. *)
Definition broadcast (d : nat) (conn : option nat) (f : Frame) (s : Server) : Server :=
  match heap s !! d with
  | None => s
  | Some doc =>
      fold_left (fun s (entry : nat * list N) =>
                   let c := entry.1 in
                   if bool_decide (Some c ≠ conn) && is_open c s then send c f s else s)
                (conns doc) s
  end.

(** ** The backup queue *)

(** The [for ... of this.backupQueue] loop of [processBackupQueue] from
    the entry of index [i] on, [rest] being the entries not yet visited.
    An entry whose document is in memory starts [backupDocument]; when
    that starts a remote write, the activation is suspended in
    [queue_tasks].  When the entries are exhausted the queue is cleared
    and the [finally] resets the flag. *)
Fixpoint queue_loop (now : Time) (rest : list string) (i : nat) (s : Server) : Server :=
  match rest with
  | [] =>
      with_manager (with_isBackupRunning false)
        (with_manager (with_backupQueue []) s)
  | docName :: rest =>
      match docs s !! docName ≫= (fun d => heap s !! d) with
      | None => queue_loop now rest (S i) s
      | Some doc =>
          match backupDocument_begin now docName doc s with
          | (None, s) => queue_loop now rest (S i) s
          | (Some w, s) => with_queue_tasks (fun ts => ts ++ [mkQueueTask i w]) s
          end
      end
  end.

Definition processBackupQueue (now : Time) (s : Server) : Server :=
  if isBackupRunning (firebaseBackup s)
     || bool_decide (backupQueue (firebaseBackup s) = [])
  then s
  else
    let s := with_manager (with_isBackupRunning true) s in
    queue_loop now (backupQueue (firebaseBackup s)) 0%nat s.

Definition scheduleBackup (now : Time) (docName : string) (s : Server) : Server :=
  let s := with_manager (fun m => with_backupQueue (set_add docName (backupQueue m)) m) s in
  processBackupQueue now s.

(** The remote write of the [k]-th suspended activation of
    [processBackupQueue] has settled: [backupDocument] finishes and the
    loop goes on with the next entry of the (live) queue. *)
Definition queue_resume (now : Time) (k : nat) (ok : bool) (s : Server) : Server :=
  match queue_tasks s !! k with
  | None => s
  | Some t =>
      let s := with_queue_tasks (delete k) s in
      let s := backupDocument_end (qt_write t) ok s in
      queue_loop now (drop (S (qt_cursor t)) (backupQueue (firebaseBackup s)))
        (S (qt_cursor t)) s
  end.

(** ** The observers of a document *)

(** [scheduleFirebaseBackup] of the document [d]. *)
Definition scheduleFirebaseBackup (now : Time) (d : nat) (s : Server) : Server :=
  match heap s !! d with
  | None => s
  | Some doc =>
      let s := match backupTimer doc with
               | Some h => clearTimeout h s
               | None => s
               end in
      let '(h, s) := setTimeout (CbBackup (dname doc)) FIREBASE_BACKUP_INTERVAL now s in
      update_doc d (with_backupTimer (Some h)) s
  end.

(** One observer of ['update'] called with [(update, origin)]. *)
Definition run_update_observer (now : Time) (d : nat) (update : bytes)
    (s : Server) (o : UpdateObserver) : Server :=
  match o with
  | ObsBindState => s
  | ObsBackup =>
      match heap s !! d with
      | None => s
      | Some doc =>
          let metadata := default (mkMetadata None None None) (docMetadata s !! dname doc) in
          let metadata := mkMetadata (created metadata) (Some now) (version metadata) in
          let s := with_docMetadata (insert (dname doc) metadata) s in
          scheduleFirebaseBackup now d s
      end
  | ObsMessageListener conn => broadcast d (Some conn) (FSyncUpdate update) s
  end.

(** [doc.emit('update', [update, origin])] *)
Definition emit_update (now : Time) (d : nat) (update : bytes) (s : Server) : Server :=
  match heap s !! d with
  | None => s
  | Some doc => fold_left (run_update_observer now d update) (update_observers doc) s
  end.

Section Model.
Context {lib : Library}.

(** [awarenessChangeHandler({ added, updated, removed }, conn)]: its
    parameter [conn] is the origin of the change and shadows the
    connection of the enclosing [setupWSConnection]. *)
Definition awarenessChangeHandler (d : nat) (ch : AwarenessChange) (conn : option nat)
    (s : Server) : Server :=
  let changedClients := added ch ++ updated ch ++ removed ch in
  let s :=
    match conn with
    | None => s
    | Some c =>
        update_doc d (with_conns (fun m =>
          match map_get c m with
          | None => m
          | Some connControlledIDs =>
              let ids := fold_left (fun ids x => set_add x ids) (added ch) connControlledIDs in
              let ids := fold_left (fun ids x => set_delete x ids) (removed ch) ids in
              map_set c ids m
          end)) s
    end in
  match heap s !! d ≫= awareness with
  | None => s
  | Some aw =>
      broadcast d conn (FAwareness (encodeAwarenessUpdate (states aw) changedClients)) s
  end.

(** [awareness.emit('update', [change, origin])] *)
Definition emit_awareness (d : nat) (ch : AwarenessChange) (origin : option nat)
    (s : Server) : Server :=
  match heap s !! d ≫= awareness with
  | None => s
  | Some aw =>
      fold_left (fun s (_ : nat) => awarenessChangeHandler d ch origin s) (aw_observers aw) s
  end.

(** [awarenessProtocol.removeAwarenessStates(awareness, clients, origin)]:
    the states of the given clients that are present are deleted, and the
    removal is announced when there was any. *)
Definition removeAwarenessStates (d : nat) (clients : list N) (origin : option nat)
    (s : Server) : Server :=
  match heap s !! d ≫= awareness with
  | None => s
  | Some aw =>
      let gone := filter (fun c => is_Some (states aw !! c)) clients in
      let s := update_doc d (with_states (fun st => fold_left (fun st c => delete c st) gone st)) s in
      match gone with
      | [] => s
      | _ => emit_awareness d (mkAwarenessChange [] [] gone) origin s
      end
  end.

(** ** getOrCreateDocument *)

(** [new Y.Doc()] with [ydoc.conns = new Map()], put on the heap. *)
Definition create_document (docName : string) (s : Server) : nat * Server :=
  let d := next_doc s in
  (d, with_next_doc (S d) (with_heap (insert d (mkYDoc docName Y_empty [] [] None None)) s)).

(** The [catch] block: the document is registered as it is. *)
Definition fallback_document (d : nat) (docName : string) (s : Server) : Server :=
  docs_set docName d (log (LogError "Error initializing document") s).

(** What follows the persistence binding in the [try] block: the observer
    that schedules the backups, and the registration in [docs]. *)
Definition observe_document (d : nat) (docName : string) (s : Server) : Server :=
  let s := update_doc d (with_update_observers (fun o => o ++ [ObsBackup])) s in
  let s := docs_set docName d s in
  log (LogInfo "Document initialized with persistence") s.

(** The end of the [try] block.  With LevelDB available
    [persistence.bindState] is called first; when it throws, the rest of
    the block is skipped and the [catch] registers the document. *)
Definition finish_document (d : nat) (docName : string) (s : Server) : Server :=
  if persistence s then
    match bindState with
    | Bound =>
        observe_document d docName
          (update_doc d (with_update_observers (fun o => o ++ [ObsBindState])) s)
    | BindThrew => fallback_document d docName s
    end
  else observe_document d docName s.

(** [Y.applyUpdate(ydoc, update)] inside the [try] block, then its end. *)
Definition apply_restored (d : nat) (docName : string) (update : bytes)
    (line : option LogLine) (s : Server) : Server :=
  match heap s !! d with
  | None => s
  | Some doc =>
      match Y_applyUpdate (replica doc) update with
      | Applied c =>
          let s := update_doc d (with_replica c) s in
          let s := match line with Some l => log l s | None => s end in
          finish_document d docName s
      | ApplyThrew c => fallback_document d docName (update_doc d (with_replica c) s)
      end
  end.

(** The Firebase branch: restore from the backup, or start a new document
    with its initial metadata. *)
Definition restore_from_firebase (now : Time) (d : nat) (docName : string) (okB : bool)
    (s : Server) : Server :=
  match restoreDocument okB docName s with
  | (Some firebaseUpdate, s) => apply_restored d docName firebaseUpdate None s
  | (None, s) =>
      let s := log (LogInfo "New document created") s in
      let s := with_docMetadata
                 (insert docName (mkMetadata (Some now) (Some now) (Some 1))) s in
      finish_document d docName s
  end.

(** The body of [getOrCreateDocument] for a document that is not in
    memory, its reads answered by [ioA] (LevelDB) and [okB] (Firebase). *)
Definition restore_document (now : Time) (d : nat) (docName : string)
    (ioA : TierARead) (okB : bool) (s : Server) : Server :=
  if persistence s then
    match ioA with
    | TierAThrew => fallback_document d docName s
    | TierADoc (Some persisted) =>
        if bool_decide (0 < length persisted)%nat
        then apply_restored d docName persisted
               (Some (LogInfo "Document restored from LevelDB")) s
        else restore_from_firebase now d docName okB s
    | TierADoc None => restore_from_firebase now d docName okB s
    end
  else restore_from_firebase now d docName okB s.

(** One call of [getOrCreateDocument] run to its end. *)
Definition getOrCreateDocument (now : Time) (docName : string)
    (ioA : TierARead) (okB : bool) (s : Server) : nat * Server :=
  match docs s !! docName with
  | Some d => (d, s)
  | None =>
      let '(d, s) := create_document docName s in
      (d, restore_document now d docName ioA okB s)
  end.

(** ** setupWSConnection *)

(** What follows [await getOrCreateDocument(docName, gc)]. *)
Definition connection_setup (conn d : nat) (s : Server) : Server :=
  let s := update_doc d (with_conns (map_set conn [])) s in
  let s := update_doc d
             (with_update_observers (fun o => o ++ [ObsMessageListener conn])) s in
  let s := update_doc d (fun doc =>
             match awareness doc with
             | Some _ => doc
             | None => with_awareness (Some (mkAwareness Awareness_initial [])) doc
             end) s in
  let s := update_doc d (with_aw_observers (fun o => o ++ [conn])) s in
  match heap s !! d with
  | None => s
  | Some doc =>
      let s := conn_send conn (FSyncStep1 (Y_encodeStateVector (replica doc))) s in
      let s := match awareness doc with
               | None => s
               | Some aw =>
                   match (map_to_list (states aw)).*1 with
                   | [] => s
                   | keys => conn_send conn
                               (FAwareness (encodeAwarenessUpdate (states aw) keys)) s
                   end
               end in
      let s := with_sockets (alter (fun sock => mkSocket (readyState sock) (Some d)) conn) s in
      log (LogInfo "Connection established") s
  end.

(** [setupWSConnection] up to the first read it has to wait for.  A
    document in memory, or one that needs no read (neither LevelDB nor
    Firebase is available), is set up at once. *)
Definition setupWSConnection (now : Time) (conn : nat) (docName : string)
    (s : Server) : Server :=
  let docName := if bool_decide (docName = "") then "default"%string else docName in
  match docs s !! docName with
  | Some d => connection_setup conn d s
  | None =>
      let '(d, s) := create_document docName s in
      if persistence s || bool_decide (is_Some (database (firebaseBackup s)))
      then with_attach_tasks (fun ts => ts ++ [mkAttachTask conn docName d]) s
      else connection_setup conn d (restore_document now d docName (TierADoc None) true s)
  end.

(** The reads of the [k]-th suspended [setupWSConnection] have answered. *)
Definition attach_resume (now : Time) (k : nat) (ioA : TierARead) (okB : bool)
    (s : Server) : Server :=
  match attach_tasks s !! k with
  | None => s
  | Some t =>
      let s := with_attach_tasks (delete k) s in
      let s := restore_document now (at_doc t) (at_name t) ioA okB s in
      connection_setup (at_conn t) (at_doc t) s
  end.

(** ** The handlers of a connection *)

(** A merge that changed the document: the replica is [c] and the
    document emits ['update'] with the encoded change. *)
Definition content_change (now : Time) (d : nat) (c update : bytes) (s : Server) : Server :=
  emit_update now d update (update_doc d (with_replica c) s).

(** The [catch] of the message handler: the error is logged and handed to
    the ['error'] observers of the document, of which the server installs
    none. *)
Definition message_catch (s : Server) : Server :=
  log (LogError "Error processing message") s.

(** [conn.on('message', ...)] *)
Definition on_message (now : Time) (conn : nat) (message : bytes) (s : Server) : Server :=
  match sockets s !! conn ≫= handlers with
  | None => s
  | Some d =>
      match heap s !! d with
      | None => s
      | Some doc =>
          match readVarUint message with
          | None => message_catch s
          | Some (messageType, rest) =>
              if bool_decide (messageType = messageSync) then
                match readSyncMessage rest (replica doc) with
                | SyncDone c emitted reply =>
                    let s := match emitted with
                             | Some update => content_change now d c update s
                             | None => update_doc d (with_replica c) s
                             end in
                    match reply with
                    | [] => s
                    | _ => conn_send conn (FSyncReply reply) s
                    end
                | SyncThrew c emitted =>
                    message_catch
                      match emitted with
                      | Some update => content_change now d c update s
                      | None => update_doc d (with_replica c) s
                      end
                end
              else if bool_decide (messageType = messageAwareness) then
                match readVarUint8Array rest, awareness doc with
                | Some (update, _), Some aw =>
                    match applyAwarenessUpdate (states aw) update with
                    | AwDone st change =>
                        let s := update_doc d (with_states (fun _ => st)) s in
                        match change with
                        | Some ch => emit_awareness d ch (Some conn) s
                        | None => s
                        end
                    | AwThrew st => message_catch (update_doc d (with_states (fun _ => st)) s)
                    end
                | _, _ => message_catch s
                end
              else log (LogWarn "Unknown message type") s
          end
      end
  end.

#[global] Instance UpdateObserver_eq_dec : EqDecision UpdateObserver.
Proof. solve_decision. Defined.

(** [conn.on('close', ...)].  The entry of the connection is deleted from
    [doc.conns] first; the set of its controlled ids is looked up
    afterwards. *)
Definition on_close (now : Time) (conn : nat) (s : Server) : Server :=
  match sockets s !! conn ≫= handlers with
  | None => with_sockets (alter (fun sock => mkSocket CLOSED (handlers sock)) conn) s
  | Some d =>
      let s := with_sockets (alter (fun sock => mkSocket CLOSED (handlers sock)) conn) s in
      let s := log (LogInfo "Connection closed") s in
      let s := update_doc d (with_conns (map_delete conn)) s in
      let s := update_doc d
                 (with_update_observers (filter (fun o => o ≠ ObsMessageListener conn))) s in
      let s := update_doc d (with_aw_observers (set_delete conn)) s in
      let s := match heap s !! d ≫= (fun doc => map_get conn (conns doc)) with
               | Some connControlledIDs => removeAwarenessStates d connControlledIDs None s
               | None => s
               end in
      match heap s !! d with
      | None => s
      | Some doc =>
          match conns doc with
          | [] => (setTimeout (CbCleanup (dname doc) d) 30000 now s).2
          | _ => s
          end
      end
  end.

(** ** Timers firing *)

Definition conns_empty (d : nat) (s : Server) : bool :=
  match heap s !! d with
  | Some doc => bool_decide (conns doc = [])
  | None => false
  end.

Definition run_callback (now : Time) (cb : TimerCallback) (s : Server) : Server :=
  match cb with
  | CbBackup docName => scheduleBackup now docName s
  | CbCleanup docName d =>
      if conns_empty d s then
        let s := log (LogInfo "Cleaning up document") s in
        let s := scheduleBackup now docName s in
        (setTimeout (CbRemove docName d) 60000 now s).2
      else s
  | CbRemove docName d =>
      if conns_empty d s
      then log (LogInfo "Document removed from memory") (docs_delete docName s)
      else s
  end.

(** The timer of handle [h] fires, if it is pending and due. *)
Definition fire_timer (now : Time) (h : nat) (s : Server) : Server :=
  match list_find (fun t => t_handle t = h) (timers s) with
  | Some (_, t) =>
      if bool_decide (t_deadline t ≤ now)
      then run_callback now (t_callback t) (clearTimeout h s)
      else s
  | None => s
  end.

(** ** gracefulShutdown *)

(** The [for ... of docs.keys()] loop of the final backups from the entry
    of index [i] on, [rest] being the entries not yet visited; the
    iterator steps over the holes of deleted entries.  The activation is
    suspended at each remote write; after the loop the persistence is
    closed. *)
Fixpoint shutdown_loop (now : Time) (rest : list (option string)) (i : nat)
    (s : Server) : Server :=
  match rest with
  | [] => if persistence s then log (LogInfo "LevelDB persistence closed") s else s
  | None :: rest => shutdown_loop now rest (S i) s
  | Some docName :: rest =>
      match docs s !! docName ≫= (fun d => heap s !! d) with
      | None => shutdown_loop now rest (S i) s
      | Some doc =>
          match backupDocument_begin now docName doc s with
          | (None, s) => shutdown_loop now rest (S i) s
          | (Some w, s) => with_shutdown_tasks (fun ts => ts ++ [mkShutdownTask (S i) w]) s
          end
      end
  end.

Definition gracefulShutdown (now : Time) (s : Server) : Server :=
  let s := log (LogInfo "Shutting down") s in
  let s := with_sockets (fmap (fun sock =>
             match readyState sock with
             | OPEN | CONNECTING => mkSocket CLOSING (handlers sock)
             | _ => sock
             end)) s in
  if bool_decide (is_Some (database (firebaseBackup s)))
     && negb (bool_decide (docs s = ∅))
  then shutdown_loop now (docs_keys s) 0 s
  else shutdown_loop now [] 0 s.

(** The remote write of the [k]-th suspended [gracefulShutdown] has
    settled: [backupDocument] finishes and the loop goes on with the next
    entry of the (live) map. *)
Definition shutdown_resume (now : Time) (k : nat) (ok : bool) (s : Server) : Server :=
  match shutdown_tasks s !! k with
  | None => s
  | Some t =>
      let s := with_shutdown_tasks (delete k) s in
      let s := backupDocument_end (sd_write t) ok s in
      shutdown_loop now (drop (sd_cursor t) (docs_keys s)) (sd_cursor t) s
  end.

(** ** The event loop *)

Inductive Event :=
| EvConnection (conn : nat) (docName : string)
| EvRestored (k : nat) (ioA : TierARead) (okB : bool)
| EvMessage (conn : nat) (message : bytes)
| EvClose (conn : nat)
| EvTimer (handle : nat)
| EvWriteSettled (k : nat) (ok : bool)
| EvShutdown
| EvShutdownWriteSettled (k : nat) (ok : bool).

(** One task of the event loop, run to completion at time [now]. *)
Definition step (s : Server) (e : Time * Event) : Server :=
  let now := e.1 in
  match e.2 with
  | EvConnection conn docName =>
      setupWSConnection now conn docName
        (with_sockets (insert conn (mkSocket OPEN None)) s)
  | EvRestored k ioA okB => attach_resume now k ioA okB s
  | EvMessage conn message => on_message now conn message s
  | EvClose conn => on_close now conn s
  | EvTimer h => fire_timer now h s
  | EvWriteSettled k ok => queue_resume now k ok s
  | EvShutdown => gracefulShutdown now s
  | EvShutdownWriteSettled k ok => shutdown_resume now k ok s
  end.

Definition run (s : Server) (es : list (Time * Event)) : Server :=
  fold_left step es s.

(** The remote writes in flight. *)
Definition in_flight (s : Server) : list PendingWrite :=
  (qt_write <$> queue_tasks s) ++ (sd_write <$> shutdown_tasks s).

End Model.

(** ** An executable instance of the library interface

    Enough of the wire format to run the server on concrete messages:
    lib0's variable-length integers (seven bits per byte, least
    significant group first, the high bit marking a continuation),
    length-prefixed byte arrays, sync messages whose first varint is 0
    (state request), 1 (full-state offer) or 2 (delta), and awareness
    updates made of one (clientID, state) pair with an empty state as
    tombstone.  A replica is the concatenation of the deltas merged into
    it. *)
Module Wire.

Fixpoint readVarUint_from (mult acc : N) (bs : bytes) : option (N * bytes) :=
  match bs with
  | [] => None
  | b :: bs =>
      let r := Byte.to_N b in
      let acc := (acc + N.land r 127 * mult)%N in
      if (r <? 128)%N then Some (acc, bs) else readVarUint_from (mult * 128)%N acc bs
  end.

Definition readVarUint (bs : bytes) : option (N * bytes) := readVarUint_from 1%N 0%N bs.

Definition readVarUint8Array (bs : bytes) : option (bytes * bytes) :=
  match readVarUint bs with
  | Some (len, bs) =>
      if (N.of_nat (length bs) <? len)%N then None
      else Some (take (N.to_nat len) bs, drop (N.to_nat len) bs)
  | None => None
  end.

Definition readSyncMessage (rest replica : bytes) : SyncOutcome :=
  match readVarUint rest with
  | Some (0%N, _) => SyncDone replica None replica
  | Some (1%N, rest) | Some (2%N, rest) =>
      match readVarUint8Array rest with
      | Some ([], _) => SyncDone replica None []
      | Some (update, _) => SyncDone (replica ++ update) (Some update) []
      | None => SyncThrew replica None
      end
  | _ => SyncThrew replica None
  end.

Definition applyAwarenessUpdate (st : gmap N bytes) (update : bytes) : AwarenessOutcome :=
  match readVarUint update with
  | Some (clientID, rest) =>
      match readVarUint8Array rest with
      | Some ([], _) =>
          match st !! clientID with
          | Some _ => AwDone (delete clientID st) (Some (mkAwarenessChange [] [] [clientID]))
          | None => AwDone st None
          end
      | Some (state, _) =>
          match st !! clientID with
          | Some _ => AwDone (<[clientID:=state]> st) (Some (mkAwarenessChange [] [clientID] []))
          | None => AwDone (<[clientID:=state]> st) (Some (mkAwarenessChange [clientID] [] []))
          end
      | None => AwThrew st
      end
  | None => AwThrew st
  end.

Definition encodeAwarenessUpdate (st : gmap N bytes) (clients : list N) : bytes :=
  flat_map (fun c => Byte.x2a :: default [] (st !! c)) clients.

Definition library : Library :=
  Build_Library
    []                                              (* Y_empty *)
    (fun replica update => Applied (replica ++ update))
    (fun replica => replica)                        (* Y_encodeStateVector *)
    ∅                                               (* Awareness_initial *)
    readVarUint readVarUint8Array readSyncMessage
    applyAwarenessUpdate encodeAwarenessUpdate
    BindThrew.                                      (* LeveldbPersistence has no bindState *)

(** The string "null", the JSON of a removed state. *)
Definition json_null : bytes := [Byte.x6e; Byte.x75; Byte.x6c; Byte.x6c].

Definition is_json_null (state : bytes) : bool :=
  bool_decide (Byte.to_N <$> state = Byte.to_N <$> json_null).

(** An awareness update of several entries, as y-protocols lays it out:
    the number of entries, then for each the client id, its clock and its
    state as a length-prefixed JSON string.  The entries are taken one
    after the other, each written into the table before the next is read,
    and the change is announced after the last; a read past the end of
    the update throws in the middle of the loop.  The clocks are read and
    every entry is taken as newer than what the table holds. *)
Fixpoint applyAwarenessEntries (n : nat) (st : gmap N bytes) (bs : bytes)
    (ch : AwarenessChange) : AwarenessOutcome :=
  match n with
  | O =>
      match added ch ++ updated ch ++ removed ch with
      | [] => AwDone st None
      | _ => AwDone st (Some ch)
      end
  | S n =>
      match readVarUint bs with
      | None => AwThrew st
      | Some (clientID, bs) =>
          match readVarUint bs with
          | None => AwThrew st
          | Some (_, bs) =>
              match readVarUint8Array bs with
              | None => AwThrew st
              | Some (state, bs) =>
                  if is_json_null state then
                    match st !! clientID with
                    | Some _ =>
                        applyAwarenessEntries n (delete clientID st) bs
                          (mkAwarenessChange (added ch) (updated ch) (removed ch ++ [clientID]))
                    | None => applyAwarenessEntries n st bs ch
                    end
                  else
                    match st !! clientID with
                    | Some _ =>
                        applyAwarenessEntries n (<[clientID:=state]> st) bs
                          (mkAwarenessChange (added ch) (updated ch ++ [clientID]) (removed ch))
                    | None =>
                        applyAwarenessEntries n (<[clientID:=state]> st) bs
                          (mkAwarenessChange (added ch ++ [clientID]) (updated ch) (removed ch))
                    end
              end
          end
      end
  end.

Definition applyAwarenessUpdates (st : gmap N bytes) (update : bytes) : AwarenessOutcome :=
  match readVarUint update with
  | Some (len, bs) => applyAwarenessEntries (N.to_nat len) st bs (mkAwarenessChange [] [] [])
  | None => AwThrew st
  end.

(** The same library with awareness updates of several entries. *)
Definition library_entries : Library :=
  Build_Library
    []
    (fun replica update => Applied (replica ++ update))
    (fun replica => replica)
    ∅
    readVarUint readVarUint8Array readSyncMessage
    applyAwarenessUpdates encodeAwarenessUpdate
    BindThrew.

End Wire.

(** ** Derived notions and concrete inputs *)

(** The version counter [backupDocument] starts from: [metadata.version
    || 0] of the object it takes from [docMetadata], or of its default. *)
Definition counter (docName : string) (s : Server) : Z :=
  match docMetadata s !! docName with
  | Some m => version_or0 m
  | None => 1
  end.

(** A series of calls of [backupDocument] for one document name, each
    with its time, the outcome of its remote write and the document. *)
Definition backup_attempts (docName : string) (attempts : list (Time * bool * YDoc))
    (s : Server) : Server :=
  fold_left (fun s a => backupDocument a.1.1 a.1.2 docName a.2 s) attempts s.

(** The record Firebase holds for a document. *)
Definition stored (docName : string) (s : Server) : option FbRecord :=
  database (firebaseBackup s) ≫= (fun db => db !! docName).

Definition stored_version (docName : string) (s : Server) : option Z :=
  (stored docName s ≫= rmetadata) ≫= version.

Definition demo_doc (replica : bytes) : YDoc := mkYDoc "demo" replica [] [] None None.

(** Firebase configured and empty, the document "demo" at version 1. *)
Definition backup_s0 : Server :=
  with_docMetadata (insert "demo"%string (mkMetadata (Some 0) (Some 0) (Some 1)))
    (boot (Some ∅) false).

(** Firebase holds version 1 of "demo", and so does [docMetadata], as
    after a restore from Firebase. *)
Definition backup_s1 : Server :=
  with_docMetadata (insert "demo"%string (mkMetadata (Some 0) (Some 0) (Some 1)))
    (boot (Some {[ "demo"%string :=
                   mkFbRecord [] (Some (mkMetadata (Some 0) (Some 0) (Some 1))) 0 ]})
       false).

(** The document [d] is the one [docs] has for the name, and it is on
    the heap. *)
Definition registered (d : nat) (docName : string) (s : Server) : Prop :=
  docs s !! docName = Some d /\ is_Some (heap s !! d).

(** What the Firebase read yields: the record kept under the name, or
    nothing when the read fails or Firebase is not configured. *)
Definition tierB_read (okB : bool) (docName : string) (s : Server) : option FbRecord :=
  if okB then stored docName s else None.

(** A message the decoders reject: the message type cannot be read, or
    the protocol library throws on the payload.  [doc'] is the document as
    the throwing call left it: the server hands the replica, or the
    awareness table, to the library, which may have written to it before
    it threw. *)
Definition undecodable `{Library} (message : bytes) (doc doc' : YDoc) : Prop :=
  (readVarUint message = None /\ doc' = doc)
  \/ (exists rest c,
        readVarUint message = Some (messageSync, rest)
        /\ readSyncMessage rest (replica doc) = SyncThrew c None
        /\ doc' = with_replica c doc)
  \/ (exists rest,
        readVarUint message = Some (messageAwareness, rest)
        /\ ((readVarUint8Array rest = None /\ doc' = doc)
            \/ exists update rest' aw st,
                 readVarUint8Array rest = Some (update, rest')
                 /\ awareness doc = Some aw
                 /\ applyAwarenessUpdate (states aw) update = AwThrew st
                 /\ doc' = with_states (fun _ => st) doc)).

(** A message whose type is neither [messageSync] nor [messageAwareness]. *)
Definition unknown_discriminant `{Library} (message : bytes) : Prop :=
  exists messageType rest,
    readVarUint message = Some (messageType, rest)
    /\ messageType <> messageSync /\ messageType <> messageAwareness.

(** Two connections, 1 and 2, attached to "demo" on a server without
    LevelDB and without Firebase. *)
Definition demo_two : Server :=
  run (lib := Wire.library) (boot None false)
    [(0, EvConnection 1 "demo"); (1, EvConnection 2 "demo")].

(** The sync message carrying the delta "abc": message type 0, sub-kind
    2, length 3. *)
Definition delta_abc : bytes :=
  [Byte.x00; Byte.x02; Byte.x03; Byte.x61; Byte.x62; Byte.x63].

(** The awareness message setting the state of client 42: message type 1,
    an update of 3 bytes: client 42, a state of one byte. *)
Definition awareness_42 : bytes := [Byte.x01; Byte.x03; Byte.x2a; Byte.x01; Byte.x7b].

(** An awareness message cut short: message type 1, an update of 10 bytes
    announcing two entries; the first is client 42 with clock 1 and the
    state "{}", the second is client 43 with clock 1 and a state announced
    as 5 bytes of which only one is there. *)
Definition awareness_truncated : bytes :=
  [Byte.x01; Byte.x0a; Byte.x02;
   Byte.x2a; Byte.x01; Byte.x02; Byte.x7b; Byte.x7d;
   Byte.x2b; Byte.x01; Byte.x05; Byte.x7b].

(** A third connection joins "demo". *)
Definition demo_three : Server :=
  run (lib := Wire.library) demo_two [(2, EvConnection 3 "demo")].

(** Two connections for "demo" arrive while LevelDB is still reading: the
    second ['connection'] event is handled before the read of the first
    has answered. *)
Definition overlapping_attaches : list (Time * Event) :=
  [(0, EvConnection 1 "demo"); (1, EvConnection 2 "demo");
   (2, EvRestored 0%nat (TierADoc None) true);
   (3, EvRestored 0%nat (TierADoc None) true)].

(** The table of awareness states of a document. *)
Definition awareness_states (d : nat) (s : Server) : option (gmap N bytes) :=
  states <$> (heap s !! d ≫= awareness).

(** What the backup activations share: the manager and the suspended
    activations of [processBackupQueue] and [gracefulShutdown]. *)
Definition backup_view (s : Server) : Manager * list QueueTask * list ShutdownTask :=
  (firebaseBackup s, queue_tasks s, shutdown_tasks s).

(** The flag [isBackupRunning] is set exactly while one activation of
    [processBackupQueue] is suspended at its remote write. *)
Definition queue_inv (s : Server) : Prop :=
  (isBackupRunning (firebaseBackup s) = false /\ queue_tasks s = [])
  \/ (isBackupRunning (firebaseBackup s) = true /\ exists t, queue_tasks s = [t]).

Definition is_shutdown (e : Time * Event) : bool :=
  match e.2 with
  | EvShutdown => true
  | _ => false
  end.

(** One connection writes to "a", the backup timer fires and the remote
    write is pending when the shutdown signal arrives. *)
Definition shutdown_during_backup : list (Time * Event) :=
  [(0, EvConnection 1 "a"); (1, EvRestored 0%nat (TierADoc None) true);
   (2, EvMessage 1 delta_abc); (30002, EvTimer 0%nat); (30003, EvShutdown)].

(** The part of the backup view the flag guards. *)
Definition queue_view (s : Server) : bool * list QueueTask :=
  (isBackupRunning (firebaseBackup s), queue_tasks s).

(** The server with what it has sent and logged left out. *)
Definition quiet (s : Server) : Server :=
  mkServer (heap s) (next_doc s) (docs s) (docMetadata s) (firebaseBackup s)
    (persistence s) (timers s) (next_timer s) (sockets s) (queue_tasks s)
    (attach_tasks s) (shutdown_tasks s) [] [] (docs_keys s).


(** The document has the observer of [getOrCreateDocument] that schedules
    the backups, once. *)
Definition backup_observed (doc : YDoc) : Prop :=
  exists before after,
    update_observers doc = before ++ ObsBackup :: after
    /\ (ObsBackup ∉ before) /\ (ObsBackup ∉ after).

(** One connection attached to "demo" on a server with Firebase
    configured and empty, without LevelDB. *)
Definition demo_backed : Server :=
  run (lib := Wire.library) (boot (Some ∅) false)
    [(0, EvConnection 1 "demo"); (1, EvRestored 0%nat (TierADoc None) true)].


(** Handles are handed out in increasing order: the pending timers have
    handles below the next one. *)
Definition fresh_handles (s : Server) : Prop :=
  Forall (fun t => (t_handle t < next_timer s)%nat) (timers s).



(** Firebase holds version 5 of "demo" from an earlier run and LevelDB
    has a snapshot: the document is restored from LevelDB and changed,
    its connection closes, and the final backup of the clean-up is
    written. *)
Definition backup_after_leveldb_restore : list (Time * Event) :=
  [(0, EvConnection 1 "demo"); (1, EvRestored 0%nat (TierADoc (Some [Byte.x01])) true);
   (2, EvMessage 1 delta_abc); (3, EvClose 1);
   (30003, EvTimer 0%nat); (30004, EvWriteSettled 0%nat true)].

(** ** The document name of a connection *)

(** [url.slice(1)] *)
Definition slice1 (url : string) : string :=
  match url with
  | EmptyString => EmptyString
  | String _ rest => rest
  end.

(** [s.split('?')[0]]: what comes before the first question mark. *)
Fixpoint before_query (s : string) : string :=
  match s with
  | EmptyString => EmptyString
  | String c rest =>
      if Ascii.eqb c "?"%char then EmptyString else String c (before_query rest)
  end.

(** [req.url.slice(1).split('?')[0]], the default of the [docName] option
    of [setupWSConnection]. *)
Definition url_docName (url : string) : string := before_query (slice1 url).


(** [wss.on('connection', ...)] for a request with the given URL. *)
Definition on_connection `{Library} (now : Time) (conn : nat) (url : string)
    (s : Server) : Server :=
  step s (now, EvConnection conn (url_docName url)).

(** The characters of a string. *)
Fixpoint chars (s : string) : list Ascii.ascii :=
  match s with
  | EmptyString => []
  | String c rest => c :: chars rest
  end.

(** ** Who is sent a frame *)

(** The connections of a document a relay loop sends to: those that are
    not the one it compares with and are open, in the order of the map. *)
Definition recipients (d : nat) (conn : option nat) (s : Server) : list nat :=
  match heap s !! d with
  | None => []
  | Some doc => filter (fun c => Some c <> conn /\ is_open c s = true) (conns doc).*1
  end.

(** The frames one observer of ['update'] sends for an update. *)
Definition listener_frames (d : nat) (update : bytes) (s : Server) (o : UpdateObserver)
    : list (nat * Frame) :=
  match o with
  | ObsMessageListener conn =>
      (fun c => (c, FSyncUpdate update)) <$> recipients d (Some conn) s
  | _ => []
  end.

(** What the relay loops of a document read: the connections of the
    document, in order, and the sockets. *)
Definition relay_same (d : nat) (s' s : Server) : Prop :=
  (fun doc => (conns doc).*1) <$> heap s' !! d = (fun doc => (conns doc).*1) <$> heap s !! d
  /\ sockets s' = sockets s.

(** The set of controlled ids of the origin after an awareness change:
    the added clients are added, then the removed ones deleted. *)
Definition controlled_after (ch : AwarenessChange) (ids : list N) : list N :=
  fold_left (fun ids x => set_delete x ids) (removed ch)
    (fold_left (fun ids x => set_add x ids) (added ch) ids).

(** The frame an [awarenessChangeHandler] sends for a change. *)
Definition awareness_frame `{Library} (aw : Awareness) (ch : AwarenessChange) : Frame :=
  FAwareness (encodeAwarenessUpdate (states aw) (added ch ++ updated ch ++ removed ch)).

(** What the awareness handlers of a document read besides the relay
    loops: its awareness object. *)
Definition awareness_same (d : nat) (s' s : Server) : Prop :=
  relay_same d s' s /\ heap s' !! d ≫= awareness = heap s !! d ≫= awareness.

(** The backup queue and its loop agree: while the manager is idle the
    queue is empty and no activation is suspended, and a suspended
    activation waits for the write of the queue entry at its cursor. *)
Definition queue_wf (s : Server) : Prop :=
  (isBackupRunning (firebaseBackup s) = false ->
   backupQueue (firebaseBackup s) = [] /\ queue_tasks s = [])
  /\ (forall t, t ∈ queue_tasks s ->
        isBackupRunning (firebaseBackup s) = true
        /\ backupQueue (firebaseBackup s) !! qt_cursor t = Some (pw_name (qt_write t))).

(** What the queue loop works on. *)
Definition queue_part (s : Server) : list string * bool * list QueueTask :=
  (backupQueue (firebaseBackup s), isBackupRunning (firebaseBackup s), queue_tasks s).

(** What the backup manager never touches: the documents, the registry,
    the timers and the sockets. *)
Definition registry_view (s : Server)
    : gmap nat YDoc * gmap string nat * list Timer * nat * gmap nat Socket :=
  (heap s, docs s, timers s, next_timer s, sockets s).


(** The document "demo" with the replica "abc" and connection 1, on a
    server with Firebase configured. *)
Definition demo_written : Server :=
  run (lib := Wire.library) demo_backed [(2, EvMessage 1 delta_abc)].

(** What a message cannot touch: which documents exist, the registry,
    the sockets and the attaches under way. *)
Definition session_view (s : Server)
    : gset nat * gmap string nat * gmap nat Socket * list AttachTask :=
  (dom (heap s), docs s, sockets s, attach_tasks s).


(** The keys of [docs] are among its entries: every registered name is
    listed in [docs_keys]. *)
Definition docs_listed (s : Server) : Prop :=
  forall name, is_Some (docs s !! name) -> Some name ∈ docs_keys s.

(** What the registry, the connections and the timers show of the
    server: the entries of [docs], the sockets, the frames sent and the
    pending timers. *)
Definition outer_view (s : Server)
    : gmap string nat * list (option string) * gmap nat Socket * list (nat * Frame)
      * list Timer * nat :=
  (docs s, docs_keys s, sockets s, sent s, timers s, next_timer s).

(** From [s] to [s'] nothing is sent to the connection [c] if it is not
    open in [s], and it is not open in [s'] either. *)
Definition mute (c : nat) (s s' : Server) : Prop :=
  is_open c s = false ->
  is_open c s' = false /\ exists l, sent s' = sent s ++ l /\ c ∉ l.*1.

(** A piece of the server's code that neither sends to a connection that
    is not open, nor loses an entry of [docs], nor hands out the handle of
    a pending timer. *)
Definition safe (c : nat) (s s' : Server) : Prop :=
  mute c s s' /\ (docs_listed s -> docs_listed s') /\ (fresh_handles s -> fresh_handles s').

(** No ['connection'] event for the connection [c]. *)
Definition not_connection (c : nat) (e : Time * Event) : Prop :=
  forall docName, e.2 <> EvConnection c docName.

(** ** Theorems *)

Section Backup.

Lemma version_or0_mk c l v : version_or0 (mkMetadata c l (Some v)) = v.
Proof. reflexivity. Qed.

Lemma backupDocument_counter now ok docName doc s db :
  database (firebaseBackup s) = Some db ->
  counter docName (backupDocument now ok docName doc s) = counter docName s + 1
  /\ database (firebaseBackup (backupDocument now ok docName doc s))
     = Some (if ok
             then <[docName := mkFbRecord (replica doc)
                      (Some (mkMetadata
                         (created (default (mkMetadata (Some now) (Some now) (Some 1))
                                     (docMetadata s !! docName)))
                         (Some now) (Some (counter docName s + 1)))) now]> db
             else db).
Proof.
  intros Hdb. unfold backupDocument, backupDocument_begin. rewrite Hdb.
  assert (Hc : version_or0 (default (mkMetadata (Some now) (Some now) (Some 1))
                              (docMetadata s !! docName)) = counter docName s).
  { unfold counter. destruct (docMetadata s !! docName); reflexivity. }
  unfold backupDocument_end. destruct ok; simpl.
  - split.
    + unfold counter; simpl. rewrite lookup_insert_eq. simpl. now rewrite Hc.
    + rewrite Hdb. simpl. now rewrite Hc.
  - split.
    + unfold counter; simpl. rewrite lookup_insert_eq. simpl. now rewrite Hc.
    + exact Hdb.
Qed.

Lemma backupDocument_keeps_database now ok docName doc s :
  is_Some (database (firebaseBackup s)) ->
  is_Some (database (firebaseBackup (backupDocument now ok docName doc s))).
Proof.
  intros [db Hdb]. destruct (backupDocument_counter now ok docName doc s db Hdb) as [_ ->].
  eauto.
Qed.

(** C4 (amended): with Firebase configured, every call of
    [backupDocument] increments the version counter of the document by
    exactly one, whether its remote write completes or fails, so after any
    series of attempts the counter has grown by the number of attempts; a
    completed write stores the incremented counter, a failed one leaves
    the store as it was. *)
Theorem backupDocument_version_per_attempt docName attempts s :
  is_Some (database (firebaseBackup s)) ->
  counter docName (backup_attempts docName attempts s)
    = counter docName s + Z.of_nat (length attempts)
  /\ (forall now doc,
        stored_version docName (backupDocument now true docName doc s)
          = Some (counter docName s + 1)
        /\ stored docName (backupDocument now false docName doc s) = stored docName s).
Proof.
  intros Hdb. split.
  - revert s Hdb. induction attempts as [|[[now ok] doc] attempts IH]; intros s Hdb.
    + simpl. lia.
    + unfold backup_attempts in *. simpl.
      rewrite IH by (now apply backupDocument_keeps_database).
      destruct Hdb as [db Hdb].
      destruct (backupDocument_counter now ok docName doc s db Hdb) as [-> _]. lia.
  - intros now doc. destruct Hdb as [db Hdb]. split.
    + destruct (backupDocument_counter now true docName doc s db Hdb) as [_ H].
      unfold stored_version, stored. rewrite H. simpl. now rewrite lookup_insert_eq.
    + destruct (backupDocument_counter now false docName doc s db Hdb) as [_ H].
      unfold stored. now rewrite H, Hdb.
Qed.

Lemma backupDocument_version_per_attempt_witness :
  counter "demo"
    (backup_attempts "demo"
       [(10, false, demo_doc []); (20, true, demo_doc []); (30, false, demo_doc [])]
       backup_s0) = 4.
Proof.
  pose proof (backupDocument_version_per_attempt "demo"
    [(10, false, demo_doc []); (20, true, demo_doc []); (30, false, demo_doc [])]
    backup_s0 (mk_is_Some _ _ eq_refl)) as [H _].
  exact H.
Defined.

(** C4, as stated, fails: Firebase and [docMetadata] hold version 1; a
    backup attempt whose remote write fails stores nothing but has
    already incremented the counter to 2, and the one write that then
    completes stores version 3. *)
Lemma backupDocument_failed_write_increments :
  let s1 := backupDocument 10 false "demo" (demo_doc []) backup_s1 in
  let s2 := backupDocument 20 true "demo" (demo_doc []) s1 in
  stored_version "demo" backup_s1 = Some 1 /\ counter "demo" backup_s1 = 1
  /\ stored_version "demo" s1 = Some 1 /\ counter "demo" s1 = 2
  /\ stored_version "demo" s2 = Some 3 /\ counter "demo" s2 = 3.
Proof. vm_compute. repeat split; reflexivity. Qed.

(** C5 (amended): a completed backup write replaces the one record kept
    under the document's name: reading the name afterwards yields the
    record just written, with the content of the document at the time of
    the call and a copy of the metadata carrying the incremented version,
    whatever was stored there before. *)
Theorem backupDocument_replaces_record now docName doc s :
  is_Some (database (firebaseBackup s)) ->
  exists m,
    stored docName (backupDocument now true docName doc s)
      = Some (mkFbRecord (replica doc) (Some m) now)
    /\ version m = Some (counter docName s + 1)
    /\ lastModified m = Some now
    /\ docMetadata (backupDocument now true docName doc s) !! docName = Some m.
Proof.
  intros [db Hdb].
  destruct (backupDocument_counter now true docName doc s db Hdb) as [_ H].
  eexists. unfold stored. rewrite H. simpl. rewrite lookup_insert_eq.
  split; [reflexivity|]. split; [reflexivity|]. split; [reflexivity|].
  unfold backupDocument, backupDocument_begin, backupDocument_end. rewrite Hdb. simpl.
  rewrite lookup_insert_eq. f_equal. f_equal. f_equal.
  unfold counter. destruct (docMetadata s !! docName); reflexivity.
Qed.

Lemma backupDocument_replaces_record_witness :
  exists m,
    stored "demo" (backupDocument 10 true "demo" (demo_doc [Byte.x01]) backup_s0)
      = Some (mkFbRecord [Byte.x01] (Some m) 10)
    /\ version m = Some 2.
Proof.
  destruct (backupDocument_replaces_record 10 "demo" (demo_doc [Byte.x01]) backup_s0
              (mk_is_Some _ _ eq_refl)) as (m & H1 & H2 & _).
  exists m. split; [exact H1 | exact H2].
Defined.

(** C5, as stated, fails: after a second completed backup of "demo" the
    store holds the second record only; the record of the first write
    (version 2) can no longer be read under any name. *)
Lemma backupDocument_overwrites_previous :
  let s1 := backupDocument 10 true "demo" (demo_doc [Byte.x01]) backup_s0 in
  let s2 := backupDocument 20 true "demo" (demo_doc [Byte.x02]) s1 in
  exists r1 r2,
    stored "demo" s1 = Some r1 /\ content r1 = [Byte.x01]
    /\ (rmetadata r1 ≫= version) = Some 2
    /\ r1 <> r2
    /\ database (firebaseBackup s2) = Some {[ "demo"%string := r2 ]}
    /\ forall docName, stored docName s2 <> Some r1.
Proof.
  intros s1 s2.
  exists (mkFbRecord [Byte.x01] (Some (mkMetadata (Some 0) (Some 10) (Some 2))) 10),
         (mkFbRecord [Byte.x02] (Some (mkMetadata (Some 0) (Some 20) (Some 3))) 20).
  assert (Hdb : database (firebaseBackup s2)
                = Some {[ "demo"%string :=
                    mkFbRecord [Byte.x02] (Some (mkMetadata (Some 0) (Some 20) (Some 3))) 20 ]})
    by (vm_compute; reflexivity).
  split; [vm_compute; reflexivity|]. split; [reflexivity|]. split; [reflexivity|].
  split; [discriminate|]. split; [exact Hdb|].
  intros docName. unfold stored. rewrite Hdb. simpl.
  destruct (decide (docName = "demo"%string)) as [->|Hne].
  - rewrite lookup_singleton_eq. discriminate.
  - rewrite lookup_singleton_ne by congruence. discriminate.
Qed.

Section WithLibrary.
Context {lib : Library}.

Lemma restoreDocument_frame ok docName s :
  heap (restoreDocument ok docName s).2 = heap s
  /\ docs (restoreDocument ok docName s).2 = docs s
  /\ persistence (restoreDocument ok docName s).2 = persistence s
  /\ firebaseBackup (restoreDocument ok docName s).2 = firebaseBackup s
  /\ next_doc (restoreDocument ok docName s).2 = next_doc s.
Proof.
  unfold restoreDocument.
  destruct (database (firebaseBackup s)) as [db|]; [|now simpl].
  destruct ok; [|now simpl].
  destruct (db !! docName) as [data|]; [|now simpl].
  destruct (rmetadata data); now simpl.
Qed.

Lemma fallback_document_registered d docName s :
  is_Some (heap s !! d) -> registered d docName (fallback_document d docName s).
Proof.
  intros H. unfold registered, fallback_document. simpl. now rewrite lookup_insert_eq.
Qed.

Lemma finish_document_registered d docName s :
  is_Some (heap s !! d) -> registered d docName (finish_document d docName s).
Proof.
  intros [doc Hdoc]. unfold finish_document.
  destruct (persistence s); [destruct bindState|];
    try (apply fallback_document_registered; eauto);
    unfold registered, observe_document; simpl;
    rewrite lookup_insert_eq, ?lookup_alter_eq, Hdoc; simpl; eauto.
Qed.

Lemma apply_restored_registered d docName update line s :
  is_Some (heap s !! d) -> registered d docName (apply_restored d docName update line s).
Proof.
  intros [doc Hdoc]. unfold apply_restored. rewrite Hdoc.
  destruct (Y_applyUpdate (replica doc) update).
  - apply finish_document_registered. destruct line; simpl;
      rewrite lookup_alter_eq, Hdoc; simpl; eauto.
  - apply fallback_document_registered. simpl. rewrite lookup_alter_eq, Hdoc; simpl; eauto.
Qed.

Lemma restore_from_firebase_registered now d docName okB s :
  is_Some (heap s !! d) -> registered d docName (restore_from_firebase now d docName okB s).
Proof.
  intros H. unfold restore_from_firebase.
  pose proof (restoreDocument_frame okB docName s) as (Hh & _).
  destruct (restoreDocument okB docName s) as [[u|] s']; simpl in Hh.
  - apply apply_restored_registered. now rewrite Hh.
  - apply finish_document_registered. simpl. now rewrite Hh.
Qed.

Lemma restore_document_registered now d docName ioA okB s :
  is_Some (heap s !! d) -> registered d docName (restore_document now d docName ioA okB s).
Proof.
  intros H. unfold restore_document.
  destruct (persistence s); [|now apply restore_from_firebase_registered].
  destruct ioA as [|[persisted|]].
  - now apply fallback_document_registered.
  - case_bool_decide.
    + now apply apply_restored_registered.
    + now apply restore_from_firebase_registered.
  - now apply restore_from_firebase_registered.
Qed.

Lemma getOrCreateDocument_registers now docName ioA okB s :
  docs (getOrCreateDocument now docName ioA okB s).2 !! docName
    = Some (getOrCreateDocument now docName ioA okB s).1
  /\ (docs s !! docName = None ->
      is_Some (heap (getOrCreateDocument now docName ioA okB s).2
                 !! (getOrCreateDocument now docName ioA okB s).1)).
Proof.
  unfold getOrCreateDocument.
  destruct (docs s !! docName) as [d|] eqn:Hd; [simpl; split; [exact Hd | discriminate]|].
  unfold create_document. simpl.
  match goal with
  | |- context [restore_document ?n ?d ?m ?a ?b ?s] =>
      destruct (restore_document_registered n d m a b s) as [H1 H2]
  end.
  - simpl. rewrite lookup_insert_eq. eauto.
  - split; [exact H1 | intros _; exact H2].
Qed.

Lemma restoreDocument_result ok docName s :
  (restoreDocument ok docName s).1 = content <$> tierB_read ok docName s.
Proof.
  unfold restoreDocument, tierB_read, stored.
  destruct (database (firebaseBackup s)) as [db|]; simpl; [|now destruct ok].
  destruct ok; [|reflexivity]. now destruct (db !! docName).
Qed.

Lemma finish_document_replica d docName s :
  replica <$> heap (finish_document d docName s) !! d = replica <$> heap s !! d.
Proof.
  unfold finish_document, observe_document, fallback_document.
  destruct (persistence s); [destruct bindState|]; simpl;
    rewrite ?lookup_alter_eq; now destruct (heap s !! d).
Qed.

Lemma finish_document_docMetadata d docName s :
  docMetadata (finish_document d docName s) = docMetadata s.
Proof.
  unfold finish_document. destruct (persistence s); [destruct bindState|]; reflexivity.
Qed.

Lemma restore_from_firebase_some now d docName okB s doc data c :
  heap s !! d = Some doc ->
  tierB_read okB docName s = Some data ->
  Y_applyUpdate (replica doc) (content data) = Applied c ->
  replica <$> heap (restore_from_firebase now d docName okB s) !! d = Some c.
Proof.
  intros Hdoc Hread Happ. unfold restore_from_firebase.
  pose proof (restoreDocument_result okB docName s) as Hr.
  pose proof (restoreDocument_frame okB docName s) as (Hh & _).
  destruct (restoreDocument okB docName s) as [u s']. simpl in *.
  rewrite Hread in Hr. simpl in Hr. subst u.
  unfold apply_restored. rewrite Hh, Hdoc, Happ.
  rewrite finish_document_replica. simpl. now rewrite lookup_alter_eq, Hh, Hdoc.
Qed.

Lemma restore_from_firebase_none now d docName okB s doc :
  heap s !! d = Some doc ->
  tierB_read okB docName s = None ->
  replica <$> heap (restore_from_firebase now d docName okB s) !! d = Some (replica doc)
  /\ docMetadata (restore_from_firebase now d docName okB s) !! docName
     = Some (mkMetadata (Some now) (Some now) (Some 1)).
Proof.
  intros Hdoc Hread. unfold restore_from_firebase.
  pose proof (restoreDocument_result okB docName s) as Hr.
  pose proof (restoreDocument_frame okB docName s) as (Hh & _).
  destruct (restoreDocument okB docName s) as [u s']. simpl in *.
  rewrite Hread in Hr. simpl in Hr. subst u.
  rewrite finish_document_replica, finish_document_docMetadata. simpl.
  now rewrite Hh, Hdoc, lookup_insert_eq.
Qed.

(** C7 (the code with LevelDB available): when [persistence.getYDoc]
    answers a document whose encoded state is not of length 0, which the
    two bytes encoding an empty [Y.Doc] are not, [getOrCreateDocument]
    takes the LevelDB branch and never reads Firebase: the new document is
    registered with what [Y.applyUpdate] made of the LevelDB answer,
    whatever record Firebase holds for the name, and [docMetadata] gets
    no entry, neither the one of the record nor the initial one. *)
Theorem leveldb_answer_shadows_firebase now docName persisted okB s :
  docs s !! docName = None -> persistence s = true -> (0 < length persisted)%nat ->
  let r := getOrCreateDocument now docName (TierADoc (Some persisted)) okB s in
  r.1 = next_doc s /\ registered r.1 docName r.2
  /\ docMetadata r.2 = docMetadata s
  /\ firebaseBackup r.2 = firebaseBackup s
  /\ exists c,
       (Y_applyUpdate Y_empty persisted = Applied c
        \/ Y_applyUpdate Y_empty persisted = ApplyThrew c)
       /\ replica <$> heap r.2 !! r.1 = Some c.
Proof.
  intros Hnone Hp Hlen r. subst r.
  pose proof (getOrCreateDocument_registers now docName (TierADoc (Some persisted)) okB s)
    as [Hreg1 Hreg2].
  specialize (Hreg2 Hnone). revert Hreg1 Hreg2.
  unfold getOrCreateDocument. rewrite Hnone. unfold create_document. simpl.
  unfold restore_document. simpl. rewrite Hp.
  rewrite bool_decide_eq_true_2 by exact Hlen.
  unfold apply_restored. simpl. rewrite lookup_insert_eq. simpl.
  intros Hreg1 Hreg2. split; [reflexivity|]. split; [split; assumption|].
  destruct (Y_applyUpdate Y_empty persisted) as [c|c] eqn:Happ.
  - rewrite finish_document_docMetadata. split; [reflexivity|]. split.
    + unfold finish_document, observe_document, fallback_document. simpl. rewrite Hp.
      now destruct bindState.
    + exists c. split; [now left|]. rewrite finish_document_replica. simpl.
      now rewrite lookup_alter_eq, lookup_insert_eq.
  - split; [reflexivity|]. split; [reflexivity|].
    exists c. split; [now right|]. unfold fallback_document. simpl.
    now rewrite lookup_alter_eq, lookup_insert_eq.
Qed.

(** X22: without LevelDB, an attach of a name that is not in memory
    reads Firebase: the record kept under the name is applied to the new
    document when there is one, and otherwise, also when the read fails,
    the document stays empty and gets the metadata [{created: now,
    lastModified: now, version: 1}]; in both cases the document is
    registered under the name. *)
Theorem getOrCreateDocument_without_leveldb now docName ioA okB s :
  persistence s = false -> docs s !! docName = None ->
  let r := getOrCreateDocument now docName ioA okB s in
  r.1 = next_doc s /\ registered r.1 docName r.2
  /\ (forall data c,
        tierB_read okB docName s = Some data ->
        Y_applyUpdate Y_empty (content data) = Applied c ->
        replica <$> heap r.2 !! r.1 = Some c)
  /\ (tierB_read okB docName s = None ->
      replica <$> heap r.2 !! r.1 = Some Y_empty
      /\ docMetadata r.2 !! docName = Some (mkMetadata (Some now) (Some now) (Some 1))).
Proof.
  intros Hp Hnone r. subst r.
  pose proof (getOrCreateDocument_registers now docName ioA okB s) as [Hreg1 Hreg2].
  specialize (Hreg2 Hnone). revert Hreg1 Hreg2.
  unfold getOrCreateDocument. rewrite Hnone. unfold create_document. simpl.
  set (s1 := with_next_doc _ _).
  assert (Hdoc : heap s1 !! next_doc s = Some (mkYDoc docName Y_empty [] [] None None))
    by (subst s1; simpl; apply lookup_insert_eq).
  assert (Hp1 : persistence s1 = false) by exact Hp.
  assert (Hread : tierB_read okB docName s1 = tierB_read okB docName s) by reflexivity.
  clearbody s1. unfold restore_document. rewrite Hp1. cbn [fst snd].
  intros Hreg1 Hreg2. split; [reflexivity|]. split; [exact (conj Hreg1 Hreg2)|]. split.
  - intros data c Hd Happ.
    eapply restore_from_firebase_some; [exact Hdoc | rewrite Hread; exact Hd | exact Happ].
  - intros Hd.
    apply (restore_from_firebase_none now (next_doc s) docName okB s1 _ Hdoc).
    now rewrite Hread.
Qed.

Lemma update_doc_id d f s doc :
  heap s !! d = Some doc -> f doc = doc -> update_doc d f s = s.
Proof.
  intros Hdoc Hf. unfold update_doc, with_heap.
  rewrite (alter_id f (heap s) d); [now destruct s|].
  intros x Hx. congruence.
Qed.

Lemma with_replica_id doc : with_replica (replica doc) doc = doc.
Proof. now destruct doc. Qed.

Lemma with_states_id doc aw :
  awareness doc = Some aw -> with_states (fun _ => states aw) doc = doc.
Proof.
  destruct doc as [n r c o a t]. simpl. intros ->. unfold with_states, with_awareness.
  simpl. now destruct aw.
Qed.

Lemma update_doc_insert d f s doc :
  heap s !! d = Some doc -> update_doc d f s = with_heap (insert d (f doc)) s.
Proof.
  intros Hdoc. unfold update_doc, with_heap. f_equal.
  apply map_eq. intros i. destruct (decide (d = i)) as [<-|Hne].
  - now rewrite lookup_alter_eq, lookup_insert_eq, Hdoc.
  - now rewrite lookup_alter_ne, lookup_insert_ne by exact Hne.
Qed.

Lemma with_heap_insert_id d s doc :
  heap s !! d = Some doc -> with_heap (insert d doc) s = s.
Proof.
  intros Hdoc. unfold with_heap. rewrite insert_id by exact Hdoc. now destruct s.
Qed.

(** C8 (amended): an inbound message that cannot be decoded, or whose
    message type is unknown, is dropped by the server with one log line:
    the sockets (so the connection and its [readyState]), the frames
    sent, the registry and everything else are as before, and the
    document is as the throwing decoder left it.  When the message type
    or the length prefix of an awareness payload cannot be read, or the
    message type is unknown, that is the document as it was.  When the
    sync decoder throws after the document has emitted an update for what
    it had merged, that update is handled as any other before the
    failure is logged. *)
Theorem on_message_drops now conn message s d doc :
  sockets s !! conn ≫= handlers = Some d ->
  heap s !! d = Some doc ->
  let s' := on_message now conn message s in
  (forall doc',
     undecodable message doc doc' \/ (unknown_discriminant message /\ doc' = doc) ->
     (exists line, s' = log line (with_heap (insert d doc') s))
     /\ sockets s' = sockets s /\ sent s' = sent s /\ docs s' = docs s
     /\ dom (heap s') = dom (heap s)
     /\ conns doc' = conns doc /\ update_observers doc' = update_observers doc
     /\ (doc' = doc -> exists line, s' = log line s))
  /\ (forall rest c update,
        readVarUint message = Some (messageSync, rest) ->
        readSyncMessage rest (replica doc) = SyncThrew c (Some update) ->
        exists line, s' = log line (content_change now d c update s)).
Proof.
  intros Hh Hdoc. cbv zeta. split.
  - intros doc' Hbad.
    assert (Hdom : dom (<[d:=doc']> (heap s)) = dom (heap s)).
    { apply set_eq. intros i. rewrite !elem_of_dom.
      destruct (decide (d = i)) as [<-|Hne].
      - rewrite lookup_insert_eq, Hdoc. split; eauto.
      - now rewrite lookup_insert_ne by exact Hne. }
    assert (Hline : exists line,
              on_message now conn message s = log line (with_heap (insert d doc') s)
              /\ conns doc' = conns doc /\ update_observers doc' = update_observers doc).
    { unfold on_message, message_catch. rewrite Hh, Hdoc.
      destruct Hbad as [[[Hnone ->] | [(rest & c & Hrd & Hthrew & ->)
                                      | (rest & Hrd & Haw)]]
                       | [(t & rest & Hrd & Hns & Hna) ->]].
      - rewrite Hnone, (with_heap_insert_id d s doc Hdoc). now eexists.
      - rewrite Hrd. rewrite bool_decide_eq_true_2 by reflexivity. rewrite Hthrew.
        rewrite (update_doc_insert d _ s doc Hdoc). now eexists.
      - rewrite Hrd. rewrite bool_decide_eq_false_2 by discriminate.
        rewrite bool_decide_eq_true_2 by reflexivity.
        destruct Haw as [[-> ->] | (update & rest' & aw & st & -> & Haw & Hthrew & ->)].
        + rewrite (with_heap_insert_id d s doc Hdoc). now eexists.
        + rewrite Haw, Hthrew, (update_doc_insert d _ s doc Hdoc). now eexists.
      - rewrite Hrd. rewrite !bool_decide_eq_false_2 by assumption.
        rewrite (with_heap_insert_id d s doc Hdoc). now eexists. }
    destruct Hline as (line & Heq & Hc & Ho). rewrite Heq.
    split; [now exists line|]. repeat split; try assumption.
    intros ->. exists line. now rewrite (with_heap_insert_id d s doc Hdoc).
  - intros rest c update Hrd Hthrew. unfold on_message, message_catch.
    rewrite Hh, Hdoc, Hrd. rewrite bool_decide_eq_true_2 by reflexivity.
    rewrite Hthrew. now eexists.
Qed.


End WithLibrary.

Lemma leveldb_answer_shadows_firebase_witness :
  let s := boot (Some {[ "demo"%string :=
                   mkFbRecord [Byte.x61; Byte.x62; Byte.x63]
                     (Some (mkMetadata (Some 0) (Some 9) (Some 5))) 9 ]})
             true in
  let r := getOrCreateDocument (lib := Wire.library) 10 "demo"
             (TierADoc (Some [Byte.x00; Byte.x00])) true s in
  registered r.1 "demo" r.2
  /\ docMetadata r.2 !! "demo"%string = None
  /\ (exists c, replica <$> heap r.2 !! r.1 = Some c /\ c <> [Byte.x61; Byte.x62; Byte.x63])
  /\ (content <$> stored "demo" r.2) = Some [Byte.x61; Byte.x62; Byte.x63].
Proof.
  intros s r.
  destruct (leveldb_answer_shadows_firebase (lib := Wire.library) 10 "demo"
              [Byte.x00; Byte.x00] true s)
    as (_ & Hreg & Hm & Hf & c & Hc & Hr);
    [vm_compute; reflexivity | vm_compute; reflexivity | simpl; lia |].
  split; [exact Hreg|]. split; [fold r in Hm; rewrite Hm; vm_compute; reflexivity|].
  split.
  - exists c. split; [exact Hr|].
    destruct Hc as [Hc|Hc]; vm_compute in Hc; [|discriminate].
    injection Hc as <-. discriminate.
  - unfold stored. fold r in Hf. rewrite Hf. vm_compute. reflexivity.
Defined.

Lemma getOrCreateDocument_without_leveldb_witness :
  let s := boot (Some {[ "demo"%string :=
                   mkFbRecord [Byte.x61; Byte.x62; Byte.x63]
                     (Some (mkMetadata (Some 0) (Some 9) (Some 5))) 9 ]})
             false in
  replica <$> heap (getOrCreateDocument (lib := Wire.library) 10 "demo"
                      (TierADoc None) true s).2 !! 0%nat
  = Some [Byte.x61; Byte.x62; Byte.x63].
Proof.
  intros s.
  destruct (getOrCreateDocument_without_leveldb (lib := Wire.library) 10 "demo"
              (TierADoc None) true s) as (_ & _ & H & _);
    [vm_compute; reflexivity | vm_compute; reflexivity |].
  apply (H (mkFbRecord [Byte.x61; Byte.x62; Byte.x63]
              (Some (mkMetadata (Some 0) (Some 9) (Some 5))) 9));
    vm_compute; reflexivity.
Defined.

Lemma on_message_drops_witness :
  (exists line, on_message (lib := Wire.library) 5 1 [Byte.x07] demo_two = log line demo_two)
  /\ (exists line, on_message (lib := Wire.library) 5 1 [] demo_two = log line demo_two).
Proof.
  pose (doc := mkYDoc "demo" [] [(1%nat, []); (2%nat, [])]
                 [ObsBackup; ObsMessageListener 1; ObsMessageListener 2]
                 (Some (mkAwareness ∅ [1%nat; 2%nat])) None).
  split.
  - edestruct (on_message_drops (lib := Wire.library) 5 1%nat [Byte.x07] demo_two 0%nat doc)
      as [H _]; [vm_compute; reflexivity | vm_compute; reflexivity |].
    edestruct (H doc) as (_ & _ & _ & _ & _ & _ & _ & Hsame); [|exact (Hsame eq_refl)].
    right. split; [|reflexivity]. exists 7%N, []. repeat split; discriminate.
  - edestruct (on_message_drops (lib := Wire.library) 5 1%nat [] demo_two 0%nat doc)
      as [H _]; [vm_compute; reflexivity | vm_compute; reflexivity |].
    edestruct (H doc) as (_ & _ & _ & _ & _ & _ & _ & Hsame); [|exact (Hsame eq_refl)].
    left. left. split; reflexivity.
Defined.

(** C8, as stated, fails: the server hands the awareness table to
    [applyAwarenessUpdate], which writes the entries as it reads them.  An
    update whose second entry is cut short throws after the first entry
    has been written: the message is logged as an error and nothing is
    sent, the connection stays open, but client 42 is now in the table. *)
Lemma truncated_awareness_update_applied :
  let s := on_message (lib := Wire.library_entries) 5 1 awareness_truncated demo_two in
  console s = console demo_two ++ [LogError "Error processing message"]
  /\ sent s = sent demo_two /\ sockets s = sockets demo_two
  /\ (awareness_states 0 demo_two ≫= (fun st => st !! 42%N)) = None
  /\ (awareness_states 0 s ≫= (fun st => st !! 42%N)) = Some [Byte.x7b; Byte.x7d].
Proof. vm_compute. repeat split; reflexivity. Qed.


End Backup.

Section Relay.

(** C1 (the code at the failing input): with connections 1 and 2 on
    "demo", a change of the document coming from connection 1 is sent to 2
    once and back to 1 once, whatever the update: the listener of 1
    forwards it to everybody but 1, the listener of 2 to everybody but 2.
    This is what the delta "abc" sent by 1 does.  With a third connection
    every connection, the sender included, gets the update twice. *)
Theorem update_echoed_to_sender (now : Time) (c update : bytes) :
  sent (content_change now 0 c update demo_two)
    = sent demo_two ++ [(2%nat, FSyncUpdate update); (1%nat, FSyncUpdate update)]
  /\ sent (run (lib := Wire.library) demo_two [(5, EvMessage 1 delta_abc)])
    = sent demo_two
      ++ [(2%nat, FSyncUpdate [Byte.x61; Byte.x62; Byte.x63]);
          (1%nat, FSyncUpdate [Byte.x61; Byte.x62; Byte.x63])]
  /\ sent (content_change now 0 c update demo_three)
    = sent demo_three
      ++ [(2%nat, FSyncUpdate update); (3%nat, FSyncUpdate update);
          (1%nat, FSyncUpdate update); (3%nat, FSyncUpdate update);
          (1%nat, FSyncUpdate update); (2%nat, FSyncUpdate update)].
Proof. repeat split; vm_compute; reflexivity. Qed.

Lemma map_get_delete {V} k (m : list (nat * V)) : map_get k (map_delete k m) = None.
Proof.
  induction m as [|[k' v] m IH]; [reflexivity|].
  unfold map_delete in *. rewrite filter_cons. simpl.
  destruct (decide (k' <> k)) as [Hne|Heq]; simpl; [|exact IH].
  destruct (decide (k' = k)); [contradiction | exact IH].
Qed.

Lemma setTimeout_frame cb delay now s :
  sent (setTimeout cb delay now s).2 = sent s
  /\ heap (setTimeout cb delay now s).2 = heap s.
Proof. split; reflexivity. Qed.

(** C2 (the code on every input): the close handler looks the connection
    up in [doc.conns] after it has deleted it, so it never reaches
    [removeAwarenessStates]: closing a connection sends no frame to
    anybody and leaves the awareness table of every document as it was. *)
Theorem on_close_no_tombstone {lib : Library} now conn s :
  sent (on_close now conn s) = sent s
  /\ forall d, awareness_states d (on_close now conn s) = awareness_states d s.
Proof.
  unfold on_close.
  destruct (sockets s !! conn ≫= handlers) as [d|]; [|split; reflexivity].
  set (s1 := update_doc d (with_aw_observers (set_delete conn)) _).
  assert (Hget : heap s1 !! d ≫= (fun doc => map_get conn (conns doc)) = None).
  { subst s1. simpl. rewrite !lookup_alter_eq.
    destruct (heap s !! d) as [doc|]; [|reflexivity]. simpl. apply map_get_delete. }
  rewrite Hget.
  assert (Hsent : sent s1 = sent s) by reflexivity.
  assert (Hst : forall d', awareness_states d' s1 = awareness_states d' s).
  { intros d'. subst s1. unfold awareness_states. simpl.
    destruct (decide (d = d')) as [<-|Hne].
    - rewrite !lookup_alter_eq. destruct (heap s !! d) as [doc|]; [|reflexivity].
      simpl. now destruct (awareness doc).
    - now rewrite !lookup_alter_ne by exact Hne. }
  destruct (heap s1 !! d) as [doc|]; [|split; assumption].
  destruct (conns doc); split; try assumption; simpl; assumption.
Qed.

(** C2 at the failing input: connection 2 sets the state of client 42 and
    closes; the table still holds client 42 and connection 1 has been sent
    nothing since the awareness update itself. *)
Lemma close_keeps_presence :
  let s1 := run (lib := Wire.library) demo_two [(5, EvMessage 2 awareness_42)] in
  let s2 := run (lib := Wire.library) s1 [(6, EvClose 2)] in
  (awareness_states 0 s1 ≫= (fun st => st !! 42%N)) = Some [Byte.x7b]
  /\ (awareness_states 0 s2 ≫= (fun st => st !! 42%N)) = Some [Byte.x7b]
  /\ sent s2 = sent s1.
Proof. vm_compute. repeat split; reflexivity. Qed.

(** C3 (the code at the failing input): both attaches find "demo" absent
    and create a document each; the second registration replaces the
    first in [docs], and connection 1 is served by document 0, which the
    registry no longer knows, while connection 2 is served by document 1. *)
Theorem overlapping_attaches_two_documents :
  let s := run (lib := Wire.library) (boot None true) overlapping_attaches in
  docs s !! "demo"%string = Some 1%nat
  /\ (dname <$> heap s !! 0%nat) = Some "demo"%string
  /\ (conns <$> heap s !! 0%nat) = Some [(1%nat, [])]
  /\ (dname <$> heap s !! 1%nat) = Some "demo"%string
  /\ (conns <$> heap s !! 1%nat) = Some [(2%nat, [])]
  /\ (sockets s !! 1%nat ≫= handlers) = Some 0%nat
  /\ (sockets s !! 2%nat ≫= handlers) = Some 1%nat.
Proof. vm_compute. repeat split; reflexivity. Qed.

End Relay.

Section Queue.
Context {lib : Library}.

Lemma fold_left_view {A} (f : Server -> A -> Server) l s :
  (forall s x, backup_view (f s x) = backup_view s) ->
  backup_view (fold_left f l s) = backup_view s.
Proof.
  intros Hf. revert s. induction l as [|x l IH]; intros s; simpl; [reflexivity|].
  now rewrite IH, Hf.
Qed.

Lemma broadcast_view d conn f s : backup_view (broadcast d conn f s) = backup_view s.
Proof.
  unfold broadcast. destruct (heap s !! d); [|reflexivity].
  apply fold_left_view. intros s' x. now destruct (_ && _).
Qed.

Lemma conn_send_view c f s : backup_view (conn_send c f s) = backup_view s.
Proof. unfold conn_send. now destruct (is_open c s). Qed.

Lemma scheduleFirebaseBackup_view now d s :
  backup_view (scheduleFirebaseBackup now d s) = backup_view s.
Proof.
  unfold scheduleFirebaseBackup. destruct (heap s !! d) as [doc|]; [|reflexivity].
  now destruct (backupTimer doc).
Qed.

Lemma emit_update_view now d update s :
  backup_view (emit_update now d update s) = backup_view s.
Proof.
  unfold emit_update. destruct (heap s !! d); [|reflexivity].
  apply fold_left_view. intros s' [| |c]; simpl; [reflexivity| |apply broadcast_view].
  destruct (heap s' !! d); [|reflexivity]. now rewrite scheduleFirebaseBackup_view.
Qed.

Lemma awarenessChangeHandler_view d ch conn s :
  backup_view (awarenessChangeHandler d ch conn s) = backup_view s.
Proof.
  unfold awarenessChangeHandler.
  match goal with |- context [heap ?s1 !! d ≫= awareness] =>
    assert (Hv : backup_view s1 = backup_view s) by (now destruct conn);
    destruct (heap s1 !! d ≫= awareness) end; [|exact Hv].
  now rewrite broadcast_view.
Qed.

Lemma emit_awareness_view d ch origin s :
  backup_view (emit_awareness d ch origin s) = backup_view s.
Proof.
  unfold emit_awareness. destruct (heap s !! d ≫= awareness); [|reflexivity].
  apply fold_left_view. intros. apply awarenessChangeHandler_view.
Qed.

Lemma removeAwarenessStates_view d clients origin s :
  backup_view (removeAwarenessStates d clients origin s) = backup_view s.
Proof.
  unfold removeAwarenessStates. destruct (heap s !! d ≫= awareness) as [aw|]; [|reflexivity].
  destruct (filter _ clients); [reflexivity|]. now rewrite emit_awareness_view.
Qed.

Lemma restoreDocument_view ok docName s :
  backup_view (restoreDocument ok docName s).2 = backup_view s.
Proof.
  unfold restoreDocument.
  destruct (database (firebaseBackup s)) as [db|]; [|reflexivity].
  destruct ok; [|reflexivity].
  destruct (db !! docName) as [data|]; [|reflexivity].
  now destruct (rmetadata data).
Qed.

Lemma finish_document_view d docName s :
  backup_view (finish_document d docName s) = backup_view s.
Proof.
  unfold finish_document. destruct (persistence s); [destruct bindState|]; reflexivity.
Qed.

Lemma apply_restored_view d docName update line s :
  backup_view (apply_restored d docName update line s) = backup_view s.
Proof.
  unfold apply_restored. destruct (heap s !! d) as [doc|]; [|reflexivity].
  destruct (Y_applyUpdate _ _); [|reflexivity].
  rewrite finish_document_view. now destruct line.
Qed.

Lemma restore_from_firebase_view now d docName okB s :
  backup_view (restore_from_firebase now d docName okB s) = backup_view s.
Proof.
  unfold restore_from_firebase.
  pose proof (restoreDocument_view okB docName s) as Hv.
  destruct (restoreDocument okB docName s) as [[u|] s']; simpl in Hv.
  - now rewrite apply_restored_view.
  - now rewrite finish_document_view.
Qed.

Lemma restore_document_view now d docName ioA okB s :
  backup_view (restore_document now d docName ioA okB s) = backup_view s.
Proof.
  unfold restore_document.
  destruct (persistence s); [|apply restore_from_firebase_view].
  destruct ioA as [|[persisted|]]; [reflexivity| |apply restore_from_firebase_view].
  case_bool_decide; [apply apply_restored_view | apply restore_from_firebase_view].
Qed.

Lemma connection_setup_view conn d s :
  backup_view (connection_setup conn d s) = backup_view s.
Proof.
  unfold connection_setup.
  match goal with |- context [heap ?s1 !! d] =>
    change (backup_view s) with (backup_view s1); destruct (heap s1 !! d) as [doc|] end;
    [|reflexivity].
  simpl. match goal with |- backup_view (log _ (with_sockets _ ?s2)) = _ =>
    change (backup_view s2 = backup_view s) end.
  destruct (awareness doc) as [aw|].
  - destruct ((map_to_list (states aw)).*1); now rewrite !conn_send_view.
  - now rewrite conn_send_view.
Qed.

Lemma setupWSConnection_view now conn docName s :
  backup_view (setupWSConnection now conn docName s) = backup_view s.
Proof.
  unfold setupWSConnection.
  destruct (docs s !! _); [apply connection_setup_view|].
  unfold create_document. simpl.
  destruct (_ || _); [reflexivity|].
  now rewrite connection_setup_view, restore_document_view.
Qed.

Lemma attach_resume_view now k ioA okB s :
  backup_view (attach_resume now k ioA okB s) = backup_view s.
Proof.
  unfold attach_resume. destruct (attach_tasks s !! k); [|reflexivity].
  now rewrite connection_setup_view, restore_document_view.
Qed.

Lemma on_message_view now conn message s :
  backup_view (on_message now conn message s) = backup_view s.
Proof.
  unfold on_message, message_catch.
  destruct (sockets s !! conn ≫= handlers) as [d|]; [|reflexivity].
  destruct (heap s !! d) as [doc|]; [|reflexivity].
  destruct (readVarUint message) as [[t rest]|]; [|reflexivity].
  case_bool_decide.
  - assert (Hv : forall c emitted,
              backup_view
                (match emitted with
                 | Some update => content_change now d c update s
                 | None => update_doc d (with_replica c) s
                 end) = backup_view s)
      by (intros c [update|]; [unfold content_change; now rewrite emit_update_view
                              | reflexivity]).
    destruct (readSyncMessage _ _) as [c emitted reply|c emitted]; [|apply (Hv c emitted)].
    destruct reply; [apply Hv | now rewrite conn_send_view].
  - case_bool_decide; [|reflexivity].
    destruct (readVarUint8Array rest) as [[update ?]|]; [|reflexivity].
    destruct (awareness doc) as [aw|]; [|reflexivity].
    destruct (applyAwarenessUpdate _ _) as [st [ch|]|st]; try reflexivity.
    now rewrite emit_awareness_view.
Qed.

Lemma on_close_view now conn s : backup_view (on_close now conn s) = backup_view s.
Proof.
  unfold on_close. destruct (sockets s !! conn ≫= handlers) as [d|]; [|reflexivity].
  set (s1 := update_doc d (with_aw_observers (set_delete conn)) _).
  assert (H1 : backup_view s1 = backup_view s) by reflexivity.
  match goal with |- context [heap ?s2 !! d] =>
    assert (H2 : backup_view s2 = backup_view s) end.
  { destruct (heap s1 !! d ≫= _); [now rewrite removeAwarenessStates_view | exact H1]. }
  match goal with |- context [heap ?s2 !! d] =>
    destruct (heap s2 !! d) as [doc|] end; [|exact H2].
  destruct (conns doc); [|exact H2]. simpl. exact H2.
Qed.

Lemma queue_inv_view s s' : queue_view s' = queue_view s -> queue_inv s -> queue_inv s'.
Proof. unfold queue_view, queue_inv. intros [= -> ->]. tauto. Qed.

Lemma backup_view_queue_view s s' : backup_view s' = backup_view s -> queue_view s' = queue_view s.
Proof. unfold backup_view, queue_view. now intros [= -> -> _]. Qed.

Lemma backup_view_shutdown_tasks s s' :
  backup_view s' = backup_view s -> shutdown_tasks s' = shutdown_tasks s.
Proof. unfold backup_view. now intros [= _ _ ->]. Qed.

Lemma backupDocument_begin_view now docName doc s :
  backup_view (backupDocument_begin now docName doc s).2 = backup_view s.
Proof. unfold backupDocument_begin. now destruct (database (firebaseBackup s)). Qed.

Lemma backupDocument_end_view w ok s :
  queue_view (backupDocument_end w ok s) = queue_view s
  /\ shutdown_tasks (backupDocument_end w ok s) = shutdown_tasks s.
Proof. unfold backupDocument_end. now destruct ok. Qed.

Lemma queue_loop_inv now rest i s :
  isBackupRunning (firebaseBackup s) = true -> queue_tasks s = [] ->
  queue_inv (queue_loop now rest i s)
  /\ shutdown_tasks (queue_loop now rest i s) = shutdown_tasks s.
Proof.
  revert i s. induction rest as [|docName rest IH]; intros i s Hrun Hq; simpl.
  - split; [left; now split | reflexivity].
  - destruct (docs s !! docName ≫= _) as [doc|]; [|now apply IH].
    pose proof (backupDocument_begin_view now docName doc s) as Hv.
    destruct (backupDocument_begin now docName doc s) as [[w|] s']; simpl in Hv.
    + injection Hv as Hm Ht Hs. split; [|exact Hs].
      right. simpl. rewrite Hm, Ht, Hq. split; [exact Hrun | now eexists].
    + injection Hv as Hm Ht Hs. rewrite <- Hs. apply IH; congruence.
Qed.

Lemma processBackupQueue_inv now s :
  queue_inv s ->
  queue_inv (processBackupQueue now s)
  /\ shutdown_tasks (processBackupQueue now s) = shutdown_tasks s.
Proof.
  intros Hinv. unfold processBackupQueue.
  destruct (isBackupRunning (firebaseBackup s)) eqn:Hrun; simpl; [now split|].
  case_bool_decide; [now split|].
  destruct Hinv as [[_ Hq]|[Hr _]]; [|congruence].
  apply (queue_loop_inv now _ 0%nat (with_manager (with_isBackupRunning true) s));
    [reflexivity | exact Hq].
Qed.

Lemma scheduleBackup_inv now docName s :
  queue_inv s ->
  queue_inv (scheduleBackup now docName s)
  /\ shutdown_tasks (scheduleBackup now docName s) = shutdown_tasks s.
Proof.
  intros Hinv. unfold scheduleBackup.
  exact (processBackupQueue_inv now
           (with_manager (fun m => with_backupQueue (set_add docName (backupQueue m)) m) s)
           Hinv).
Qed.

Lemma fire_timer_inv now h s :
  queue_inv s ->
  queue_inv (fire_timer now h s)
  /\ shutdown_tasks (fire_timer now h s) = shutdown_tasks s.
Proof.
  intros Hinv. unfold fire_timer.
  destruct (list_find _ (timers s)) as [[? t]|]; [|now split].
  case_bool_decide; [|now split].
  assert (Hc : queue_inv (clearTimeout h s)) by exact Hinv.
  change (shutdown_tasks s) with (shutdown_tasks (clearTimeout h s)).
  generalize dependent (clearTimeout h s). intros s1 Hc.
  destruct (t_callback t) as [docName|docName d|docName d]; simpl.
  - now apply scheduleBackup_inv.
  - destruct (conns_empty d s1); [|now split].
    apply (scheduleBackup_inv now docName (log (LogInfo "Cleaning up document") s1)), Hc.
  - destruct (conns_empty d s1); now split.
Qed.

Lemma queue_resume_inv now k ok s :
  queue_inv s ->
  queue_inv (queue_resume now k ok s)
  /\ shutdown_tasks (queue_resume now k ok s) = shutdown_tasks s.
Proof.
  intros Hinv. unfold queue_resume.
  destruct (queue_tasks s !! k) as [t|] eqn:Hk; [|now split].
  destruct Hinv as [[_ Hq]|[Hrun [t' Hq]]]; [now rewrite Hq in Hk|].
  rewrite Hq in Hk. destruct k as [|k]; [|discriminate].
  set (s1 := with_queue_tasks (delete 0%nat) s).
  destruct (backupDocument_end_view (qt_write t) ok s1) as [Hv Hs].
  injection Hv as Hr Ht.
  change (shutdown_tasks s) with (shutdown_tasks s1). rewrite <- Hs.
  apply queue_loop_inv.
  - now rewrite Hr.
  - rewrite Ht. subst s1. simpl. now rewrite Hq.
Qed.

Lemma shutdown_loop_view now rest : forall i s,
  queue_view (shutdown_loop now rest i s) = queue_view s.
Proof.
  induction rest as [|[docName|] rest IH]; intros i s; simpl;
    [now destruct (persistence s) | | apply IH].
  destruct (docs s !! docName ≫= _) as [doc|]; [|apply IH].
  pose proof (backupDocument_begin_view now docName doc s) as Hv.
  apply backup_view_queue_view in Hv.
  destruct (backupDocument_begin now docName doc s) as [[w|] s']; simpl in Hv.
  - exact Hv.
  - now rewrite IH.
Qed.

Lemma gracefulShutdown_view now s : queue_view (gracefulShutdown now s) = queue_view s.
Proof. unfold gracefulShutdown. destruct (_ && _); now rewrite shutdown_loop_view. Qed.

Lemma shutdown_resume_view now k ok s :
  queue_view (shutdown_resume now k ok s) = queue_view s.
Proof.
  unfold shutdown_resume. destruct (shutdown_tasks s !! k) as [t|]; [|reflexivity].
  rewrite shutdown_loop_view. now destruct (backupDocument_end_view (sd_write t) ok
    (with_shutdown_tasks (delete k) s)) as [-> _].
Qed.

Lemma step_queue_inv s e : queue_inv s -> queue_inv (step s e).
Proof.
  intros Hinv. destruct e as [now [conn docName|k ioA okB|conn message|conn|h|k ok| |k ok]];
    unfold step; simpl.
  - eapply queue_inv_view; [|exact Hinv].
    apply backup_view_queue_view. now rewrite setupWSConnection_view.
  - eapply queue_inv_view; [|exact Hinv].
    apply backup_view_queue_view, attach_resume_view.
  - eapply queue_inv_view; [|exact Hinv].
    apply backup_view_queue_view, on_message_view.
  - eapply queue_inv_view; [|exact Hinv].
    apply backup_view_queue_view, on_close_view.
  - now apply fire_timer_inv.
  - now apply queue_resume_inv.
  - eapply queue_inv_view; [apply gracefulShutdown_view | exact Hinv].
  - eapply queue_inv_view; [apply shutdown_resume_view | exact Hinv].
Qed.

Lemma step_no_shutdown s e :
  queue_inv s -> is_shutdown e = false -> shutdown_tasks s = [] ->
  shutdown_tasks (step s e) = [].
Proof.
  intros Hinv He Hs.
  destruct e as [now [conn docName|k ioA okB|conn message|conn|h|k ok| |k ok]];
    unfold step; simpl; try discriminate.
  - rewrite (backup_view_shutdown_tasks _ _ (setupWSConnection_view now conn docName _)).
    exact Hs.
  - now rewrite (backup_view_shutdown_tasks _ _ (attach_resume_view now k ioA okB s)).
  - now rewrite (backup_view_shutdown_tasks _ _ (on_message_view now conn message s)).
  - now rewrite (backup_view_shutdown_tasks _ _ (on_close_view now conn s)).
  - now destruct (fire_timer_inv now h s Hinv) as [_ ->].
  - now destruct (queue_resume_inv now k ok s Hinv) as [_ ->].
  - unfold shutdown_resume. now rewrite Hs.
Qed.

Lemma run_inv es s :
  queue_inv s ->
  queue_inv (run s es)
  /\ (forallb (fun e => negb (is_shutdown e)) es = true ->
      shutdown_tasks s = [] -> shutdown_tasks (run s es) = []).
Proof.
  revert s. induction es as [|e es IH]; intros s Hinv; [now split|].
  unfold run in *. simpl.
  destruct (IH (step s e) (step_queue_inv s e Hinv)) as [H1 H2].
  split; [exact H1|].
  intros Hall Hs. apply andb_prop in Hall as [He Hall].
  apply H2; [exact Hall|].
  apply step_no_shutdown; [exact Hinv | now destruct (is_shutdown e) | exact Hs].
Qed.

(** C9 (amended): in every run of the server at most one remote write
    started by [processBackupQueue] is in flight, whatever the documents:
    the flag [isBackupRunning] lets one activation of the queue loop run at
    a time.  As long as no shutdown has begun these are the only writes,
    so at most one Tier B write is in flight in the whole process. *)
Theorem one_queue_write_in_flight db leveldb es :
  (length (queue_tasks (run (boot db leveldb) es)) <= 1)%nat
  /\ (forallb (fun e => negb (is_shutdown e)) es = true ->
      (length (in_flight (run (boot db leveldb) es)) <= 1)%nat).
Proof.
  assert (Hboot : queue_inv (boot db leveldb)) by (left; now split).
  destruct (run_inv es (boot db leveldb) Hboot) as [Hinv Hsd].
  assert (Hlen : (length (queue_tasks (run (boot db leveldb) es)) <= 1)%nat).
  { destruct Hinv as [[_ ->]|[_ [t ->]]]; simpl; lia. }
  split; [exact Hlen|].
  intros Hall. unfold in_flight. rewrite length_app, !length_fmap.
  rewrite (Hsd Hall eq_refl). simpl. lia.
Qed.

End Queue.

Lemma one_queue_write_in_flight_witness :
  (length (in_flight (run (lib := Wire.library) (boot (Some ∅) false)
                        (take 4 shutdown_during_backup))) <= 1)%nat.
Proof.
  destruct (one_queue_write_in_flight (lib := Wire.library) (Some ∅) false
              (take 4 shutdown_during_backup)) as [_ H].
  apply H. reflexivity.
Defined.

(** C9, as stated, fails: the final backups of [gracefulShutdown] call
    [backupDocument] without looking at the flag.  When the shutdown
    signal arrives while the queue's write for "a" is pending, a second
    write is started: two Tier B writes are in flight. *)
Lemma shutdown_write_overlaps :
  let s := run (lib := Wire.library) (boot (Some ∅) false) shutdown_during_backup in
  pw_name <$> in_flight s = ["a"%string; "a"%string]
  /\ isBackupRunning (firebaseBackup s) = true
  /\ length (queue_tasks s) = 1%nat /\ length (shutdown_tasks s) = 1%nat.
Proof. vm_compute. repeat split; reflexivity. Qed.

Section Scheduler.

Lemma fold_left_quiet {A} (f : Server -> A -> Server) l s :
  (forall s x, quiet (f s x) = quiet s) -> quiet (fold_left f l s) = quiet s.
Proof.
  intros Hf. revert s. induction l as [|x l IH]; intros s; simpl; [reflexivity|].
  now rewrite IH, Hf.
Qed.

Lemma broadcast_quiet d conn f s : quiet (broadcast d conn f s) = quiet s.
Proof.
  unfold broadcast. destruct (heap s !! d); [|reflexivity].
  apply fold_left_quiet. intros s' x. now destruct (_ && _).
Qed.

Lemma filter_all {A} (P : A -> Prop) `{!forall x, Decision (P x)} (l : list A) :
  Forall P l -> filter P l = l.
Proof.
  induction 1 as [|x l Hx _ IH]; [reflexivity|].
  now rewrite filter_cons_True, IH.
Qed.

Lemma quiet_fields a b :
  quiet a = quiet b ->
  heap a = heap b /\ docs a = docs b /\ docMetadata a = docMetadata b
  /\ firebaseBackup a = firebaseBackup b /\ timers a = timers b
  /\ next_timer a = next_timer b /\ queue_tasks a = queue_tasks b
  /\ shutdown_tasks a = shutdown_tasks b.
Proof. unfold quiet. intros [=]. repeat split; assumption. Qed.












Section Registration.
Context {lib : Library}.

Lemma observe_document_observers d docName s doc :
  heap s !! d = Some doc ->
  update_observers <$> heap (observe_document d docName s) !! d
  = Some (update_observers doc ++ [ObsBackup]).
Proof.
  intros Hdoc. unfold observe_document. simpl. now rewrite lookup_alter_eq, Hdoc.
Qed.

Lemma fallback_document_heap d docName s : heap (fallback_document d docName s) = heap s.
Proof. reflexivity. Qed.

(** What the end of the [try] block leaves of the observers of a document
    that had none: the backup observer when the block ran to its end, and
    none when [persistence.bindState] threw. *)
Lemma finish_document_observers d docName s doc :
  heap s !! d = Some doc -> update_observers doc = [] ->
  update_observers <$> heap (finish_document d docName s) !! d
  = Some (if persistence s
          then match bindState with
               | Bound => [ObsBindState; ObsBackup]
               | BindThrew => []
               end
          else [ObsBackup]).
Proof.
  intros Hdoc Hobs. unfold finish_document.
  destruct (persistence s); [destruct bindState|].
  - erewrite observe_document_observers
      by (simpl; rewrite lookup_alter_eq, Hdoc; reflexivity).
    simpl. now rewrite Hobs.
  - rewrite fallback_document_heap, Hdoc. simpl. now rewrite Hobs.
  - erewrite observe_document_observers by exact Hdoc. now rewrite Hobs.
Qed.

Lemma apply_restored_observers d docName update line s doc :
  heap s !! d = Some doc -> update_observers doc = [] ->
  persistence s = true -> bindState = BindThrew ->
  update_observers <$> heap (apply_restored d docName update line s) !! d = Some [].
Proof.
  intros Hdoc Hobs Hp Hbind. unfold apply_restored. rewrite Hdoc.
  destruct (Y_applyUpdate (replica doc) update) as [c|c].
  - erewrite finish_document_observers.
    + destruct line; simpl; rewrite Hp, Hbind; reflexivity.
    + destruct line; simpl; rewrite lookup_alter_eq, Hdoc; reflexivity.
    + exact Hobs.
  - rewrite fallback_document_heap. simpl. now rewrite lookup_alter_eq, Hdoc, <- Hobs.
Qed.

(** X20: with LevelDB available and a [persistence] object whose
    [bindState] throws, every attach of a name that is not in memory ends
    in the [catch] block: the document is registered without any
    ['update'] observer, whatever the two reads answer. *)
Theorem leveldb_attach_installs_no_observer now docName ioA okB s :
  docs s !! docName = None -> persistence s = true -> bindState = BindThrew ->
  let r := getOrCreateDocument now docName ioA okB s in
  registered r.1 docName r.2
  /\ update_observers <$> heap r.2 !! r.1 = Some [].
Proof.
  intros Hnone Hp Hbind r. subst r.
  pose proof (getOrCreateDocument_registers now docName ioA okB s) as [Hreg1 Hreg2].
  split; [split; [exact Hreg1 | exact (Hreg2 Hnone)]|]. clear Hreg1 Hreg2.
  unfold getOrCreateDocument. rewrite Hnone. unfold create_document. simpl.
  set (s1 := with_next_doc _ _).
  assert (Hdoc : heap s1 !! next_doc s = Some (mkYDoc docName Y_empty [] [] None None))
    by (subst s1; simpl; apply lookup_insert_eq).
  assert (Hp1 : persistence s1 = true) by exact Hp.
  clearbody s1.
  assert (Hfb : forall s2, heap s2 = heap s1 -> persistence s2 = true ->
            update_observers <$> heap (restore_from_firebase now (next_doc s) docName okB s2)
                                   !! next_doc s = Some []).
  { intros s2 Hh2 Hp2. unfold restore_from_firebase.
    pose proof (restoreDocument_frame okB docName s2) as (Hh & _ & Hpp & _).
    destruct (restoreDocument okB docName s2) as [[u|] s3]; simpl in Hh, Hpp.
    - eapply apply_restored_observers; [rewrite Hh, Hh2; exact Hdoc | reflexivity
                                       | congruence | exact Hbind].
    - erewrite finish_document_observers;
        [simpl; rewrite Hpp, Hp2, Hbind; reflexivity
        | simpl; rewrite Hh, Hh2; exact Hdoc | reflexivity]. }
  unfold restore_document. rewrite Hp1.
  destruct ioA as [|[persisted|]].
  - rewrite fallback_document_heap, Hdoc. reflexivity.
  - case_bool_decide.
    + eapply apply_restored_observers; [exact Hdoc | reflexivity | exact Hp1 | exact Hbind].
    + now apply Hfb.
  - now apply Hfb.
Qed.

(** Without LevelDB an attach whose restore does not throw installs the
    backup observer, once. *)
Lemma firebase_attach_installs_observer now docName ioA okB s :
  docs s !! docName = None -> persistence s = false ->
  (forall data, tierB_read okB docName s = Some data ->
     exists c, Y_applyUpdate Y_empty (content data) = Applied c) ->
  let r := getOrCreateDocument now docName ioA okB s in
  exists doc, heap r.2 !! r.1 = Some doc /\ backup_observed doc.
Proof.
  intros Hnone Hp Happ r. subst r.
  unfold getOrCreateDocument. rewrite Hnone. unfold create_document. simpl.
  set (s1 := with_next_doc _ _).
  assert (Hdoc : heap s1 !! next_doc s = Some (mkYDoc docName Y_empty [] [] None None))
    by (subst s1; simpl; apply lookup_insert_eq).
  assert (Hp1 : persistence s1 = false) by exact Hp.
  assert (Hread : tierB_read okB docName s1 = tierB_read okB docName s) by reflexivity.
  clearbody s1.
  assert (Hone : forall doc, update_observers doc = [ObsBackup] -> backup_observed doc).
  { intros doc Ho. exists [], []. rewrite Ho. repeat split; apply not_elem_of_nil. }
  assert (Hget : forall s2, update_observers <$> heap s2 !! next_doc s = Some [ObsBackup] ->
            exists doc, heap s2 !! next_doc s = Some doc /\ backup_observed doc).
  { intros s2 H2. destruct (heap s2 !! next_doc s) as [doc|]; [|discriminate].
    exists doc. split; [reflexivity|]. apply Hone. now injection H2. }
  apply Hget. unfold restore_document. rewrite Hp1. unfold restore_from_firebase.
  pose proof (restoreDocument_result okB docName s1) as Hr.
  pose proof (restoreDocument_frame okB docName s1) as (Hh & _ & Hpp & _).
  destruct (restoreDocument okB docName s1) as [[u|] s3]; simpl in Hr, Hh, Hpp.
  - rewrite Hread in Hr. destruct (tierB_read okB docName s) as [data|] eqn:Hd; [|discriminate].
    injection Hr as ->. destruct (Happ data eq_refl) as [c Hc].
    unfold apply_restored. rewrite Hh, Hdoc. simpl. rewrite Hc.
    erewrite finish_document_observers;
      [simpl; rewrite Hpp, Hp1; reflexivity
      | simpl; rewrite lookup_alter_eq, Hh, Hdoc; reflexivity | reflexivity].
  - erewrite finish_document_observers;
      [simpl; rewrite Hpp, Hp1; reflexivity | simpl; rewrite Hh; exact Hdoc | reflexivity].
Qed.

End Registration.


Lemma leveldb_attach_installs_no_observer_witness :
  update_observers
    <$> heap (getOrCreateDocument (lib := Wire.library) 10 "demo"
                (TierADoc (Some [Byte.x00; Byte.x00])) true (boot (Some ∅) true)).2
          !! 0%nat
  = Some [].
Proof.
  destruct (leveldb_attach_installs_no_observer (lib := Wire.library) 10 "demo"
              (TierADoc (Some [Byte.x00; Byte.x00])) true (boot (Some ∅) true))
    as [_ H]; [vm_compute; reflexivity | reflexivity | reflexivity |].
  exact H.
Defined.


(** The LevelDB branch of [getOrCreateDocument] leaves [docMetadata]
    without an entry for the document (the Firebase branch and the
    new-document branch set one): the next backup, here the final one of
    the clean-up, starts from the default metadata and stores version 2
    over the version 5 that Firebase held. *)
Lemma version_restarts_after_leveldb_restore :
  let s0 := boot (Some {[ "demo"%string :=
                    mkFbRecord [Byte.x01] (Some (mkMetadata (Some 0) (Some 0) (Some 5))) 0 ]})
              true in
  let s := run (lib := Wire.library) s0 backup_after_leveldb_restore in
  stored_version "demo" s0 = Some 5
  /\ stored_version "demo" s = Some 2
  /\ (content <$> stored "demo" s) = Some [Byte.x01; Byte.x61; Byte.x62; Byte.x63].
Proof. vm_compute. repeat split; reflexivity. Qed.


End Scheduler.

Section Names.

Lemma before_query_app name rest :
  "?"%char ∉ chars name ->
  before_query (name +:+ String "?"%char rest) = name
  /\ before_query name = name.
Proof.
  induction name as [|c name IH]; intros Hq; simpl.
  - split; reflexivity.
  - destruct (Ascii.eqb_spec c "?"%char) as [->|Hne].
    + exfalso. apply Hq. simpl. now left.
    + destruct IH as [IH1 IH2]; [intros H; apply Hq; simpl; now right|].
      now rewrite IH1, IH2.
Qed.


(** X1: the document name of a connection is the path of the request
    without its leading slash and without the query string: for a name
    free of question marks, both "/name" and "/name?query" give the
    name. *)
Theorem url_docName_round_trip name query :
  "?"%char ∉ chars name ->
  url_docName (String "/"%char name) = name
  /\ url_docName (String "/"%char (name +:+ String "?"%char query)) = name.
Proof.
  intros Hq. unfold url_docName. simpl.
  destruct (before_query_app name query Hq) as [H1 H2]. now split.
Qed.

Lemma url_docName_round_trip_witness :
  url_docName "/demo" = "demo"%string
  /\ url_docName "/demo?token=1" = "demo"%string.
Proof.
  apply (url_docName_round_trip "demo" "token=1").
  simpl. intros H. repeat (apply elem_of_cons in H as [H|H]; [discriminate|]).
  now apply not_elem_of_nil in H.
Defined.



End Names.

Section Fanout.

Lemma is_open_send c c' f s : is_open c (send c' f s) = is_open c s.
Proof. reflexivity. Qed.

(** The relay loop over any list of entries, started in a state with the
    sockets of [s0]. *)
Lemma relay_loop_sent conn f s0 (entries : list (nat * list N)) : forall s,
  sockets s = sockets s0 ->
  sent (fold_left (fun s (entry : nat * list N) =>
                     let c := entry.1 in
                     if bool_decide (Some c <> conn) && is_open c s then send c f s else s)
                  entries s)
  = sent s ++ ((fun c => (c, f))
               <$> filter (fun c => Some c <> conn /\ is_open c s0 = true) entries.*1).
Proof.
  induction entries as [|[c ids] entries IH]; intros s Hs; simpl.
  - now rewrite app_nil_r.
  - assert (Ho : is_open c s = is_open c s0) by (unfold is_open; now rewrite Hs).
    rewrite filter_cons. rewrite Ho.
    destruct (decide (Some c <> conn /\ is_open c s0 = true)) as [[Hne Hopen]|Hno].
    + rewrite bool_decide_eq_true_2 by exact Hne. rewrite Hopen. simpl.
      rewrite IH by exact Hs. simpl. now rewrite <- app_assoc.
    + assert (bool_decide (Some c <> conn) && is_open c s0 = false) as ->.
      { apply andb_false_iff. destruct (is_open c s0); [left|now right].
        apply bool_decide_eq_false_2. intros Hne. apply Hno. now split. }
      now apply IH.
Qed.

Lemma broadcast_sent d conn f s :
  sent (broadcast d conn f s) = sent s ++ ((fun c => (c, f)) <$> recipients d conn s).
Proof.
  unfold broadcast, recipients. destruct (heap s !! d) as [doc|].
  - now apply relay_loop_sent.
  - simpl. now rewrite app_nil_r.
Qed.

(** X3: a relay loop sends its frame exactly once to every connection of
    the document that is open and is not the one the loop compares with,
    in the order the connections were added, and changes nothing else;
    the connection it compares with, a connection that is not open and a
    connection of another document are sent nothing. *)
Theorem broadcast_recipients d conn f s :
  sent (broadcast d conn f s) = sent s ++ ((fun c => (c, f)) <$> recipients d conn s)
  /\ quiet (broadcast d conn f s) = quiet s
  /\ console (broadcast d conn f s) = console s
  /\ forall c, c ∈ recipients d conn s ->
       Some c <> conn /\ is_open c s = true
       /\ exists doc, heap s !! d = Some doc /\ c ∈ (conns doc).*1.
Proof.
  split; [apply broadcast_sent|]. split; [apply broadcast_quiet|]. split.
  - unfold broadcast. destruct (heap s !! d) as [doc|]; [|reflexivity].
    generalize (conns doc). intros l. clear doc. revert s. induction l as [|e l IH]; intros s;
      simpl; [reflexivity|].
    rewrite IH. now destruct (_ && _).
  - intros c Hc. unfold recipients in Hc. destruct (heap s !! d) as [doc|];
      [|now apply not_elem_of_nil in Hc].
    apply list_elem_of_filter in Hc as [[H1 H2] H3]. eauto.
Qed.

End Fanout.

Section UpdateFanout.

Lemma recipients_same d conn s' s : relay_same d s' s -> recipients d conn s' = recipients d conn s.
Proof.
  intros [Hk Hs]. unfold recipients.
  destruct (heap s' !! d) as [doc'|], (heap s !! d) as [doc|]; simpl in Hk; try discriminate;
    [|reflexivity].
  injection Hk as ->. apply list_filter_iff. intros c. unfold is_open. now rewrite Hs.
Qed.

Lemma relay_same_refl d s : relay_same d s s.
Proof. now split. Qed.

Lemma relay_same_trans d a b c : relay_same d a b -> relay_same d b c -> relay_same d a c.
Proof. intros [H1 H2] [H3 H4]. split; congruence. Qed.

Lemma quiet_relay_same d a b : quiet a = quiet b -> relay_same d a b.
Proof. unfold quiet. intros [=]. split; congruence. Qed.

Lemma ObsBackup_relay_same now d update s :
  relay_same d (run_update_observer now d update s ObsBackup) s
  /\ sent (run_update_observer now d update s ObsBackup) = sent s.
Proof.
  simpl. destruct (heap s !! d) as [doc|] eqn:Hdoc; [|split; [apply relay_same_refl|reflexivity]].
  unfold scheduleFirebaseBackup. simpl. rewrite Hdoc.
  destruct (backupTimer doc); simpl; (split; [|reflexivity]); split; simpl;
    rewrite ?lookup_alter_eq, ?Hdoc; reflexivity.
Qed.

Lemma run_update_observer_sent now d update s o :
  relay_same d (run_update_observer now d update s o) s
  /\ sent (run_update_observer now d update s o) = sent s ++ listener_frames d update s o.
Proof.
  destruct o as [| |conn].
  - simpl. rewrite app_nil_r. split; [apply relay_same_refl | reflexivity].
  - destruct (ObsBackup_relay_same now d update s) as [H1 H2].
    split; [exact H1|]. rewrite H2. simpl. now rewrite app_nil_r.
  - simpl. split; [apply quiet_relay_same, broadcast_quiet | apply broadcast_sent].
Qed.

Lemma update_observers_sent now d update s0 l : forall s,
  relay_same d s s0 ->
  relay_same d (fold_left (run_update_observer now d update) l s) s0
  /\ sent (fold_left (run_update_observer now d update) l s)
     = sent s ++ flat_map (listener_frames d update s0) l.
Proof.
  induction l as [|o l IH]; intros s Hs; simpl.
  - rewrite app_nil_r. now split.
  - destruct (run_update_observer_sent now d update s o) as [H1 H2].
    destruct (IH _ (relay_same_trans _ _ _ _ H1 Hs)) as [H3 H4].
    split; [exact H3|]. rewrite H4, H2, <- app_assoc. f_equal. f_equal.
    destruct o; simpl; try reflexivity. now rewrite (recipients_same d _ s s0 Hs).
Qed.

(** X4: when a document emits an update, every [messageListener]
    registered on it, in the order of registration, sends the update once
    to each open connection of the document other than the connection
    that registered the listener; nothing else is sent.  So a frame only
    goes to an open connection of the document, and a connection gets one
    copy for every listener that is not its own. *)
Theorem emit_update_fanout now d update s doc :
  heap s !! d = Some doc ->
  sent (emit_update now d update s)
    = sent s ++ flat_map (listener_frames d update s) (update_observers doc)
  /\ forall c f, (c, f) ∈ flat_map (listener_frames d update s) (update_observers doc) ->
       f = FSyncUpdate update /\ is_open c s = true /\ c ∈ (conns doc).*1
       /\ exists owner, ObsMessageListener owner ∈ update_observers doc /\ owner <> c.
Proof.
  intros Hdoc. split.
  - unfold emit_update. rewrite Hdoc.
    now destruct (update_observers_sent now d update s (update_observers doc) s
                    (relay_same_refl d s)) as [_ ->].
  - intros c f Hin. apply list_elem_of_In, in_flat_map in Hin as (o & Ho & Hin).
    apply list_elem_of_In in Ho, Hin.
    destruct o as [| |owner]; simpl in Hin; try (now apply not_elem_of_nil in Hin).
    apply list_elem_of_fmap in Hin as (c' & [= -> ->] & Hc).
    unfold recipients in Hc. rewrite Hdoc in Hc.
    apply list_elem_of_filter in Hc as [[Hne Hopen] Hmem].
    repeat split; try assumption. exists owner. split; [exact Ho | congruence].
Qed.

Lemma emit_update_fanout_witness :
  sent (emit_update 7 0 [Byte.x01] demo_three)
  = sent demo_three
    ++ [(2%nat, FSyncUpdate [Byte.x01]); (3%nat, FSyncUpdate [Byte.x01]);
        (1%nat, FSyncUpdate [Byte.x01]); (3%nat, FSyncUpdate [Byte.x01]);
        (1%nat, FSyncUpdate [Byte.x01]); (2%nat, FSyncUpdate [Byte.x01])].
Proof.
  edestruct (emit_update_fanout 7 0 [Byte.x01] demo_three) as [H _];
    [vm_compute; reflexivity|].
  rewrite H. vm_compute. reflexivity.
Defined.

End UpdateFanout.

Section AwarenessRelay.
Context {lib : Library}.

Lemma map_get_set_eq {V} k (v : V) m : map_get k (map_set k v m) = Some v.
Proof.
  induction m as [|[k' v'] m IH]; simpl.
  - now rewrite decide_True.
  - destruct (decide (k' = k)) as [->|Hne]; simpl.
    + now rewrite decide_True.
    + now rewrite decide_False.
Qed.

Lemma map_get_set_ne {V} k k' (v : V) m :
  k' <> k -> map_get k' (map_set k v m) = map_get k' m.
Proof.
  intros Hne. induction m as [|[k0 v0] m IH]; simpl.
  - now rewrite decide_False by congruence.
  - destruct (decide (k0 = k)) as [->|Hk]; simpl.
    + now rewrite !decide_False by congruence.
    + destruct (decide (k0 = k')); [reflexivity | exact IH].
Qed.

Lemma map_set_keys {V} k (v v0 : V) m :
  map_get k m = Some v0 -> (map_set k v m).*1 = m.*1.
Proof.
  induction m as [|[k' v'] m IH]; [discriminate|].
  cbn [map_get map_set]. destruct (decide (k' = k)) as [->|Hne]; [reflexivity|].
  intros H. rewrite !fmap_cons. f_equal. now apply IH.
Qed.

Lemma set_add_elem (x y : N) l : x ∈ set_add y l <-> x ∈ l \/ x = y.
Proof.
  unfold set_add. destruct (decide (y ∈ l)) as [Hin|Hnot].
  - split; [now left | intros [H| ->]; assumption].
  - rewrite elem_of_app, list_elem_of_singleton. tauto.
Qed.

Lemma set_add_NoDup (y : N) l : NoDup l -> NoDup (set_add y l).
Proof.
  intros Hl. unfold set_add. destruct (decide (y ∈ l)) as [Hin|Hnot]; [exact Hl|].
  apply NoDup_app. split; [exact Hl|]. split; [|apply NoDup_singleton].
  intros x Hx Hy. apply list_elem_of_singleton in Hy. now subst.
Qed.

Lemma set_delete_elem (x y : N) l : x ∈ set_delete y l <-> x ∈ l /\ x <> y.
Proof. unfold set_delete. rewrite list_elem_of_filter. tauto. Qed.

Lemma controlled_after_elem ch ids x :
  x ∈ controlled_after ch ids <-> (x ∈ ids \/ x ∈ added ch) /\ x ∉ removed ch.
Proof.
  unfold controlled_after.
  assert (Hadd : forall l ids, x ∈ fold_left (fun ids x => set_add x ids) l ids
                               <-> x ∈ ids \/ x ∈ l).
  { induction l as [|y l IH]; intros ids0; simpl.
    - rewrite elem_of_nil. tauto.
    - rewrite IH, set_add_elem, elem_of_cons. tauto. }
  assert (Hdel : forall l ids, x ∈ fold_left (fun ids x => set_delete x ids) l ids
                               <-> x ∈ ids /\ x ∉ l).
  { induction l as [|y l IH]; intros ids0; simpl.
    - rewrite elem_of_nil. tauto.
    - rewrite IH, set_delete_elem, not_elem_of_cons. tauto. }
  now rewrite Hdel, Hadd.
Qed.

Lemma controlled_after_NoDup ch ids : NoDup ids -> NoDup (controlled_after ch ids).
Proof.
  unfold controlled_after. intros Hids.
  assert (Hadd : forall l (ids : list N), NoDup ids ->
                   NoDup (fold_left (fun ids x => set_add x ids) l ids)).
  { induction l as [|y l IH]; intros ids0 H0; simpl; [exact H0|].
    now apply IH, set_add_NoDup. }
  assert (Hdel : forall l (ids : list N), NoDup ids ->
                   NoDup (fold_left (fun ids x => set_delete x ids) l ids)).
  { induction l as [|y l IH]; intros ids0 H0; simpl; [exact H0|].
    apply IH. unfold set_delete. now apply NoDup_filter. }
  now apply Hdel, Hadd.
Qed.

(** The first half of the handler: the controlled ids of the origin. *)
Lemma attribute_ids_effect d ch c s doc :
  heap s !! d = Some doc ->
  let f := with_conns (fun m =>
             match map_get c m with
             | None => m
             | Some connControlledIDs => map_set c (controlled_after ch connControlledIDs) m
             end) in
  heap (update_doc d f s) !! d = Some (f doc)
  /\ (conns (f doc)).*1 = (conns doc).*1
  /\ awareness (f doc) = awareness doc.
Proof.
  intros Hdoc f. split; [simpl; now rewrite lookup_alter_eq, Hdoc|]. split; [|reflexivity].
  subst f. simpl. destruct (map_get c (conns doc)) as [ids|] eqn:Hget; [|reflexivity].
  now apply (map_set_keys c _ ids).
Qed.

Lemma awarenessChangeHandler_sent d ch conn s :
  awareness_same d (awarenessChangeHandler d ch conn s) s
  /\ sent (awarenessChangeHandler d ch conn s)
     = sent s ++ match heap s !! d ≫= awareness with
                 | Some aw => (fun c => (c, awareness_frame aw ch)) <$> recipients d conn s
                 | None => []
                 end.
Proof.
  unfold awarenessChangeHandler.
  match goal with |- context [heap ?s1 !! d ≫= awareness] =>
    assert (H1 : awareness_same d s1 s /\ sent s1 = sent s); [|set (s' := s1) in *] end.
  { destruct conn as [c|]; [|split; [split; [apply relay_same_refl|]|]; reflexivity].
    destruct (heap s !! d) as [doc|] eqn:Hdoc.
    - destruct (attribute_ids_effect d ch c s doc Hdoc) as (Hh & Hk & Ha).
      unfold controlled_after in Hh, Hk, Ha. split; [|reflexivity].
      split; [split; [|reflexivity]|].
      + rewrite Hh, Hdoc. exact (f_equal Some Hk).
      + rewrite Hh, Hdoc. exact Ha.
    - split; [|reflexivity]. split; [split; [|reflexivity]|]; simpl;
        now rewrite lookup_alter_eq, Hdoc. }
  destruct H1 as [[Hr Ha] Hs]. rewrite <- Ha.
  destruct (heap s' !! d ≫= awareness) as [aw|] eqn:Haw.
  - assert (Hq := broadcast_quiet d conn (awareness_frame aw ch) s').
    unfold awareness_frame in *. split; [split|].
    + eapply relay_same_trans; [apply quiet_relay_same, Hq | exact Hr].
    + destruct (quiet_fields _ _ Hq) as (-> & _). now rewrite Haw.
    + rewrite broadcast_sent, Hs. now rewrite (recipients_same d conn s' s Hr).
  - rewrite app_nil_r. split; [split; [exact Hr | now rewrite Haw] | exact Hs].
Qed.

(** X5: an awareness change that comes from a connection of the document
    updates the set of client ids that connection controls: the added
    clients join it and the removed ones leave it, the set staying free of
    duplicates; the sets of the other connections, and the order of the
    connections, are as before. *)
Theorem awarenessChangeHandler_attributes d ch c s doc ids :
  heap s !! d = Some doc ->
  map_get c (conns doc) = Some ids ->
  exists doc',
    heap (awarenessChangeHandler d ch (Some c) s) !! d = Some doc'
    /\ map_get c (conns doc') = Some (controlled_after ch ids)
    /\ (forall x, x ∈ controlled_after ch ids
                  <-> (x ∈ ids \/ x ∈ added ch) /\ x ∉ removed ch)
    /\ (NoDup ids -> NoDup (controlled_after ch ids))
    /\ (forall c', c' <> c -> map_get c' (conns doc') = map_get c' (conns doc))
    /\ (conns doc').*1 = (conns doc).*1.
Proof.
  intros Hdoc Hget.
  destruct (attribute_ids_effect d ch c s doc Hdoc) as (Hh & Hk & _).
  eexists. split; [|split; [|split; [|split; [|split]]]].
  - unfold awarenessChangeHandler.
    match goal with |- context [heap ?s1 !! d ≫= awareness] => set (s' := s1) end.
    assert (Hs' : heap s' !! d = Some _) by exact Hh.
    destruct (heap s' !! d ≫= awareness) as [aw|]; [|exact Hs'].
    destruct (quiet_fields _ _ (broadcast_quiet d (Some c)
      (FAwareness (encodeAwarenessUpdate (states aw) (added ch ++ updated ch ++ removed ch)))
      s')) as (-> & _).
    exact Hs'.
  - simpl. rewrite Hget. apply map_get_set_eq.
  - apply controlled_after_elem.
  - apply controlled_after_NoDup.
  - intros c' Hne. simpl. rewrite Hget. now apply map_get_set_ne.
  - exact Hk.
Qed.

Lemma awareness_handlers_sent d ch origin s0 aw (handlers : list nat) : forall s,
  awareness_same d s s0 ->
  heap s0 !! d ≫= awareness = Some aw ->
  sent (fold_left (fun s (_ : nat) => awarenessChangeHandler d ch origin s) handlers s)
  = sent s ++ mjoin (replicate (length handlers)
                       ((fun c => (c, awareness_frame aw ch)) <$> recipients d origin s0)).
Proof.
  induction handlers as [|h handlers IH]; intros s Hs Haw; simpl.
  - now rewrite app_nil_r.
  - destruct (awarenessChangeHandler_sent d ch origin s) as [[H1 H2] H3].
    destruct Hs as [Hr Ha].
    rewrite IH; [|split; [eapply relay_same_trans; eassumption | congruence] | exact Haw].
    rewrite H3, Ha, Haw, (recipients_same d origin s s0 Hr). now rewrite <- app_assoc.
Qed.

(** X6: an awareness change is announced by every
    [awarenessChangeHandler] registered on the awareness object, one per
    connection set up: each open connection of the document other than the
    origin is sent the encoded change once per handler, and the origin is
    sent nothing. *)
Theorem emit_awareness_fanout d ch origin s doc aw :
  heap s !! d = Some doc -> awareness doc = Some aw ->
  sent (emit_awareness d ch origin s)
    = sent s ++ mjoin (replicate (length (aw_observers aw))
                         ((fun c => (c, awareness_frame aw ch)) <$> recipients d origin s))
  /\ forall c, origin = Some c -> c ∉ recipients d origin s.
Proof.
  intros Hdoc Haw.
  assert (Ha : heap s !! d ≫= awareness = Some aw) by (rewrite Hdoc; exact Haw).
  split.
  - unfold emit_awareness. rewrite Ha.
    apply awareness_handlers_sent; [|exact Ha]. split; [apply relay_same_refl | reflexivity].
  - intros c -> Hin. unfold recipients in Hin. rewrite Hdoc in Hin.
    apply list_elem_of_filter in Hin as [[Hne _] _]. now apply Hne.
Qed.

End AwarenessRelay.

Lemma awarenessChangeHandler_attributes_witness :
  exists doc',
    heap (awarenessChangeHandler (lib := Wire.library) 0
            (mkAwarenessChange [42%N; 7%N] [] [7%N]) (Some 2%nat) demo_two) !! 0%nat
      = Some doc'
    /\ map_get 2 (conns doc') = Some [42%N].
Proof.
  edestruct (awarenessChangeHandler_attributes (lib := Wire.library) 0
               (mkAwarenessChange [42%N; 7%N] [] [7%N]) 2 demo_two)
    as (doc' & H1 & H2 & _); [vm_compute; reflexivity | vm_compute; reflexivity |].
  exists doc'. split; [exact H1 | exact H2].
Defined.

Lemma emit_awareness_fanout_witness :
  (fst <$> drop (length (sent demo_three))
     (sent (emit_awareness (lib := Wire.library) 0 (mkAwarenessChange [42%N] [] [])
              (Some 2%nat) demo_three)))
  = [1%nat; 3%nat; 1%nat; 3%nat; 1%nat; 3%nat].
Proof.
  edestruct (emit_awareness_fanout (lib := Wire.library) 0
               (mkAwarenessChange [42%N] [] []) (Some 2%nat) demo_three)
    as [H _]; [vm_compute; reflexivity | reflexivity |].
  rewrite H. vm_compute. reflexivity.
Defined.

Section RoundTrip.
Context {lib : Library}.

Lemma backupDocument_frame now ok docName doc s :
  docs (backupDocument now ok docName doc s) = docs s
  /\ heap (backupDocument now ok docName doc s) = heap s
  /\ persistence (backupDocument now ok docName doc s) = persistence s
  /\ next_doc (backupDocument now ok docName doc s) = next_doc s.
Proof.
  unfold backupDocument, backupDocument_begin, backupDocument_end.
  destruct (database (firebaseBackup s)); [|now simpl]. now destruct ok.
Qed.

(** X7: what a completed backup stores is what a restore gives back: the
    restore returns the replica the document had when it was backed up
    and puts back the very metadata the backup left, the incremented
    version included; a server without LevelDB that no longer has the
    document in memory rebuilds it from that record.  After a failed
    backup a restore yields what it yielded before. *)
Theorem backup_restore_round_trip now now' docName doc ioA s :
  is_Some (database (firebaseBackup s)) ->
  let s1 := backupDocument now true docName doc s in
  (restoreDocument true docName s1).1 = Some (replica doc)
  /\ docMetadata (restoreDocument true docName s1).2 = docMetadata s1
  /\ counter docName (restoreDocument true docName s1).2 = counter docName s + 1
  /\ (restoreDocument true docName (backupDocument now false docName doc s)).1
     = content <$> stored docName s
  /\ (forall c,
        persistence s = false -> docs s !! docName = None ->
        Y_applyUpdate Y_empty (replica doc) = Applied c ->
        replica <$> heap (getOrCreateDocument now' docName ioA true s1).2 !! next_doc s
          = Some c).
Proof.
  intros [db Hdb] s1.
  destruct (backupDocument_counter now true docName doc s db Hdb) as [Hc Hd].
  destruct (backupDocument_counter now false docName doc s db Hdb) as [_ Hf].
  fold s1 in Hc, Hd.
  assert (Hm : exists m, docMetadata s1 !! docName = Some m
                         /\ s1.(firebaseBackup).(database)
                            = Some (<[docName := mkFbRecord (replica doc) (Some m) now]> db)).
  { subst s1. unfold backupDocument, backupDocument_begin, backupDocument_end in *.
    rewrite Hdb in *. simpl in *. rewrite lookup_insert_eq. eexists. split; [reflexivity|].
    rewrite Hdb. reflexivity. }
  destruct Hm as (m & Hm & Hdb1).
  assert (Hres : restoreDocument true docName s1
                 = (Some (replica doc),
                    log (LogInfo "restored from Firebase")
                      (with_docMetadata (insert docName m) s1))).
  { unfold restoreDocument. rewrite Hdb1, lookup_insert_eq. reflexivity. }
  split; [now rewrite Hres|]. split; [rewrite Hres; simpl; now apply insert_id|].
  split.
  { rewrite Hres. unfold counter in *. simpl. rewrite lookup_insert_eq.
    now rewrite Hm in Hc. }
  split.
  { rewrite restoreDocument_result. unfold tierB_read, stored. now rewrite Hf, Hdb. }
  intros c Hp Hnone Happ.
  destruct (backupDocument_frame now true docName doc s) as (Hdocs & Hheap & Hpers & Hnext).
  fold s1 in Hdocs, Hheap, Hpers, Hnext.
  unfold getOrCreateDocument. rewrite Hdocs, Hnone. unfold create_document. simpl.
  rewrite Hnext. unfold restore_document. simpl. rewrite Hpers, Hp.
  eapply restore_from_firebase_some.
  - simpl. apply lookup_insert_eq.
  - unfold tierB_read, stored. simpl. rewrite Hdb1. simpl. apply lookup_insert_eq.
  - exact Happ.
Qed.

(** X8: attaching twice is attaching once: the second call of
    [getOrCreateDocument] for a name returns the document the first call
    registered and leaves the server as the first call left it, whatever
    the persistence tiers would answer. *)
Theorem getOrCreateDocument_twice now now' docName ioA okB ioA' okB' s :
  getOrCreateDocument now' docName ioA' okB' (getOrCreateDocument now docName ioA okB s).2
  = getOrCreateDocument now docName ioA okB s.
Proof.
  destruct (getOrCreateDocument_registers now docName ioA okB s) as [Hreg _].
  destruct (getOrCreateDocument now docName ioA okB s) as [d s1]. simpl in *.
  unfold getOrCreateDocument. now rewrite Hreg.
Qed.

End RoundTrip.

Lemma backup_restore_round_trip_witness :
  (restoreDocument true "demo"
     (backupDocument 10 true "demo" (demo_doc [Byte.x01; Byte.x02]) backup_s0)).1
  = Some [Byte.x01; Byte.x02].
Proof.
  destruct (backup_restore_round_trip (lib := Wire.library) 10 20 "demo"
              (demo_doc [Byte.x01; Byte.x02]) (TierADoc None) backup_s0
              (mk_is_Some _ _ eq_refl)) as (H & _).
  exact H.
Defined.

Section QueueState.
Context {lib : Library}.

Lemma queue_wf_part s s' : queue_part s' = queue_part s -> queue_wf s -> queue_wf s'.
Proof. unfold queue_part, queue_wf. intros [= -> -> ->]. tauto. Qed.

Lemma backup_view_queue_part s s' : backup_view s' = backup_view s -> queue_part s' = queue_part s.
Proof. unfold backup_view, queue_part. now intros [= -> -> _]. Qed.

Lemma backupDocument_end_part w ok s :
  queue_part (backupDocument_end w ok s) = queue_part s.
Proof. unfold backupDocument_end. now destruct ok. Qed.

Lemma queue_loop_wf now : forall rest i s,
  rest = drop i (backupQueue (firebaseBackup s)) ->
  isBackupRunning (firebaseBackup s) = true -> queue_tasks s = [] ->
  queue_wf (queue_loop now rest i s).
Proof.
  induction rest as [|docName rest IH]; intros i s Hrest Hrun Hq; simpl.
  - split; [intros _; split; [reflexivity | exact Hq]|].
    intros t Ht. simpl in Ht. rewrite Hq in Ht. now apply not_elem_of_nil in Ht.
  - assert (Hi : backupQueue (firebaseBackup s) !! i = Some docName).
    { assert (H0 : drop i (backupQueue (firebaseBackup s)) !! 0%nat
                   = backupQueue (firebaseBackup s) !! i)
        by (rewrite lookup_drop; f_equal; lia).
      rewrite <- H0, <- Hrest. reflexivity. }
    assert (Hrest' : rest = drop (S i) (backupQueue (firebaseBackup s))).
    { assert (H1 : drop 1 (drop i (backupQueue (firebaseBackup s)))
                   = drop (S i) (backupQueue (firebaseBackup s)))
        by (rewrite drop_drop; f_equal; lia).
      rewrite <- H1, <- Hrest. reflexivity. }
    destruct (docs s !! docName ≫= _) as [doc|]; [|now apply IH].
    pose proof (backupDocument_begin_view now docName doc s) as Hv.
    destruct (backupDocument_begin now docName doc s) as [[w|] s'] eqn:Hbegin; simpl in Hv.
    + injection Hv as Hm Ht Hs.
      assert (Hw : pw_name w = docName).
      { unfold backupDocument_begin in Hbegin.
        destruct (database (firebaseBackup s)); [|discriminate].
        injection Hbegin as <- _. reflexivity. }
      split; simpl; rewrite Hm; [congruence|].
      intros t Hin. rewrite Ht, Hq in Hin. apply list_elem_of_singleton in Hin as ->.
      simpl. now rewrite Hw.
    + injection Hv as Hm Ht Hs. apply IH; congruence.
Qed.

Lemma processBackupQueue_wf now s :
  queue_inv s ->
  (forall t, t ∈ queue_tasks s ->
     backupQueue (firebaseBackup s) !! qt_cursor t = Some (pw_name (qt_write t))) ->
  queue_wf (processBackupQueue now s).
Proof.
  intros Hinv Htasks. unfold processBackupQueue.
  destruct (isBackupRunning (firebaseBackup s)) eqn:Hrun; simpl.
  { split; [congruence|]. intros t Hin. split; [exact Hrun | now apply Htasks]. }
  destruct Hinv as [[_ Hq]|[Hr _]]; [|congruence].
  case_bool_decide as Hempty.
  { split; [now split|]. intros t Hin. rewrite Hq in Hin. now apply not_elem_of_nil in Hin. }
  apply queue_loop_wf; [reflexivity | reflexivity | exact Hq].
Qed.

Lemma scheduleBackup_wf now docName s :
  queue_inv s -> queue_wf s -> queue_wf (scheduleBackup now docName s).
Proof.
  intros Hinv [_ Htasks]. unfold scheduleBackup. apply processBackupQueue_wf; [exact Hinv|].
  simpl. intros t Hin. destruct (Htasks t Hin) as [_ Hl].
  unfold set_add. destruct (decide (docName ∈ _)); [exact Hl|].
  now apply lookup_app_l_Some.
Qed.

Lemma fire_timer_wf now h s : queue_inv s -> queue_wf s -> queue_wf (fire_timer now h s).
Proof.
  intros Hinv Hwf. unfold fire_timer.
  destruct (list_find _ (timers s)) as [[? t]|]; [|exact Hwf].
  case_bool_decide; [|exact Hwf].
  assert (Hc : queue_inv (clearTimeout h s)) by exact Hinv.
  assert (Hw : queue_wf (clearTimeout h s)) by exact Hwf.
  generalize dependent (clearTimeout h s). intros s1 Hc Hw.
  destruct (t_callback t) as [docName|docName d|docName d]; simpl.
  - now apply scheduleBackup_wf.
  - destruct (conns_empty d s1); [|exact Hw].
    exact (scheduleBackup_wf now docName (log (LogInfo "Cleaning up document") s1) Hc Hw).
  - destruct (conns_empty d s1); exact Hw.
Qed.

Lemma queue_resume_wf now k ok s : queue_inv s -> queue_wf s -> queue_wf (queue_resume now k ok s).
Proof.
  intros Hinv Hwf. unfold queue_resume.
  destruct (queue_tasks s !! k) as [t|] eqn:Hk; [|exact Hwf].
  destruct Hinv as [[_ Hq]|[Hrun [t' Hq]]]; [now rewrite Hq in Hk|].
  rewrite Hq in Hk. destruct k as [|k]; [|discriminate].
  set (s1 := with_queue_tasks (delete 0%nat) s).
  pose proof (backupDocument_end_part (qt_write t) ok s1) as Hp.
  injection Hp as Hb Hr Ht.
  apply queue_loop_wf.
  - reflexivity.
  - now rewrite Hr.
  - rewrite Ht. subst s1. simpl. now rewrite Hq.
Qed.

Lemma shutdown_loop_part now rest : forall i s,
  queue_part (shutdown_loop now rest i s) = queue_part s.
Proof.
  induction rest as [|[docName|] rest IH]; intros i s; simpl;
    [now destruct (persistence s) | | apply IH].
  destruct (docs s !! docName ≫= _) as [doc|]; [|apply IH].
  pose proof (backupDocument_begin_view now docName doc s) as Hv.
  apply backup_view_queue_part in Hv.
  destruct (backupDocument_begin now docName doc s) as [[w|] s']; simpl in Hv.
  - exact Hv.
  - now rewrite IH.
Qed.

Lemma step_queue_wf s e : queue_inv s -> queue_wf s -> queue_wf (step s e).
Proof.
  intros Hinv Hwf.
  destruct e as [now [conn docName|k ioA okB|conn message|conn|h|k ok| |k ok]];
    unfold step; simpl.
  - eapply queue_wf_part; [|exact Hwf].
    apply backup_view_queue_part. now rewrite setupWSConnection_view.
  - eapply queue_wf_part; [|exact Hwf]. apply backup_view_queue_part, attach_resume_view.
  - eapply queue_wf_part; [|exact Hwf]. apply backup_view_queue_part, on_message_view.
  - eapply queue_wf_part; [|exact Hwf]. apply backup_view_queue_part, on_close_view.
  - now apply fire_timer_wf.
  - now apply queue_resume_wf.
  - eapply queue_wf_part; [|exact Hwf]. unfold gracefulShutdown.
    destruct (_ && _); now rewrite shutdown_loop_part.
  - eapply queue_wf_part; [|exact Hwf]. unfold shutdown_resume.
    destruct (shutdown_tasks s !! k) as [t|]; [|reflexivity].
    now rewrite shutdown_loop_part, backupDocument_end_part.
Qed.

(** X9: in every state the server can reach, an idle backup manager has
    an empty queue and no suspended queue loop, so no requested backup is
    ever left waiting without a loop that will reach it; and a suspended
    queue loop waits for the write of exactly the queue entry at its
    cursor. *)
Theorem backup_queue_consistent db leveldb es :
  queue_wf (run (boot db leveldb) es).
Proof.
  assert (H : forall s, queue_inv s -> queue_wf s -> queue_wf (run s es)).
  { induction es as [|e es IH]; intros s Hinv Hwf; [exact Hwf|].
    unfold run in *. simpl. apply IH; [now apply step_queue_inv | now apply step_queue_wf]. }
  apply H.
  - left. now split.
  - split; [now split|]. intros t Ht. now apply not_elem_of_nil in Ht.
Qed.

(** A backup requested for a name that is already queued while the queue
    loop runs changes nothing. *)
Lemma scheduleBackup_queued now docName s :
  isBackupRunning (firebaseBackup s) = true ->
  docName ∈ backupQueue (firebaseBackup s) ->
  scheduleBackup now docName s = s.
Proof.
  intros Hrun Hin. unfold scheduleBackup.
  assert (E : with_manager
                (fun m => with_backupQueue (set_add docName (backupQueue m)) m) s = s).
  { unfold with_manager, with_backupQueue. cbv beta.
    unfold set_add. rewrite decide_True by exact Hin.
    destruct s as [? ? ? ? [db q running] ? ? ? ? ? ? ? ? ?]. reflexivity. }
  rewrite E. unfold processBackupQueue. now rewrite Hrun.
Qed.

(** On an idle manager with Firebase configured, a backup request for a
    document in memory starts its write at once. *)
Lemma scheduleBackup_idle now docName d doc db s :
  database (firebaseBackup s) = Some db ->
  isBackupRunning (firebaseBackup s) = false ->
  backupQueue (firebaseBackup s) = [] ->
  queue_tasks s = [] ->
  docs s !! docName = Some d -> heap s !! d = Some doc ->
  exists m,
    scheduleBackup now docName s
    = with_queue_tasks (fun _ => [mkQueueTask 0 (mkPendingWrite docName
                                    (mkFbRecord (replica doc) (Some m) now))])
        (with_docMetadata (insert docName m)
           (with_manager (fun _ => mkManager (Some db) [docName] true) s)).
Proof.
  intros Hdb Hrun Hq Hqt Hdocs Hdoc.
  unfold scheduleBackup, processBackupQueue. simpl. rewrite Hrun, Hq. simpl.
  rewrite Hdocs. simpl. rewrite Hdoc. unfold backupDocument_begin. simpl. rewrite Hdb.
  eexists. unfold with_queue_tasks, with_docMetadata, with_manager,
    with_isBackupRunning, with_backupQueue. simpl.
  rewrite Hqt, Hdb, Hq. reflexivity.
Qed.

(** X10: the content of a backup is the replica at the moment the backup
    starts, and a second request for the same document made while that
    write is in flight is dropped: the request finds the name in the
    queue and the loop running and changes nothing, and when the write
    settles the loop ends, so Firebase holds the older replica, nothing is
    in flight and the queue is empty although the document has changed in
    between. *)
Theorem scheduleBackup_during_write_dropped t1 t2 t3 docName d doc db c2 s :
  database (firebaseBackup s) = Some db ->
  isBackupRunning (firebaseBackup s) = false ->
  backupQueue (firebaseBackup s) = [] ->
  queue_tasks s = [] ->
  docs s !! docName = Some d -> heap s !! d = Some doc ->
  let s1 := scheduleBackup t1 docName s in
  let s2 := scheduleBackup t2 docName (update_doc d (with_replica c2) s1) in
  let s3 := queue_resume t3 0 true s2 in
  s2 = update_doc d (with_replica c2) s1
  /\ (replica <$> heap s3 !! d) = Some c2
  /\ (content <$> stored docName s3) = Some (replica doc)
  /\ queue_tasks s3 = []
  /\ backupQueue (firebaseBackup s3) = []
  /\ isBackupRunning (firebaseBackup s3) = false.
Proof.
  intros Hdb Hrun Hq Hqt Hdocs Hdoc. cbv zeta.
  destruct (scheduleBackup_idle t1 docName d doc db s Hdb Hrun Hq Hqt Hdocs Hdoc)
    as [m ->].
  rewrite scheduleBackup_queued; [|reflexivity | simpl; now left].
  split; [reflexivity|]. unfold queue_resume, stored. simpl.
  rewrite !lookup_alter_eq, Hdoc, lookup_insert_eq. repeat split.
Qed.

End QueueState.

Lemma scheduleBackup_during_write_dropped_witness :
  let s1 := scheduleBackup 100 "demo" demo_backed in
  let s2 := scheduleBackup 200 "demo" (update_doc 0 (with_replica [Byte.x09]) s1) in
  (content <$> stored "demo" (queue_resume 300 0 true s2)) = Some [].
Proof.
  edestruct (scheduleBackup_during_write_dropped 100 200 300 "demo" 0
               (mkYDoc "demo" [] [(1%nat, [])] [ObsBackup; ObsMessageListener 1]
                  (Some (mkAwareness ∅ [1%nat])) None)
               ∅ [Byte.x09] demo_backed) as (_ & _ & H & _);
    [vm_compute; reflexivity .. | exact H].
Defined.

Section Eviction.
Context {lib : Library}.

Lemma fire_timer_last now h deadline cb pending s :
  timers s = pending ++ [mkTimer h deadline cb] ->
  Forall (fun t => t_handle t <> h) pending ->
  deadline <= now ->
  fire_timer now h s = run_callback now cb (with_timers (fun _ => pending) s).
Proof.
  intros Ht Hpending Hdue. unfold fire_timer.
  rewrite Ht, list_find_app_r
    by (apply list_find_None; eapply Forall_impl; [exact Hpending|]; simpl; auto).
  simpl. rewrite decide_True by reflexivity. simpl.
  rewrite bool_decide_eq_true_2 by exact Hdue.
  f_equal. unfold clearTimeout, with_timers. rewrite Ht, filter_app.
  rewrite filter_cons_False by (simpl; intros H; now apply H).
  rewrite filter_nil, app_nil_r. now rewrite filter_all.
Qed.

Lemma fresh_handles_pending s :
  fresh_handles s -> Forall (fun t => t_handle t <> next_timer s) (timers s).
Proof.
  unfold fresh_handles. intros H. eapply Forall_impl; [exact H|].
  simpl. intros t Ht. lia.
Qed.

Lemma queue_loop_registry now rest : forall i s,
  registry_view (queue_loop now rest i s) = registry_view s.
Proof.
  induction rest as [|docName rest IH]; intros i s; simpl; [reflexivity|].
  destruct (docs s !! docName ≫= _) as [doc|]; [|apply IH].
  unfold backupDocument_begin. destruct (database (firebaseBackup s)); [reflexivity|].
  apply IH.
Qed.

Lemma scheduleBackup_registry now docName s :
  registry_view (scheduleBackup now docName s) = registry_view s.
Proof.
  unfold scheduleBackup, processBackupQueue. destruct (_ || _); [reflexivity|].
  now rewrite queue_loop_registry.
Qed.

Lemma map_delete_single {V} k (v : V) : map_delete k [(k, v)] = [].
Proof.
  unfold map_delete. rewrite filter_cons_False by (simpl; intros H; now apply H).
  apply filter_nil.
Qed.

(** The close handler on the only connection of a document. *)
Lemma on_close_last t0 conn d doc ids s :
  sockets s !! conn ≫= handlers = Some d ->
  heap s !! d = Some doc -> conns doc = [(conn, ids)] ->
  exists doc1,
    heap (on_close t0 conn s) !! d = Some doc1
    /\ conns doc1 = [] /\ dname doc1 = dname doc /\ replica doc1 = replica doc
    /\ docs (on_close t0 conn s) = docs s
    /\ timers (on_close t0 conn s)
       = timers s ++ [mkTimer (next_timer s) (t0 + 30000) (CbCleanup (dname doc) d)]
    /\ next_timer (on_close t0 conn s) = S (next_timer s).
Proof.
  intros Hh Hdoc Hconns. unfold on_close. rewrite Hh.
  set (s1 := update_doc d (with_aw_observers (set_delete conn)) _).
  pose (doc1 := with_aw_observers (set_delete conn)
                  (with_update_observers (filter (fun o => o <> ObsMessageListener conn))
                     (with_conns (map_delete conn) doc))).
  assert (Hdoc1 : heap s1 !! d = Some doc1)
    by (subst s1 doc1; simpl; now rewrite !lookup_alter_eq, Hdoc).
  assert (Hc1 : conns doc1 = []).
  { subst doc1. unfold with_aw_observers, with_awareness. simpl. rewrite Hconns.
    apply map_delete_single. }
  assert (Hn1 : dname doc1 = dname doc) by reflexivity.
  assert (Hr1 : replica doc1 = replica doc) by reflexivity.
  assert (Hdocs : docs s1 = docs s) by reflexivity.
  assert (Ht : timers s1 = timers s) by reflexivity.
  assert (Hnt : next_timer s1 = next_timer s) by reflexivity.
  clearbody doc1 s1.
  assert (Hget : heap s1 !! d ≫= (fun doc => map_get conn (conns doc)) = None)
    by (rewrite Hdoc1; simpl; now rewrite Hc1).
  rewrite Hget, Hdoc1, Hc1. exists doc1. simpl.
  rewrite Hdoc1, Hdocs, Ht, Hnt, Hn1. repeat split; assumption.
Qed.

Lemma conn_send_quiet c f s : quiet (conn_send c f s) = quiet s.
Proof. unfold conn_send. now destruct (is_open c s). Qed.

(** What [connection_setup] does to a document on the heap, the frames
    it sends apart. *)
Lemma connection_setup_effect conn d doc s :
  heap s !! d = Some doc ->
  exists doc',
    heap (connection_setup conn d s) !! d = Some doc'
    /\ conns doc' = map_set conn [] (conns doc)
    /\ dname doc' = dname doc /\ replica doc' = replica doc
    /\ update_observers doc' = update_observers doc ++ [ObsMessageListener conn]
    /\ docs (connection_setup conn d s) = docs s
    /\ timers (connection_setup conn d s) = timers s
    /\ next_timer (connection_setup conn d s) = next_timer s
    /\ forall d', d' <> d -> heap (connection_setup conn d s) !! d' = heap s !! d'.
Proof.
  intros Hdoc. unfold connection_setup.
  set (s1 := update_doc d (with_aw_observers (fun o => o ++ [conn])) _).
  pose (doc' := with_aw_observers (fun o => o ++ [conn])
                  ((fun doc0 => match awareness doc0 with
                                | Some _ => doc0
                                | None => with_awareness
                                            (Some (mkAwareness Awareness_initial [])) doc0
                                end)
                     (with_update_observers (fun o => o ++ [ObsMessageListener conn])
                        (with_conns (map_set conn []) doc)))).
  assert (Hd' : heap s1 !! d = Some doc')
    by (subst s1 doc'; simpl; now rewrite !lookup_alter_eq, Hdoc).
  assert (Hc : conns doc' = map_set conn [] (conns doc))
    by (subst doc'; simpl; now destruct (awareness doc)).
  assert (Hn : dname doc' = dname doc)
    by (subst doc'; simpl; now destruct (awareness doc)).
  assert (Hr : replica doc' = replica doc)
    by (subst doc'; simpl; now destruct (awareness doc)).
  assert (Ho : update_observers doc' = update_observers doc ++ [ObsMessageListener conn])
    by (subst doc'; simpl; now destruct (awareness doc)).
  assert (Hne : forall d', d' <> d -> heap s1 !! d' = heap s !! d').
  { intros d' Hd. subst s1. simpl. now rewrite !lookup_alter_ne by congruence. }
  assert (Hdocs1 : docs s1 = docs s) by reflexivity.
  assert (Ht1 : timers s1 = timers s) by reflexivity.
  assert (Hnt1 : next_timer s1 = next_timer s) by reflexivity.
  clearbody doc' s1. rewrite Hd'.
  match goal with |- context [log _ (with_sockets _ ?s0)] => set (s2 := s0) end.
  assert (Hq : quiet s2 = quiet s1).
  { subst s2. destruct (awareness doc') as [aw|]; [|apply conn_send_quiet].
    destruct ((map_to_list (states aw)).*1); now rewrite !conn_send_quiet. }
  apply quiet_fields in Hq as (Hheap & Hdocs & _ & _ & Ht & Hnt & _).
  clearbody s2.
  exists doc'. simpl. rewrite Hheap, Hdocs, Ht, Hnt, Hd', Hdocs1, Ht1, Hnt1.
  repeat split; assumption.
Qed.

(** X11: when the only connection of a document closes, the document
    stays registered and a timer is armed for 30 s later.  When that timer
    fires with the document still without connections, the final backup
    is requested (on an idle manager with Firebase configured its write
    starts at once, with the replica of the document), the document is
    still registered, and a second timer is armed for one minute later.
    When that one fires, the document still without connections, its name
    is removed from [docs]. *)
Theorem eviction_after_last_close t0 t1 t2 conn d doc ids s :
  sockets s !! conn ≫= handlers = Some d ->
  heap s !! d = Some doc -> conns doc = [(conn, ids)] ->
  fresh_handles s ->
  t0 + 30000 <= t1 -> t1 + 60000 <= t2 ->
  let h := next_timer s in
  let s1 := on_close t0 conn s in
  let s2 := fire_timer t1 h s1 in
  let s3 := fire_timer t2 (S h) s2 in
  docs s1 = docs s
  /\ timers s1 = timers s ++ [mkTimer h (t0 + 30000) (CbCleanup (dname doc) d)]
  /\ docs s2 = docs s
  /\ timers s2 = timers s ++ [mkTimer (S h) (t1 + 60000) (CbRemove (dname doc) d)]
  /\ (forall db, database (firebaseBackup s) = Some db ->
        isBackupRunning (firebaseBackup s) = false ->
        backupQueue (firebaseBackup s) = [] -> queue_tasks s = [] ->
        docs s !! dname doc = Some d ->
        exists m, queue_tasks s2
                  = [mkQueueTask 0 (mkPendingWrite (dname doc)
                                      (mkFbRecord (replica doc) (Some m) t1))])
  /\ docs s3 = delete (dname doc) (docs s)
  /\ timers s3 = timers s.
Proof.
  intros Hh Hdoc Hconns Hfresh Hd1 Hd2. cbv zeta.
  destruct (on_close_last t0 conn d doc ids s Hh Hdoc Hconns)
    as (doc1 & H1 & Hc1 & Hn1 & Hr1 & Hdocs1 & Ht1 & Hnt1).
  pose proof (on_close_view t0 conn s) as Hv1.
  set (s1 := on_close t0 conn s) in *. clearbody s1.
  split; [exact Hdocs1|]. split; [exact Ht1|].
  (* the 30 s timer *)
  set (sc := log (LogInfo "Cleaning up document") (with_timers (fun _ => timers s) s1)).
  assert (E2 : fire_timer t1 (next_timer s) s1
               = (setTimeout (CbRemove (dname doc) d) 60000 t1
                    (scheduleBackup t1 (dname doc) sc)).2).
  { rewrite (fire_timer_last t1 (next_timer s) _ _ _ s1 Ht1
               (fresh_handles_pending s Hfresh) Hd1).
    unfold run_callback.
    assert (He1 : conns_empty d (with_timers (fun _ => timers s) s1) = true)
      by (unfold conns_empty; simpl; now rewrite H1, Hc1).
    now rewrite He1. }
  rewrite E2. clear E2.
  assert (Hsc : heap sc = heap s1 /\ docs sc = docs s1 /\ timers sc = timers s
                /\ next_timer sc = next_timer s1 /\ backup_view sc = backup_view s1)
    by (repeat split).
  destruct Hsc as (Hsc1 & Hsc2 & Hsc3 & Hsc4 & Hsc5). clearbody sc.
  assert (Hbackup : forall db, database (firebaseBackup s) = Some db ->
            isBackupRunning (firebaseBackup s) = false ->
            backupQueue (firebaseBackup s) = [] -> queue_tasks s = [] ->
            docs s !! dname doc = Some d ->
            exists m, queue_tasks (scheduleBackup t1 (dname doc) sc)
                      = [mkQueueTask 0 (mkPendingWrite (dname doc)
                                          (mkFbRecord (replica doc) (Some m) t1))]).
  { intros db Hdb Hrun Hq Hqt Hreg.
    rewrite Hv1 in Hsc5. injection Hsc5 as Hm Hqt1 _.
    destruct (scheduleBackup_idle t1 (dname doc) d doc1 db sc) as [m Hm'].
    - now rewrite Hm.
    - now rewrite Hm.
    - now rewrite Hm.
    - now rewrite Hqt1.
    - now rewrite Hsc2, Hdocs1.
    - now rewrite Hsc1.
    - exists m. rewrite Hm'. simpl. now rewrite Hr1. }
  pose proof (scheduleBackup_registry t1 (dname doc) sc) as Hreg.
  set (sb := scheduleBackup t1 (dname doc) sc) in *. clearbody sb.
  injection Hreg as Hheap Hdocs Htimers Hnext Hsock.
  set (s2 := (setTimeout (CbRemove (dname doc) d) 60000 t1 sb).2).
  assert (Hs2 : heap s2 = heap sb /\ docs s2 = docs sb /\ queue_tasks s2 = queue_tasks sb
                /\ timers s2 = timers sb ++ [mkTimer (next_timer sb) (t1 + 60000)
                                               (CbRemove (dname doc) d)])
    by (repeat split).
  destruct Hs2 as (Hs21 & Hs22 & Hs23 & Hs24). clearbody s2.
  assert (Ht2 : timers s2 = timers s ++ [mkTimer (S (next_timer s)) (t1 + 60000)
                                           (CbRemove (dname doc) d)])
    by (now rewrite Hs24, Htimers, Hnext, Hsc3, Hsc4, Hnt1).
  split; [now rewrite Hs22, Hdocs, Hsc2|]. split; [exact Ht2|].
  split; [intros db ? ? ? ? ?; rewrite Hs23; eauto|].
  (* the one-minute timer *)
  assert (Hf2 : Forall (fun t => t_handle t <> S (next_timer s)) (timers s)).
  { eapply Forall_impl; [exact Hfresh|]. simpl. intros t Hlt. lia. }
  rewrite (fire_timer_last t2 (S (next_timer s)) _ _ _ _ Ht2 Hf2 Hd2).
  unfold run_callback.
  assert (He2 : conns_empty d (with_timers (fun _ => timers s) s2) = true)
    by (unfold conns_empty; simpl; now rewrite Hs21, Hheap, Hsc1, H1, Hc1).
  rewrite He2. simpl. now rewrite Hs22, Hdocs, Hsc2, Hdocs1.
Qed.

End Eviction.

Section Reattach.
Context {lib : Library}.

(** X12: a connection that attaches during the grace period keeps the
    document: when the 30 s timer armed by the last close fires and finds
    the new connection, it does nothing but disappear: the document
    stays registered, no final backup is requested and no removal timer
    is armed. *)
Theorem reattach_cancels_eviction t0 t t1 conn conn' d doc ids s :
  sockets s !! conn ≫= handlers = Some d ->
  heap s !! d = Some doc -> conns doc = [(conn, ids)] ->
  docs s !! dname doc = Some d -> dname doc <> EmptyString ->
  fresh_handles s ->
  t0 + 30000 <= t1 ->
  let s1 := setupWSConnection t conn' (dname doc) (on_close t0 conn s) in
  let s2 := fire_timer t1 (next_timer s) s1 in
  docs s2 = docs s
  /\ timers s2 = timers s
  /\ backup_view s2 = backup_view s
  /\ (conns <$> heap s2 !! d) = Some [(conn', [])].
Proof.
  intros Hh Hdoc Hconns Hreg Hname Hfresh Hdue. cbv zeta.
  destruct (on_close_last t0 conn d doc ids s Hh Hdoc Hconns)
    as (doc1 & H1 & Hc1 & Hn1 & Hr1 & Hdocs1 & Ht1 & Hnt1).
  pose proof (on_close_view t0 conn s) as Hv1.
  set (s0 := on_close t0 conn s) in *. clearbody s0.
  assert (E : setupWSConnection t conn' (dname doc) s0 = connection_setup conn' d s0).
  { unfold setupWSConnection. rewrite bool_decide_eq_false_2 by exact Hname.
    now rewrite Hdocs1, Hreg. }
  rewrite E. clear E.
  destruct (connection_setup_effect conn' d doc1 s0 H1)
    as (doc' & Hd' & Hc' & _ & _ & _ & Hdocs' & Ht' & _ & _).
  pose proof (connection_setup_view conn' d s0) as Hv'.
  set (s1 := connection_setup conn' d s0) in *. clearbody s1.
  rewrite Hc1 in Hc'. simpl in Hc'.
  assert (Ht1' : timers s1 = timers s ++ [mkTimer (next_timer s) (t0 + 30000)
                                             (CbCleanup (dname doc) d)])
    by (now rewrite Ht', Ht1).
  rewrite (fire_timer_last t1 (next_timer s) _ _ _ s1 Ht1'
             (fresh_handles_pending s Hfresh) Hdue).
  unfold run_callback.
  assert (He : conns_empty d (with_timers (fun _ => timers s) s1) = false)
    by (unfold conns_empty; simpl; now rewrite Hd', Hc').
  rewrite He. simpl. rewrite Hd'. simpl. rewrite Hc', Hdocs', Hdocs1.
  repeat split. change (backup_view s1 = backup_view s). congruence.
Qed.




Lemma shutdown_loop_sockets now rest : forall i s,
  sockets (shutdown_loop now rest i s) = sockets s.
Proof.
  induction rest as [|[name|] rest IH]; intros i s; simpl;
    [now destruct (persistence s) | | apply IH].
  destruct (docs s !! name ≫= _) as [doc|]; [|apply IH].
  unfold backupDocument_begin. destruct (database (firebaseBackup s)); [reflexivity|].
  apply IH.
Qed.

(** X13: a shutdown closes every socket: afterwards no socket is open or
    connecting, and each keeps its handlers.  Without a Firebase handle,
    or without a document in memory, no write is started and the
    metadata is left alone. *)
Theorem gracefulShutdown_closes now s :
  (forall c sock, sockets (gracefulShutdown now s) !! c = Some sock ->
     readyState sock <> OPEN /\ readyState sock <> CONNECTING
     /\ exists sock0, sockets s !! c = Some sock0 /\ handlers sock = handlers sock0)
  /\ (forall c, is_open c (gracefulShutdown now s) = false)
  /\ (database (firebaseBackup s) = None \/ docs s = ∅ ->
      in_flight (gracefulShutdown now s) = in_flight s
      /\ docMetadata (gracefulShutdown now s) = docMetadata s).
Proof.
  assert (Hs : forall c sock, sockets (gracefulShutdown now s) !! c = Some sock ->
     readyState sock <> OPEN /\ readyState sock <> CONNECTING
     /\ exists sock0, sockets s !! c = Some sock0 /\ handlers sock = handlers sock0).
  { intros c sock. unfold gracefulShutdown.
    destruct (_ && _); rewrite shutdown_loop_sockets; simpl; rewrite lookup_fmap;
      destruct (sockets s !! c) as [sock0|]; simpl; try discriminate;
      intros [= <-]; (destruct (readyState sock0) eqn:Hr; simpl;
        (split; [|split]; [congruence | congruence | eauto])). }
  split; [exact Hs|]. split.
  - intros c. unfold is_open.
    destruct (sockets (gracefulShutdown now s) !! c) as [sock|] eqn:Hc; [|reflexivity].
    apply bool_decide_eq_false_2. now destruct (Hs c sock Hc) as [H _].
  - intros Hno. unfold gracefulShutdown.
    assert (bool_decide (is_Some (database (firebaseBackup s)))
            && negb (bool_decide (docs s = ∅)) = false) as Hb.
    { destruct Hno as [Hdb | Hd].
      - simpl. rewrite Hdb. rewrite bool_decide_eq_false_2; [reflexivity|].
        intros [? ?]. discriminate.
      - simpl. rewrite Hd. rewrite (bool_decide_eq_true_2 (∅ = ∅)) by reflexivity.
        now rewrite andb_false_r. }
    simpl in *. rewrite Hb. destruct (persistence s); split; reflexivity.
Qed.


End Reattach.

Lemma eviction_after_last_close_witness :
  let s1 := on_close (lib := Wire.library) 100 1 demo_backed in
  let s2 := fire_timer 30100 0 s1 in
  let s3 := fire_timer 90100 1 s2 in
  docs s2 !! "demo"%string = Some 0%nat /\ docs s3 !! "demo"%string = None.
Proof.
  edestruct (eviction_after_last_close (lib := Wire.library) 100 30100 90100 1 0
               (mkYDoc "demo" [] [(1%nat, [])] [ObsBackup; ObsMessageListener 1]
                  (Some (mkAwareness ∅ [1%nat])) None) [] demo_backed)
    as (_ & _ & H2 & _ & _ & H3 & _);
    [vm_compute; reflexivity | vm_compute; reflexivity | reflexivity | constructor
     | lia | lia |].
  cbv zeta. split.
  - etransitivity; [exact (f_equal (fun m => m !! "demo"%string) H2)|].
    vm_compute. reflexivity.
  - etransitivity; [exact (f_equal (fun m => m !! "demo"%string) H3)|].
    apply lookup_delete_eq.
Defined.

Lemma reattach_cancels_eviction_witness :
  let s1 := setupWSConnection (lib := Wire.library) 5000 2 "demo"
              (on_close (lib := Wire.library) 100 1 demo_backed) in
  docs (fire_timer 30100 0 s1) !! "demo"%string = Some 0%nat.
Proof.
  edestruct (reattach_cancels_eviction (lib := Wire.library) 100 5000 30100 1 2 0
               (mkYDoc "demo" [] [(1%nat, [])] [ObsBackup; ObsMessageListener 1]
                  (Some (mkAwareness ∅ [1%nat])) None) [] demo_backed)
    as (H & _);
    [vm_compute; reflexivity | vm_compute; reflexivity | reflexivity
     | vm_compute; reflexivity | discriminate | constructor | lia |].
  cbv zeta. etransitivity; [exact (f_equal (fun m => m !! "demo"%string) H)|].
  vm_compute. reflexivity.
Defined.


Section Reach.
Context {lib : Library}.

Lemma safe_refl c s : safe c s s.
Proof.
  split; [|split; auto]. intros H. split; [exact H|]. exists []. rewrite app_nil_r.
  split; [reflexivity | apply not_elem_of_nil].
Qed.

Lemma safe_trans c s1 s2 s3 : safe c s1 s2 -> safe c s2 s3 -> safe c s1 s3.
Proof.
  intros (M1 & L1 & F1) (M2 & L2 & F2). split; [|split; auto].
  intros H. destruct (M1 H) as (H2 & l1 & E1 & N1). destruct (M2 H2) as (H3 & l2 & E2 & N2).
  split; [exact H3|]. exists (l1 ++ l2). rewrite E2, E1, app_assoc. split; [reflexivity|].
  rewrite fmap_app. intros Hin. apply elem_of_app in Hin as [Hin|Hin]; contradiction.
Qed.

Lemma outer_safe c s s' : outer_view s' = outer_view s -> safe c s s'.
Proof.
  unfold outer_view. intros [= Hd Hk Hs Hsent Ht Hn]. split; [|split].
  - intros H. split; [unfold is_open in *; now rewrite Hs|].
    exists []. rewrite app_nil_r. split; [exact Hsent | apply not_elem_of_nil].
  - unfold docs_listed. now rewrite Hd, Hk.
  - unfold fresh_handles. now rewrite Ht, Hn.
Qed.

Lemma fold_left_safe {A} c (f : Server -> A -> Server) l :
  (forall s x, safe c s (f s x)) -> forall s, safe c s (fold_left f l s).
Proof.
  intros Hf. induction l as [|x l IH]; intros s; simpl; [apply safe_refl|].
  eapply safe_trans; [apply Hf | apply IH].
Qed.

Lemma fold_left_outer {A} (f : Server -> A -> Server) l :
  (forall s x, outer_view (f s x) = outer_view s) ->
  forall s, outer_view (fold_left f l s) = outer_view s.
Proof.
  intros Hf. induction l as [|x l IH]; intros s; simpl; [reflexivity|].
  now rewrite IH, Hf.
Qed.

Lemma send_safe c c' f s : is_open c' s = true -> safe c s (send c' f s).
Proof.
  intros Hopen. split; [|split; auto]. intros H. split; [exact H|].
  exists [(c', f)]. split; [reflexivity|]. simpl. intros Hin.
  apply list_elem_of_singleton in Hin. congruence.
Qed.

Lemma conn_send_safe c c' f s : safe c s (conn_send c' f s).
Proof.
  unfold conn_send. destruct (is_open c' s) eqn:Hopen.
  - now apply send_safe.
  - now apply outer_safe.
Qed.

Lemma broadcast_safe c d conn f s : safe c s (broadcast d conn f s).
Proof.
  unfold broadcast. destruct (heap s !! d); [|apply safe_refl].
  apply fold_left_safe. intros s' x.
  destruct (bool_decide _ && is_open x.1 s') eqn:Hb; [|apply safe_refl].
  apply andb_prop in Hb as [_ Hb]. now apply send_safe.
Qed.

Lemma timers_safe c s s' :
  sockets s' = sockets s -> sent s' = sent s -> docs s' = docs s ->
  docs_keys s' = docs_keys s -> (fresh_handles s -> fresh_handles s') -> safe c s s'.
Proof.
  intros Hs Hsent Hd Hk Hf. split; [|split; [|exact Hf]].
  - intros H. split; [unfold is_open in *; now rewrite Hs|].
    exists []. rewrite app_nil_r. split; [exact Hsent | apply not_elem_of_nil].
  - unfold docs_listed. now rewrite Hd, Hk.
Qed.

Lemma setTimeout_safe c cb delay now s : safe c s (setTimeout cb delay now s).2.
Proof.
  apply timers_safe; try reflexivity. unfold fresh_handles. simpl. intros H.
  apply Forall_app. split.
  - eapply Forall_impl; [exact H|]. simpl. lia.
  - constructor; [simpl; lia | constructor].
Qed.

Lemma clearTimeout_safe c h s : safe c s (clearTimeout h s).
Proof.
  apply timers_safe; try reflexivity. unfold fresh_handles. simpl. intros H.
  apply Forall_forall. intros t Hin. apply list_elem_of_filter in Hin as [_ Hin].
  rewrite Forall_forall in H. now apply H.
Qed.

Lemma scheduleFirebaseBackup_safe c now d s : safe c s (scheduleFirebaseBackup now d s).
Proof.
  unfold scheduleFirebaseBackup. destruct (heap s !! d) as [doc|]; [|apply safe_refl].
  match goal with |- context [setTimeout _ _ _ ?sx] => set (s1 := sx) end.
  assert (H1 : safe c s s1)
    by (subst s1; destruct (backupTimer doc); [apply clearTimeout_safe | apply safe_refl]).
  clearbody s1.
  eapply safe_trans; [exact H1|].
  eapply safe_trans; [apply (setTimeout_safe c (CbBackup (dname doc))
                               FIREBASE_BACKUP_INTERVAL now s1)|].
  now apply outer_safe.
Qed.

Lemma run_update_observer_safe c now d update s o :
  safe c s (run_update_observer now d update s o).
Proof.
  destruct o as [| |conn]; simpl; [apply safe_refl| |apply broadcast_safe].
  destruct (heap s !! d); [|apply safe_refl].
  eapply safe_trans; [|apply scheduleFirebaseBackup_safe]. now apply outer_safe.
Qed.

Lemma emit_update_safe c now d update s : safe c s (emit_update now d update s).
Proof.
  unfold emit_update. destruct (heap s !! d); [|apply safe_refl].
  apply fold_left_safe. intros. apply run_update_observer_safe.
Qed.

Lemma awarenessChangeHandler_safe c d ch conn s :
  safe c s (awarenessChangeHandler d ch conn s).
Proof.
  unfold awarenessChangeHandler.
  match goal with |- context [heap ?s1 !! d ≫= awareness] =>
    assert (H1 : safe c s s1) by (apply outer_safe; now destruct conn);
    destruct (heap s1 !! d ≫= awareness) end; [|exact H1].
  eapply safe_trans; [exact H1 | apply broadcast_safe].
Qed.

Lemma emit_awareness_safe c d ch origin s : safe c s (emit_awareness d ch origin s).
Proof.
  unfold emit_awareness. destruct (heap s !! d ≫= awareness); [|apply safe_refl].
  apply fold_left_safe. intros. apply awarenessChangeHandler_safe.
Qed.

Lemma removeAwarenessStates_safe c d clients origin s :
  safe c s (removeAwarenessStates d clients origin s).
Proof.
  unfold removeAwarenessStates. destruct (heap s !! d ≫= awareness) as [aw|]; [|apply safe_refl].
  destruct (filter _ clients); [now apply outer_safe|].
  eapply safe_trans; [|apply emit_awareness_safe]. now apply outer_safe.
Qed.

Lemma restoreDocument_outer ok docName s :
  outer_view (restoreDocument ok docName s).2 = outer_view s.
Proof.
  unfold restoreDocument.
  destruct (database (firebaseBackup s)) as [db|]; [|reflexivity].
  destruct ok; [|reflexivity].
  destruct (db !! docName) as [data|]; [|reflexivity].
  now destruct (rmetadata data).
Qed.

Lemma docs_set_safe c docName d s : safe c s (docs_set docName d s).
Proof.
  split; [|split; [|auto]].
  - intros H. split; [exact H|]. exists []. rewrite app_nil_r.
    split; [reflexivity | apply not_elem_of_nil].
  - intros Hl name. unfold docs_set. simpl.
    destruct (decide (docName = name)) as [<-|Hne].
    + intros _. case_bool_decide as Hin; [now apply Hl|].
      apply elem_of_app. right. apply list_elem_of_here.
    + rewrite lookup_insert_ne by exact Hne. intros Hin.
      case_bool_decide; [now apply Hl|]. apply elem_of_app. left. now apply Hl.
Qed.

Lemma docs_delete_safe c docName s : safe c s (docs_delete docName s).
Proof.
  split; [|split; [|auto]].
  - intros H. split; [exact H|]. exists []. rewrite app_nil_r.
    split; [reflexivity | apply not_elem_of_nil].
  - intros Hl name. unfold docs_delete. simpl.
    destruct (decide (docName = name)) as [<-|Hne].
    + rewrite lookup_delete_eq. intros [? ?]. discriminate.
    + rewrite lookup_delete_ne by exact Hne. intros Hin.
      apply list_elem_of_fmap. exists (Some name). split; [|now apply Hl].
      rewrite bool_decide_eq_false_2; [reflexivity|]. congruence.
Qed.

Lemma fallback_document_safe c d docName s : safe c s (fallback_document d docName s).
Proof.
  unfold fallback_document. eapply safe_trans; [|apply docs_set_safe]. now apply outer_safe.
Qed.

Lemma observe_document_safe c d docName s : safe c s (observe_document d docName s).
Proof.
  unfold observe_document.
  eapply safe_trans; [|now apply outer_safe].
  eapply safe_trans; [|apply docs_set_safe]. now apply outer_safe.
Qed.

Lemma finish_document_safe c d docName s : safe c s (finish_document d docName s).
Proof.
  unfold finish_document. destruct (persistence s); [destruct bindState|].
  - eapply safe_trans; [|apply observe_document_safe]. now apply outer_safe.
  - apply fallback_document_safe.
  - apply observe_document_safe.
Qed.

Lemma apply_restored_safe c d docName update line s :
  safe c s (apply_restored d docName update line s).
Proof.
  unfold apply_restored. destruct (heap s !! d) as [doc|]; [|apply safe_refl].
  destruct (Y_applyUpdate _ _).
  - eapply safe_trans; [|apply finish_document_safe]. apply outer_safe. now destruct line.
  - eapply safe_trans; [|apply fallback_document_safe]. now apply outer_safe.
Qed.

Lemma restore_from_firebase_safe c now d docName okB s :
  safe c s (restore_from_firebase now d docName okB s).
Proof.
  unfold restore_from_firebase.
  pose proof (restoreDocument_outer okB docName s) as Hv.
  destruct (restoreDocument okB docName s) as [[u|] s']; simpl in Hv.
  - eapply safe_trans; [apply outer_safe, Hv | apply apply_restored_safe].
  - eapply safe_trans; [|apply finish_document_safe].
    eapply safe_trans; [apply outer_safe, Hv | now apply outer_safe].
Qed.

Lemma restore_document_safe c now d docName ioA okB s :
  safe c s (restore_document now d docName ioA okB s).
Proof.
  unfold restore_document.
  destruct (persistence s); [|apply restore_from_firebase_safe].
  destruct ioA as [|[persisted|]];
    [apply fallback_document_safe| |apply restore_from_firebase_safe].
  case_bool_decide; [apply apply_restored_safe | apply restore_from_firebase_safe].
Qed.

Lemma with_sockets_safe c F s :
  (is_open c s = false -> is_open c (with_sockets F s) = false) ->
  safe c s (with_sockets F s).
Proof.
  intros HF. split; [|split; auto]. intros H. split; [now apply HF|].
  exists []. rewrite app_nil_r. split; [reflexivity | apply not_elem_of_nil].
Qed.

Lemma connection_setup_safe c conn d s : safe c s (connection_setup conn d s).
Proof.
  unfold connection_setup.
  match goal with |- context [heap ?sx !! d] => set (s1 := sx) end.
  assert (H1 : safe c s s1) by (now apply outer_safe).
  clearbody s1. destruct (heap s1 !! d) as [doc|]; [|exact H1].
  eapply safe_trans; [exact H1|]. clear H1.
  match goal with |- safe c s1 (log _ (with_sockets ?F ?sx)) =>
    set (s3 := sx); apply (safe_trans c s1 (with_sockets F s3)); [|now apply outer_safe]
  end.
  assert (H3 : safe c s1 s3).
  { subst s3. destruct (awareness doc) as [aw|]; [|apply conn_send_safe].
    destruct ((map_to_list (states aw)).*1); [apply conn_send_safe|].
    eapply safe_trans; apply conn_send_safe. }
  clearbody s3.
  eapply safe_trans; [exact H3|].
  apply with_sockets_safe. unfold is_open. simpl.
  destruct (decide (conn = c)) as [->|Hne].
  - rewrite lookup_alter_eq. now destruct (sockets _ !! c).
  - now rewrite lookup_alter_ne by exact Hne.
Qed.

Lemma setupWSConnection_safe c now conn docName s :
  safe c s (setupWSConnection now conn docName s).
Proof.
  unfold setupWSConnection.
  destruct (docs s !! _); [apply connection_setup_safe|].
  unfold create_document. simpl.
  destruct (_ || _); [now apply outer_safe|].
  eapply safe_trans; [|apply connection_setup_safe].
  eapply safe_trans; [|apply restore_document_safe]. now apply outer_safe.
Qed.

Lemma attach_resume_safe c now k ioA okB s : safe c s (attach_resume now k ioA okB s).
Proof.
  unfold attach_resume. destruct (attach_tasks s !! k); [|apply safe_refl].
  eapply safe_trans; [|apply connection_setup_safe].
  eapply safe_trans; [|apply restore_document_safe]. now apply outer_safe.
Qed.

Lemma on_message_safe c now conn message s : safe c s (on_message now conn message s).
Proof.
  unfold on_message, message_catch.
  destruct (sockets s !! conn ≫= handlers) as [d|]; [|apply safe_refl].
  destruct (heap s !! d) as [doc|]; [|apply safe_refl].
  destruct (readVarUint message) as [[t rest]|]; [|now apply outer_safe].
  case_bool_decide.
  - assert (Hv : forall r emitted,
              safe c s
                (match emitted with
                 | Some update => content_change now d r update s
                 | None => update_doc d (with_replica r) s
                 end)).
    { intros r [update|]; [|now apply outer_safe]. unfold content_change.
      eapply safe_trans; [|apply emit_update_safe]. now apply outer_safe. }
    destruct (readSyncMessage _ _) as [r emitted reply|r emitted].
    + destruct reply; [apply Hv|]. eapply safe_trans; [apply Hv | apply conn_send_safe].
    + eapply safe_trans; [apply (Hv r emitted) | now apply outer_safe].
  - case_bool_decide; [|now apply outer_safe].
    destruct (readVarUint8Array rest) as [[update ?]|]; [|now apply outer_safe].
    destruct (awareness doc) as [aw|]; [|now apply outer_safe].
    destruct (applyAwarenessUpdate _ _) as [st [ch|]|st]; try (now apply outer_safe).
    eapply safe_trans; [|apply emit_awareness_safe]. now apply outer_safe.
Qed.

Lemma close_socket_safe c conn s :
  safe c s (with_sockets (alter (fun sock => mkSocket CLOSED (handlers sock)) conn) s).
Proof.
  apply with_sockets_safe. unfold is_open. simpl.
  destruct (decide (conn = c)) as [->|Hne].
  - rewrite lookup_alter_eq. now destruct (sockets s !! c).
  - now rewrite lookup_alter_ne by exact Hne.
Qed.

Lemma on_close_safe c now conn s : safe c s (on_close now conn s).
Proof.
  unfold on_close.
  destruct (sockets s !! conn ≫= handlers) as [d|]; [|apply close_socket_safe].
  set (s1 := update_doc d (with_aw_observers (set_delete conn)) _).
  assert (H1 : safe c s s1).
  { eapply safe_trans; [apply close_socket_safe | now apply outer_safe]. }
  clearbody s1.
  match goal with |- context [heap ?sx !! d] => set (s2 := sx) end.
  assert (H2 : safe c s s2).
  { subst s2. destruct (heap s1 !! d ≫= _); [|exact H1].
    eapply safe_trans; [exact H1 | apply removeAwarenessStates_safe]. }
  clearbody s2. destruct (heap s2 !! d) as [doc|]; [|exact H2].
  destruct (conns doc); [|exact H2].
  eapply safe_trans; [exact H2 | apply setTimeout_safe].
Qed.

Lemma backupDocument_begin_outer now docName doc s :
  outer_view (backupDocument_begin now docName doc s).2 = outer_view s.
Proof. unfold backupDocument_begin. now destruct (database (firebaseBackup s)). Qed.

Lemma backupDocument_end_outer w ok s :
  outer_view (backupDocument_end w ok s) = outer_view s.
Proof. unfold backupDocument_end. now destruct ok. Qed.

Lemma queue_loop_outer now rest : forall i s,
  outer_view (queue_loop now rest i s) = outer_view s.
Proof.
  induction rest as [|docName rest IH]; intros i s; simpl; [reflexivity|].
  destruct (docs s !! docName ≫= _) as [doc|]; [|apply IH].
  pose proof (backupDocument_begin_outer now docName doc s) as Hv.
  destruct (backupDocument_begin now docName doc s) as [[w|] s']; simpl in Hv.
  - exact Hv.
  - now rewrite IH.
Qed.

Lemma scheduleBackup_outer now docName s :
  outer_view (scheduleBackup now docName s) = outer_view s.
Proof.
  unfold scheduleBackup, processBackupQueue. destruct (_ || _); [reflexivity|].
  now rewrite queue_loop_outer.
Qed.

Lemma queue_resume_outer now k ok s : outer_view (queue_resume now k ok s) = outer_view s.
Proof.
  unfold queue_resume. destruct (queue_tasks s !! k) as [t|]; [|reflexivity].
  now rewrite queue_loop_outer, backupDocument_end_outer.
Qed.

Lemma shutdown_loop_outer now rest : forall i s,
  outer_view (shutdown_loop now rest i s) = outer_view s.
Proof.
  induction rest as [|[docName|] rest IH]; intros i s; simpl;
    [now destruct (persistence s) | | apply IH].
  destruct (docs s !! docName ≫= _) as [doc|]; [|apply IH].
  pose proof (backupDocument_begin_outer now docName doc s) as Hv.
  destruct (backupDocument_begin now docName doc s) as [[w|] s']; simpl in Hv.
  - exact Hv.
  - now rewrite IH.
Qed.

Lemma shutdown_resume_outer now k ok s :
  outer_view (shutdown_resume now k ok s) = outer_view s.
Proof.
  unfold shutdown_resume. destruct (shutdown_tasks s !! k) as [t|]; [|reflexivity].
  now rewrite shutdown_loop_outer, backupDocument_end_outer.
Qed.

Lemma fire_timer_safe c now h s : safe c s (fire_timer now h s).
Proof.
  unfold fire_timer.
  destruct (list_find _ (timers s)) as [[? t]|]; [|apply safe_refl].
  case_bool_decide; [|apply safe_refl].
  apply (safe_trans c s (clearTimeout h s)); [apply clearTimeout_safe|].
  generalize (clearTimeout h s). intros s1.
  destruct (t_callback t) as [docName|docName d|docName d]; simpl.
  - apply outer_safe, scheduleBackup_outer.
  - destruct (conns_empty d s1); [|apply safe_refl].
    apply (safe_trans c s1 (scheduleBackup now docName
                              (log (LogInfo "Cleaning up document") s1)));
      [|apply setTimeout_safe].
    apply (safe_trans c s1 (log (LogInfo "Cleaning up document") s1));
      [now apply outer_safe | apply outer_safe, scheduleBackup_outer].
  - destruct (conns_empty d s1); [|apply safe_refl].
    eapply safe_trans; [apply docs_delete_safe | now apply outer_safe].
Qed.

Lemma gracefulShutdown_safe c now s : safe c s (gracefulShutdown now s).
Proof.
  unfold gracefulShutdown.
  match goal with |- context [shutdown_loop now [] 0 ?sx] => set (s1 := sx) end.
  assert (H1 : safe c s s1); [subst s1|clearbody s1].
  { eapply safe_trans; [apply (outer_safe c s (log (LogInfo "Shutting down") s)); reflexivity|].
    apply with_sockets_safe. unfold is_open. simpl. rewrite lookup_fmap.
    destruct (sockets s !! c) as [[r hd]|]; [|reflexivity]. simpl.
    destruct r; simpl; auto. }
  destruct (_ && _); (eapply safe_trans; [exact H1 | apply outer_safe, shutdown_loop_outer]).
Qed.

Lemma step_safe c s e : not_connection c e -> safe c s (step s e).
Proof.
  intros Hne. destruct e as [now [conn docName|k ioA okB|conn message|conn|h|k ok| |k ok]];
    unfold step; simpl.
  - eapply safe_trans; [|apply setupWSConnection_safe].
    apply with_sockets_safe. unfold is_open. simpl.
    rewrite lookup_insert_ne; [auto|]. intros ->. now apply (Hne docName).
  - apply attach_resume_safe.
  - apply on_message_safe.
  - apply on_close_safe.
  - apply fire_timer_safe.
  - apply outer_safe, queue_resume_outer.
  - apply gracefulShutdown_safe.
  - apply outer_safe, shutdown_resume_outer.
Qed.

Lemma run_safe c es : forall s, Forall (not_connection c) es -> safe c s (run s es).
Proof.
  unfold run. induction es as [|e es IH]; intros s Hall; simpl; [apply safe_refl|].
  apply Forall_cons in Hall as [He Hall].
  eapply safe_trans; [now apply step_safe | now apply IH].
Qed.

(** Every name registered in [docs] has its entry in [docs_keys], in
    every state the server can reach. *)
Lemma run_docs_listed es : forall s, docs_listed s -> docs_listed (run s es).
Proof.
  unfold run. induction es as [|e es IH]; intros s Hl; simpl; [exact Hl|].
  apply IH.
  assert (Hfresh : exists c, not_connection c e).
  { destruct e as [now [conn docName|k ioA okB|conn message|conn|h|k ok| |k ok]];
      try (exists 0%nat; intros ?; discriminate).
    exists (S conn). intros docName' [= H]. lia. }
  destruct Hfresh as [c Hc]. now apply (step_safe c s e Hc).
Qed.

(** No pending timer has the handle the next [setTimeout] returns, in
    every state the server can reach. *)
Lemma run_fresh_handles es : forall s, fresh_handles s -> fresh_handles (run s es).
Proof.
  unfold run. induction es as [|e es IH]; intros s Hf; simpl; [exact Hf|].
  apply IH.
  assert (Hfresh : exists c, not_connection c e).
  { destruct e as [now [conn docName|k ioA okB|conn message|conn|h|k ok| |k ok]];
      try (exists 0%nat; intros ?; discriminate).
    exists (S conn). intros docName' [= H]. lia. }
  destruct Hfresh as [c Hc]. now apply (step_safe c s e Hc).
Qed.

End Reach.

Lemma reachable_docs_listed {lib : Library} db leveldb es :
  docs_listed (run (boot db leveldb) es).
Proof.
  apply run_docs_listed. intros name [d Hd]. simpl in Hd.
  rewrite lookup_empty in Hd. discriminate.
Qed.

Lemma reachable_fresh_handles {lib : Library} db leveldb es :
  fresh_handles (run (boot db leveldb) es).
Proof. apply run_fresh_handles. constructor. Qed.

Section Sessions.
Context {lib : Library}.

Lemma fold_left_session {A} (f : Server -> A -> Server) l s :
  (forall s x, session_view (f s x) = session_view s) ->
  session_view (fold_left f l s) = session_view s.
Proof.
  intros Hf. revert s. induction l as [|x l IH]; intros s; simpl; [reflexivity|].
  now rewrite IH, Hf.
Qed.

Lemma quiet_session a b : quiet a = quiet b -> session_view a = session_view b.
Proof. unfold quiet, session_view. intros [=]. congruence. Qed.

Lemma update_doc_session d f s : session_view (update_doc d f s) = session_view s.
Proof. unfold session_view. simpl. now rewrite dom_alter_L. Qed.

Lemma scheduleFirebaseBackup_session now d s :
  session_view (scheduleFirebaseBackup now d s) = session_view s.
Proof.
  unfold scheduleFirebaseBackup. destruct (heap s !! d) as [doc|]; [|reflexivity].
  destruct (backupTimer doc); unfold session_view; simpl; now rewrite dom_alter_L.
Qed.

Lemma emit_update_session now d update s :
  session_view (emit_update now d update s) = session_view s.
Proof.
  unfold emit_update. destruct (heap s !! d); [|reflexivity].
  apply fold_left_session. intros s' [| |c]; simpl; [reflexivity| |].
  - destruct (heap s' !! d); [|reflexivity]. now rewrite scheduleFirebaseBackup_session.
  - apply quiet_session, broadcast_quiet.
Qed.

Lemma awarenessChangeHandler_session d ch conn s :
  session_view (awarenessChangeHandler d ch conn s) = session_view s.
Proof.
  unfold awarenessChangeHandler.
  match goal with |- context [heap ?s1 !! d ≫= awareness] =>
    assert (Hv : session_view s1 = session_view s)
      by (destruct conn; [apply update_doc_session | reflexivity]);
    destruct (heap s1 !! d ≫= awareness) end; [|exact Hv].
  now rewrite (quiet_session _ _ (broadcast_quiet _ _ _ _)).
Qed.

Lemma emit_awareness_session d ch origin s :
  session_view (emit_awareness d ch origin s) = session_view s.
Proof.
  unfold emit_awareness. destruct (heap s !! d ≫= awareness); [|reflexivity].
  apply fold_left_session. intros. apply awarenessChangeHandler_session.
Qed.

(** X15: no inbound message, whatever its bytes and whatever the
    libraries make of it, creates or destroys a document, changes the
    registry, touches a socket (so it disconnects nobody), or reaches the
    backup manager and its writes. *)
Theorem on_message_keeps_sessions now conn message s :
  session_view (on_message now conn message s) = session_view s
  /\ backup_view (on_message now conn message s) = backup_view s.
Proof.
  split; [|apply on_message_view].
  unfold on_message, message_catch.
  destruct (sockets s !! conn ≫= handlers) as [d|]; [|reflexivity].
  destruct (heap s !! d) as [doc|]; [|reflexivity].
  destruct (readVarUint message) as [[t rest]|]; [|reflexivity].
  case_bool_decide.
  - assert (Hv : forall c emitted,
              session_view
                (match emitted with
                 | Some update => content_change now d c update s
                 | None => update_doc d (with_replica c) s
                 end) = session_view s).
    { intros c [update|]; [|apply update_doc_session].
      unfold content_change. now rewrite emit_update_session, update_doc_session. }
    destruct (readSyncMessage _ _) as [c emitted reply|c emitted]; [|apply (Hv c emitted)].
    destruct reply; [apply Hv|].
    now rewrite (quiet_session _ _ (conn_send_quiet _ _ _)).
  - case_bool_decide; [|reflexivity].
    destruct (readVarUint8Array rest) as [[update ?]|]; [|reflexivity].
    destruct (awareness doc) as [aw|]; [|reflexivity].
    destruct (applyAwarenessUpdate _ _) as [st [ch|]|st];
      try apply (update_doc_session d _ s).
    now rewrite emit_awareness_session, update_doc_session.
Qed.

Lemma map_set_new_keys {V} k (v : V) m :
  map_get k m = None -> (map_set k v m).*1 = m.*1 ++ [k] /\ k ∉ m.*1.
Proof.
  induction m as [|[k' v'] m IH]; [intros _; split; [reflexivity | apply not_elem_of_nil]|].
  cbn [map_get map_set]. destruct (decide (k' = k)) as [->|Hne]; [discriminate|].
  intros H. destruct (IH H) as [IH1 IH2]. rewrite !fmap_cons. simpl. split.
  - now rewrite IH1.
  - apply not_elem_of_cons. split; [congruence | exact IH2].
Qed.

Lemma map_set_NoDup {V} k (v : V) m : NoDup m.*1 -> NoDup (map_set k v m).*1.
Proof.
  intros Hm. destruct (map_get k m) as [v0|] eqn:Hget.
  - now rewrite (map_set_keys k v v0 m Hget).
  - destruct (map_set_new_keys k v m Hget) as [-> Hk].
    apply NoDup_app. split; [exact Hm|]. split; [|apply NoDup_singleton].
    intros x Hx Hx'. apply list_elem_of_singleton in Hx'. now subst.
Qed.

(** X16: setting up a connection enters it in the connections of the
    document with an empty set of controlled ids, once: the connections
    stay free of duplicates, the sets of the other connections are kept,
    and its [messageListener] is appended to the observers.  A connection
    that is open is sent the first sync step, then at most the awareness
    states, and nobody else is sent anything. *)
Theorem connection_setup_registers conn d doc s :
  heap s !! d = Some doc -> NoDup (conns doc).*1 ->
  exists doc',
    heap (connection_setup conn d s) !! d = Some doc'
    /\ map_get conn (conns doc') = Some []
    /\ NoDup (conns doc').*1
    /\ (forall c, c <> conn -> map_get c (conns doc') = map_get c (conns doc))
    /\ update_observers doc' = update_observers doc ++ [ObsMessageListener conn]
    /\ (is_open conn s = true ->
        exists rest,
          sent (connection_setup conn d s)
            = sent s ++ (conn, FSyncStep1 (Y_encodeStateVector (replica doc))) :: rest
          /\ (rest = [] \/ exists body, rest = [(conn, FAwareness body)])).
Proof.
  intros Hdoc Hnd.
  destruct (connection_setup_effect conn d doc s Hdoc)
    as (doc' & Hd' & Hc & _ & Hr & Ho & _).
  exists doc'. split; [exact Hd'|]. rewrite Hc.
  split; [apply map_get_set_eq|]. split; [now apply map_set_NoDup|].
  split; [intros c Hne; now apply map_get_set_ne|]. split; [exact Ho|].
  intros Hopen. unfold connection_setup.
  set (s1 := update_doc d (with_aw_observers (fun o => o ++ [conn])) _).
  assert (Hs1 : sent s1 = sent s /\ is_open conn s1 = true) by (split; [reflexivity | exact Hopen]).
  destruct Hs1 as [Hsent Hopen1].
  assert (Hd1 : exists doc1, heap s1 !! d = Some doc1 /\ replica doc1 = replica doc).
  { subst s1. simpl. rewrite !lookup_alter_eq, Hdoc. simpl. eexists. split; [reflexivity|].
    now destruct (awareness doc). }
  destruct Hd1 as (doc1 & Hd1 & Hr1). clearbody s1. rewrite Hd1, Hr1.
  assert (Hstep : conn_send conn (FSyncStep1 (Y_encodeStateVector (replica doc))) s1
                  = send conn (FSyncStep1 (Y_encodeStateVector (replica doc))) s1)
    by (unfold conn_send; now rewrite Hopen1).
  rewrite Hstep.
  destruct (awareness doc1) as [aw|]; [|exists []; simpl; rewrite Hsent; eauto].
  destruct ((map_to_list (states aw)).*1) as [|k keys]; [exists []; simpl; rewrite Hsent; eauto|].
  eexists. unfold conn_send.
  assert (is_open conn (send conn (FSyncStep1 (Y_encodeStateVector (replica doc))) s1) = true)
    as -> by exact Hopen1.
  simpl. rewrite Hsent, <- app_assoc. simpl. split; [reflexivity|]. right. eauto.
Qed.

Lemma map_get_delete_ne {V} k c (m : list (nat * V)) :
  c <> k -> map_get c (map_delete k m) = map_get c m.
Proof.
  intros Hne. unfold map_delete. induction m as [|[k' v] m IH]; [reflexivity|].
  rewrite filter_cons. simpl. destruct (decide (k' <> k)) as [Hk|Hk]; simpl.
  - destruct (decide (k' = c)); [reflexivity | exact IH].
  - rewrite decide_False; [exact IH|]. intros ->. apply Hk. congruence.
Qed.

(** The close handler on a connection of a document. *)
Lemma on_close_effect now conn d doc s :
  sockets s !! conn ≫= handlers = Some d -> heap s !! d = Some doc ->
  exists doc1,
    heap (on_close now conn s) !! d = Some doc1
    /\ conns doc1 = map_delete conn (conns doc)
    /\ update_observers doc1
       = filter (fun o => o <> ObsMessageListener conn) (update_observers doc)
    /\ is_open conn (on_close now conn s) = false
    /\ sockets (on_close now conn s)
       = alter (fun sock => mkSocket CLOSED (handlers sock)) conn (sockets s).
Proof.
  intros Hh Hdoc. unfold on_close. rewrite Hh.
  set (s1 := update_doc d (with_aw_observers (set_delete conn)) _).
  pose (doc1 := with_aw_observers (set_delete conn)
                  (with_update_observers (filter (fun o => o <> ObsMessageListener conn))
                     (with_conns (map_delete conn) doc))).
  assert (Hdoc1 : heap s1 !! d = Some doc1)
    by (subst s1 doc1; simpl; now rewrite !lookup_alter_eq, Hdoc).
  assert (Hc1 : conns doc1 = map_delete conn (conns doc)) by reflexivity.
  assert (Ho1 : update_observers doc1
                = filter (fun o => o <> ObsMessageListener conn) (update_observers doc))
    by reflexivity.
  assert (Hopen : is_open conn s1 = false).
  { subst s1. unfold is_open. simpl. rewrite lookup_alter_eq.
    now destruct (sockets s !! conn). }
  assert (Hsock : sockets s1
                  = alter (fun sock => mkSocket CLOSED (handlers sock)) conn (sockets s))
    by reflexivity.
  clearbody doc1 s1.
  assert (Hget : heap s1 !! d ≫= (fun doc => map_get conn (conns doc)) = None)
    by (rewrite Hdoc1; simpl; rewrite Hc1; apply map_get_delete).
  rewrite Hget, Hdoc1. exists doc1.
  match goal with |- heap ?sx !! d = _ /\ _ => set (sf := sx) end.
  assert (Hsf : heap sf = heap s1 /\ sockets sf = sockets s1)
    by (subst sf; destruct (conns doc1); split; reflexivity).
  destruct Hsf as [Hsf1 Hsf2]. clearbody sf.
  rewrite Hsf1. repeat split; try assumption; [|congruence].
  unfold is_open in *. now rewrite Hsf2.
Qed.

Lemma listener_frames_open d update s l c f :
  (c, f) ∈ flat_map (listener_frames d update s) l -> is_open c s = true.
Proof.
  intros Hin. apply list_elem_of_In, in_flat_map in Hin as (o & _ & Hin).
  apply list_elem_of_In in Hin.
  destruct o as [| |owner]; simpl in Hin; try (now apply not_elem_of_nil in Hin).
  apply list_elem_of_fmap in Hin as (c' & [= -> ->] & Hc).
  unfold recipients in Hc. destruct (heap s !! d); [|now apply not_elem_of_nil in Hc].
  now apply list_elem_of_filter in Hc as [[_ Hopen] _].
Qed.

(** X17: closing a connection takes it out of the connections of its
    document, the sets of the other connections being kept, removes its
    [messageListener] and leaves its socket closed.  From then on nothing
    is sent to it: not by an update of any document emitted next, and in
    no run of the server that follows, whatever its events, as long as no
    ['connection'] event brings the same connection in again; all along
    the connection stays closed. *)
Theorem on_close_detaches now conn d doc s :
  sockets s !! conn ≫= handlers = Some d -> heap s !! d = Some doc ->
  (exists doc1,
     heap (on_close now conn s) !! d = Some doc1
     /\ (conn ∉ (conns doc1).*1)
     /\ (forall c, c <> conn -> map_get c (conns doc1) = map_get c (conns doc))
     /\ (ObsMessageListener conn ∉ update_observers doc1))
  /\ (forall now' d' update f,
        (conn, f) ∉ drop (length (sent (on_close now conn s)))
                      (sent (emit_update now' d' update (on_close now conn s))))
  /\ (readyState <$> sockets (on_close now conn s) !! conn) = Some CLOSED
  /\ forall es, Forall (not_connection conn) es ->
       is_open conn (run (on_close now conn s) es) = false
       /\ forall f, (conn, f) ∉ drop (length (sent (on_close now conn s)))
                                   (sent (run (on_close now conn s) es)).
Proof.
  intros Hh Hdoc.
  destruct (on_close_effect now conn d doc s Hh Hdoc)
    as (doc1 & H1 & Hc & Ho & Hopen & Halter).
  split; [|split; [|split]]; cycle 2.
  - destruct (sockets s !! conn) as [sock|] eqn:Hsock; [|discriminate].
    rewrite Halter, lookup_alter_eq, Hsock. reflexivity.
  - intros es Hes. destruct (run_safe conn es (on_close now conn s) Hes) as [Hmute _].
    destruct (Hmute Hopen) as (Hclosed & l & Hsent & Hnot).
    split; [exact Hclosed|]. intros f. rewrite Hsent, drop_app_length.
    intros Hin. apply Hnot. apply list_elem_of_fmap. now exists (conn, f).
  - exists doc1. split; [exact H1|]. rewrite Hc, Ho. split; [|split].
    + unfold map_delete. intros Hin.
      apply list_elem_of_fmap in Hin as ([k v] & -> & Hin).
      apply list_elem_of_filter in Hin as [Hne _]. now apply Hne.
    + intros c Hne. now apply map_get_delete_ne.
    + intros Hin. apply list_elem_of_filter in Hin as [Hne _]. now apply Hne.
  - intros now' d' update f Hin.
    set (s1 := on_close now conn s) in *. clearbody s1.
    unfold emit_update in Hin. destruct (heap s1 !! d') as [doc'|].
    + destruct (update_observers_sent now' d' update s1 (update_observers doc') s1
                  (relay_same_refl d' s1)) as [_ Hs].
      rewrite Hs, drop_app_length in Hin.
      apply listener_frames_open in Hin. congruence.
    + rewrite drop_all in Hin. now apply not_elem_of_nil in Hin.
Qed.

(** X18: a sync message on which the document emits no update (a state
    request, or a delta that changes nothing) is answered to its sender
    alone: the only frame sent is the reply, if there is one and the
    sender is open; nobody else is sent anything and no backup is
    scheduled. *)
Theorem sync_without_update_replies_to_sender now conn message s d doc rest c reply :
  sockets s !! conn ≫= handlers = Some d -> heap s !! d = Some doc ->
  readVarUint message = Some (messageSync, rest) ->
  readSyncMessage rest (replica doc) = SyncDone c None reply ->
  sent (on_message now conn message s)
    = sent s ++ (if is_open conn s
                 then match reply with [] => [] | _ => [(conn, FSyncReply reply)] end
                 else [])
  /\ (replica <$> heap (on_message now conn message s) !! d) = Some c
  /\ timers (on_message now conn message s) = timers s
  /\ docMetadata (on_message now conn message s) = docMetadata s.
Proof.
  intros Hh Hdoc Hrd Hsync. unfold on_message.
  rewrite Hh, Hdoc, Hrd, bool_decide_eq_true_2 by reflexivity. rewrite Hsync.
  destruct reply as [|b reply].
  - simpl. rewrite lookup_alter_eq, Hdoc. destruct (is_open conn s); now rewrite app_nil_r.
  - unfold conn_send.
    assert (is_open conn (update_doc d (with_replica c) s) = is_open conn s) as -> by reflexivity.
    destruct (is_open conn s); simpl; rewrite lookup_alter_eq, Hdoc, ?app_nil_r; repeat split.
Qed.

End Sessions.

Lemma connection_setup_registers_witness :
  let s := with_sockets (insert 3%nat (mkSocket OPEN None)) demo_two in
  exists rest,
    sent (connection_setup (lib := Wire.library) 3 0 s)
    = sent s ++ (3%nat, FSyncStep1 []) :: rest.
Proof.
  intros s.
  edestruct (connection_setup_registers (lib := Wire.library) 3 0
               (mkYDoc "demo" [] [(1%nat, []); (2%nat, [])]
                  [ObsBackup; ObsMessageListener 1; ObsMessageListener 2]
                  (Some (mkAwareness ∅ [1%nat; 2%nat])) None) s)
    as (doc' & _ & _ & _ & _ & _ & H).
  - vm_compute. reflexivity.
  - vm_compute. repeat constructor; intros H;
      repeat (apply elem_of_cons in H as [H|H]; [discriminate|]);
      now apply not_elem_of_nil in H.
  - destruct (H ltac:(vm_compute; reflexivity)) as (rest & Hs & _).
    exists rest. exact Hs.
Defined.

Section IdleRequests.

(** X19: a backup request that has nothing to write leaves no trace: on
    an idle manager, a request for a name that is not registered, or made
    while Firebase is not configured, starts no write and leaves the
    server exactly as it was, the queue empty again and the manager
    idle. *)
Theorem scheduleBackup_nothing_to_write now docName s :
  isBackupRunning (firebaseBackup s) = false ->
  backupQueue (firebaseBackup s) = [] ->
  docs s !! docName = None \/ database (firebaseBackup s) = None ->
  scheduleBackup now docName s = s.
Proof.
  destruct s as [h nd ds dm [db q running] p t nt so qt att st sn co]. simpl.
  intros -> -> Hnone. unfold scheduleBackup, processBackupQueue. simpl.
  destruct Hnone as [Hd | ->].
  - rewrite Hd. reflexivity.
  - now destruct (ds !! docName ≫= _).
Qed.

End IdleRequests.

Lemma scheduleBackup_nothing_to_write_witness :
  scheduleBackup 10 "nowhere" demo_backed = demo_backed
  /\ scheduleBackup 10 "demo" demo_two = demo_two.
Proof.
  split.
  - apply (scheduleBackup_nothing_to_write 10 "nowhere" demo_backed);
      [reflexivity | reflexivity | left; vm_compute; reflexivity].
  - apply (scheduleBackup_nothing_to_write 10 "demo" demo_two);
      [reflexivity | reflexivity | right; reflexivity].
Defined.

Lemma on_close_detaches_witness :
  (3%nat, FSyncUpdate [Byte.x61; Byte.x62; Byte.x63])
    ∉ drop (length (sent (on_close (lib := Wire.library) 9 3 demo_three)))
        (sent (run (lib := Wire.library) (on_close (lib := Wire.library) 9 3 demo_three)
                 [(10, EvMessage 1 delta_abc); (11, EvConnection 4 "demo")])).
Proof.
  edestruct (on_close_detaches (lib := Wire.library) 9 3 0
               (mkYDoc "demo" [] [(1%nat, []); (2%nat, []); (3%nat, [])]
                  [ObsBackup; ObsMessageListener 1; ObsMessageListener 2;
                   ObsMessageListener 3]
                  (Some (mkAwareness ∅ [1%nat; 2%nat; 3%nat])) None) demo_three)
    as (_ & _ & _ & H); [vm_compute; reflexivity | vm_compute; reflexivity |].
  apply (H [(10, EvMessage 1 delta_abc); (11, EvConnection 4 "demo")]).
  repeat constructor; intros docName; discriminate.
Defined.

Lemma sync_without_update_replies_to_sender_witness :
  sent (on_message (lib := Wire.library) 9 1 [Byte.x00; Byte.x00] demo_written)
  = sent demo_written ++ [(1%nat, FSyncReply [Byte.x61; Byte.x62; Byte.x63])].
Proof.
  edestruct (sync_without_update_replies_to_sender (lib := Wire.library) 9 1
               [Byte.x00; Byte.x00] demo_written 0
               (mkYDoc "demo" [Byte.x61; Byte.x62; Byte.x63] [(1%nat, [])]
                  [ObsBackup; ObsMessageListener 1] (Some (mkAwareness ∅ [1%nat]))
                  (Some 0%nat))
               [Byte.x00] [Byte.x61; Byte.x62; Byte.x63] [Byte.x61; Byte.x62; Byte.x63])
    as [H _]; [vm_compute; reflexivity | vm_compute; reflexivity
               | reflexivity | reflexivity |].
  etransitivity; [exact H|]. vm_compute. reflexivity.
Defined.

Lemma gracefulShutdown_closes_witness :
  in_flight (gracefulShutdown 9 demo_two) = in_flight demo_two
  /\ is_open 1 (gracefulShutdown 9 demo_two) = false.
Proof.
  destruct (gracefulShutdown_closes 9 demo_two) as (_ & H2 & H3).
  split; [apply H3; left; reflexivity | apply H2].
Defined.
